(** * Image-gen-backend: a shallow embedding of [index.js]

    The service is an Express application whose handlers glue together
    outbound API calls, string processing and file I/O.  This development
    embeds the parts of [index.js] that the specification makes promises
    about, and states those promises as theorems over the embedding.

    Layout: Part I embeds JavaScript's strings and values, Part II the
    effects the handlers use (file system, clock, outbound calls, console,
    HTTP replies) as a state-and-exception monad, Part III the functions
    and handlers of [index.js] that the specification speaks of, together
    with the environments of the worked examples, Part IV the vocabulary
    of the statements, Part V the other handlers and helpers of [index.js]
    and those of the two earlier versions of the service, [part_000] and
    [part_001], Part VI the theorems about the specification, Part VII
    the theorems about the rest. *)

From Stdlib Require Import ZArith NArith List String Ascii Bool Lia.
From stdpp Require Import base option list gmap pretty.
Import ListNotations.

Local Open Scope Z_scope.

(* ===================================================================== *)
(** * Part I.  JavaScript strings and values *)
(* ===================================================================== *)

(** A JavaScript string is a sequence of UTF-16 code units; every code
    unit of a well-formed string is below 65536. *)
Abbreviation jsstring := (list N).

(** [js "text"] is the JavaScript string literal with the given ASCII
    characters. *)
Definition js (s : string) : jsstring :=
  map N_of_ascii (list_ascii_of_string s).

Arguments js : simpl never.

(** The double quote, for building JSON texts. *)
Definition dq : jsstring := [34%N].

Definition LF : jsstring := [10%N].
Definition TAB : jsstring := [9%N].

Module JS.

(** [s === t] on strings. *)
Definition str_eqb (s t : jsstring) : bool := bool_decide (s = t).

(** [s.startsWith(p)]. *)
Fixpoint startsWith (p s : jsstring) : bool :=
  match p, s with
  | [], _ => true
  | _ :: _, [] => false
  | a :: p', b :: s' => N.eqb a b && startsWith p' s'
  end.

(** [s.endsWith(p)]. *)
Definition endsWith (p s : jsstring) : bool :=
  startsWith (rev p) (rev s).

(** [hay.includes(needle)] on strings. *)
Fixpoint includes (needle hay : jsstring) : bool :=
  startsWith needle hay ||
  match hay with
  | [] => false
  | _ :: hay' => includes needle hay'
  end.

(** [s.split(sep)] for a non-empty separator: the pieces between the
    successive non-overlapping occurrences of [sep], scanning from the
    left.  [skip] counts the code units of a matched separator that are
    still to be passed over; [cur] is the current piece, reversed. *)
Fixpoint split_from (sep : jsstring) (skip : nat) (cur s : jsstring)
  : list jsstring :=
  match s with
  | [] => [rev cur]
  | c :: s' =>
      match skip with
      | S k => split_from sep k cur s'
      | O =>
          if startsWith sep s
          then rev cur :: split_from sep (length sep - 1) [] s'
          else split_from sep 0 (c :: cur) s'
      end
  end.

Definition split (sep s : jsstring) : list jsstring :=
  split_from sep 0 [] s.

(** [pieces.join(sep)] on an array of strings. *)
Fixpoint join (sep : jsstring) (pieces : list jsstring) : jsstring :=
  match pieces with
  | [] => []
  | [p] => p
  | p :: rest => p ++ sep ++ join sep rest
  end.

(** White space and line terminators as [String.prototype.trim] sees
    them: TAB, LF, VT, FF, CR, SP, NBSP, U+1680, U+2000..U+200A, LS, PS,
    U+202F, U+205F, U+3000 and the byte order mark. *)
Definition isWhiteSpace (c : N) : bool :=
  ((9 <=? c) && (c <=? 13) || (c =? 32) || (c =? 160) || (c =? 5760)
   || (8192 <=? c) && (c <=? 8202) || (c =? 8232) || (c =? 8233)
   || (c =? 8239) || (c =? 8287) || (c =? 12288) || (c =? 65279))%N.

Fixpoint trimStart (s : jsstring) : jsstring :=
  match s with
  | c :: s' => if isWhiteSpace c then trimStart s' else s
  | [] => []
  end.

Definition trimEnd (s : jsstring) : jsstring := rev (trimStart (rev s)).

(** [s.trim()]. *)
Definition trim (s : jsstring) : jsstring := trimEnd (trimStart s).

(** [s.toLowerCase()] on the ASCII letters.  The full function also maps
    letters outside ASCII: each of them to a string that holds a code unit
    outside ASCII, but for the Kelvin sign, which goes to k.  Comparing
    the result with a word over the letters a d e f h i n o s t w
    therefore gives the same answer either way. *)
Definition lowerUnit (c : N) : N :=
  if ((65 <=? c) && (c <=? 90))%N then (c + 32)%N else c.

Definition toLowerCase (s : jsstring) : jsstring := map lowerUnit s.

(** The same string with its ASCII letters in upper case.  The service
    does not call it; it serves to say that the stopword test ignores
    case. *)
Definition upperUnit (c : N) : N :=
  if ((97 <=? c) && (c <=? 122))%N then (c - 32)%N else c.

Definition upperCaseAscii (s : jsstring) : jsstring := map upperUnit s.

(** [haystack.includes(x)] on an array of strings. *)
Definition arrayIncludes (haystack : list jsstring) (x : jsstring) : bool :=
  existsb (str_eqb x) haystack.

(** Decimal numeral of an integer, as a template literal prints it. *)
Definition numeral (n : Z) : jsstring := js (pretty n).

End JS.

(** JavaScript values, as far as the service meets them: the primitives,
    arrays, plain objects (own enumerable properties in enumeration order,
    keys distinct) and byte buffers.  Numbers are the integers; no modelled
    decision depends on a fraction. *)
#[local] Unset Elimination Schemes.
Inductive JsValue : Type :=
| VUndefined
| VNull
| VBool (b : bool)
| VNum (n : Z)
| VStr (s : jsstring)
| VArr (items : list JsValue)
| VObj (props : list (jsstring * JsValue))
| VBuf (bytes : list N).
#[local] Set Elimination Schemes.

(** What a handler can throw: an [Error] object with its name, message
    and, for a failed HTTP call that got an answer, the [response]
    property ([VUndefined] otherwise). *)
Record JsError := mkError {
  error_name : jsstring;
  error_message : jsstring;
  error_response : JsValue
}.

Definition Error (msg : jsstring) : JsError :=
  mkError (js "Error") msg VUndefined.
Definition TypeError (msg : jsstring) : JsError :=
  mkError (js "TypeError") msg VUndefined.
Definition ReferenceError (msg : jsstring) : JsError :=
  mkError (js "ReferenceError") msg VUndefined.

Module Value.

(** Truthiness: [undefined], [null], [false], [0] and [""] are falsy. *)
Definition truthy (v : JsValue) : bool :=
  match v with
  | VUndefined | VNull => false
  | VBool b => b
  | VNum n => negb (n =? 0)
  | VStr s => match s with [] => false | _ => true end
  | VArr _ | VObj _ | VBuf _ => true
  end.

(** [v === "text"]. *)
Definition is_str (text : jsstring) (v : JsValue) : bool :=
  match v with VStr s => JS.str_eqb s text | _ => false end.

(** [v === n] for a number literal [n]. *)
Definition is_num (n : Z) (v : JsValue) : bool :=
  match v with VNum m => m =? n | _ => false end.

(** Own property of a plain object, [undefined] when absent. *)
Fixpoint lookup_prop (k : jsstring) (props : list (jsstring * JsValue))
  : JsValue :=
  match props with
  | [] => VUndefined
  | (k', v) :: rest => if JS.str_eqb k k' then v else lookup_prop k rest
  end.

(** [v.k] (or [v[k]]) for a property name [k] that is not an array index.
    Reading a property of [undefined] or [null] throws; strings, arrays and
    buffers have a [length]; the other names used here are found on no
    prototype. *)
Definition get (v : JsValue) (k : jsstring) : JsError + JsValue :=
  match v with
  | VUndefined =>
      inl (TypeError (js "Cannot read properties of undefined (reading '"
                      ++ k ++ js "')"))
  | VNull =>
      inl (TypeError (js "Cannot read properties of null (reading '"
                      ++ k ++ js "')"))
  | VObj props => inr (lookup_prop k props)
  | VStr s =>
      inr (if JS.str_eqb k (js "length") then VNum (Z.of_nat (length s))
           else VUndefined)
  | VArr l =>
      inr (if JS.str_eqb k (js "length") then VNum (Z.of_nat (length l))
           else VUndefined)
  | VBuf l =>
      inr (if JS.str_eqb k (js "length") then VNum (Z.of_nat (length l))
           else VUndefined)
  | VBool _ | VNum _ => inr VUndefined
  end.

(** [v.k] behind a guard that has found [v] truthy: such a read cannot
    throw. *)
Definition prop (v : JsValue) (k : jsstring) : JsValue :=
  match get v k with
  | inr x => x
  | inl _ => VUndefined
  end.

(** [v[i]] for a non-negative integer [i]. *)
Definition at_index (v : JsValue) (i : nat) : JsError + JsValue :=
  match v with
  | VUndefined | VNull => get v (JS.numeral (Z.of_nat i))
  | VArr l => inr (nth i l VUndefined)
  | VStr s =>
      inr (match nth_error s i with Some c => VStr [c] | None => VUndefined end)
  | VBuf l =>
      inr (match nth_error l i with
           | Some c => VNum (Z.of_N c)
           | None => VUndefined
           end)
  | VObj props => inr (lookup_prop (JS.numeral (Z.of_nat i)) props)
  | VBool _ | VNum _ => inr VUndefined
  end.

(** [Object.keys(v)] for a value that is neither [undefined] nor [null]. *)
Definition keys (v : JsValue) : list jsstring :=
  match v with
  | VObj props => map fst props
  | VArr l => map (fun i => JS.numeral (Z.of_nat i)) (seq 0 (length l))
  | VStr s => map (fun i => JS.numeral (Z.of_nat i)) (seq 0 (length s))
  | VBuf l => map (fun i => JS.numeral (Z.of_nat i)) (seq 0 (length l))
  | _ => []
  end.

(** [String(v)], which is what a template literal inserts for [v]. *)
Fixpoint toString (v : JsValue) : jsstring :=
  match v with
  | VUndefined => js "undefined"
  | VNull => js "null"
  | VBool true => js "true"
  | VBool false => js "false"
  | VNum n => JS.numeral n
  | VStr s => s
  | VArr l =>
      JS.join (js ",")
        (map (fun x => match x with
                       | VUndefined | VNull => []
                       | _ => toString x
                       end) l)
  | VObj _ => js "[object Object]"
  | VBuf l => JS.join (js ",") (map (fun c => JS.numeral (Z.of_N c)) l)
  end.

End Value.

(* ===================================================================== *)
(** * Part II.  Effects *)
(* ===================================================================== *)

(** ** What lies outside the process *)

Inductive Method := GET | POST.

(** The outbound calls: [axios] requests by method and URL, and the two
    calls made through the OpenAI client. *)
Inductive Endpoint :=
| Axios (m : Method) (url : jsstring)
| OpenAI_chat_completions_create
| OpenAI_images_generate.

#[global] Instance Method_eq_dec : EqDecision Method.
Proof. solve_decision. Defined.
#[global] Instance Endpoint_eq_dec : EqDecision Endpoint.
Proof. solve_decision. Defined.

(** An awaited promise is fulfilled with a value or rejected with an
    error. *)
Inductive Outcome :=
| Resolved (v : JsValue)
| Rejected (e : JsError).

(** The environment of a run: what the [n]-th call (counting from 0) to
    each endpoint yields, the built-in [JSON.parse] ([None] where it throws
    a [SyntaxError]; the message of that error, which depends on the text
    and on the engine, is written [Unexpected token] throughout and
    decides nothing), the [image-size] library ([None] where it throws),
    whether pdfkit can decode an image, the identifiers [uuidv4] hands
    out, and [__dirname]. *)
Record Env := mkEnv {
  upstream : Endpoint -> nat -> Outcome;
  JSON_parse : jsstring -> option JsValue;
  sizeOf : list N -> option (Z * Z);
  pdfkit_decodes : list N -> bool;
  uuidv4 : nat -> jsstring;
  dirname : jsstring
}.

(** ** What a handler acts on *)

(** One argument of a [console.log] or [console.error] call. *)
Inductive Logged :=
| LogVal (v : JsValue)
| LogErr (e : JsError).

(** The box [doc.image] fits a picture into: given outright, or
    [[imgWidth, (height / width) * imgWidth]] for the measured size. *)
Inductive Fit :=
| FitBox (w h : Z)
| FitScaled (imgWidth : Z) (measured : Z * Z).

(** The calls made on a [PDFDocument], in order. *)
Inductive DocOp :=
| OpFontSize (n : Z)
| OpFont (name : jsstring)
| OpFillColor (c : jsstring)
| OpText (t : JsValue) (options : JsValue)
| OpMoveDown (lines : Z)
| OpAddPage
| OpImage (bytes : list N) (fit : Fit).

Inductive Body :=
| BJson (v : JsValue)
| BFile (path : jsstring)
| BPdf (doc : list DocOp).

(** What a handler sent on [res]. *)
Record Reply := mkReply { status_code : Z; payload : Body }.

(** The state a handler runs in: the files that exist with their
    modification time in milliseconds, the clock ([Date.now()]), the
    outbound calls issued and the delays awaited so far (oldest first), the
    console, the module-level [pdfPreviews] map (a [Map]: insertion
    order, keys distinct), the replies sent, how many identifiers [uuidv4]
    has handed out, and the calls made so far on the [PDFDocument] of the
    running handler. *)
Record World := mkWorld {
  files : gmap jsstring Z;
  clock : Z;
  requests : list Endpoint;
  timers : list Z;
  console : list (list Logged);
  pdfPreviews : list (jsstring * jsstring);
  replies : list Reply;
  uuids : nat;
  document : list DocOp
}.

Definition set_files (f : gmap jsstring Z -> gmap jsstring Z) (w : World) :=
  mkWorld (f (files w)) (clock w) (requests w) (timers w) (console w)
          (pdfPreviews w) (replies w) (uuids w) (document w).
Definition set_clock (f : Z -> Z) (w : World) :=
  mkWorld (files w) (f (clock w)) (requests w) (timers w) (console w)
          (pdfPreviews w) (replies w) (uuids w) (document w).
Definition set_requests (f : list Endpoint -> list Endpoint) (w : World) :=
  mkWorld (files w) (clock w) (f (requests w)) (timers w) (console w)
          (pdfPreviews w) (replies w) (uuids w) (document w).
Definition set_timers (f : list Z -> list Z) (w : World) :=
  mkWorld (files w) (clock w) (requests w) (f (timers w)) (console w)
          (pdfPreviews w) (replies w) (uuids w) (document w).
Definition set_console
  (f : list (list Logged) -> list (list Logged)) (w : World) :=
  mkWorld (files w) (clock w) (requests w) (timers w) (f (console w))
          (pdfPreviews w) (replies w) (uuids w) (document w).
Definition set_pdfPreviews
  (f : list (jsstring * jsstring) -> list (jsstring * jsstring)) (w : World) :=
  mkWorld (files w) (clock w) (requests w) (timers w) (console w)
          (f (pdfPreviews w)) (replies w) (uuids w) (document w).
Definition set_replies (f : list Reply -> list Reply) (w : World) :=
  mkWorld (files w) (clock w) (requests w) (timers w) (console w)
          (pdfPreviews w) (f (replies w)) (uuids w) (document w).
Definition set_uuids (f : nat -> nat) (w : World) :=
  mkWorld (files w) (clock w) (requests w) (timers w) (console w)
          (pdfPreviews w) (replies w) (f (uuids w)) (document w).
Definition set_document (f : list DocOp -> list DocOp) (w : World) :=
  mkWorld (files w) (clock w) (requests w) (timers w) (console w)
          (pdfPreviews w) (replies w) (uuids w) (f (document w)).

(** A world with nothing in it, at time [now]. *)
Definition boot (now : Z) : World :=
  mkWorld ∅ now [] [] [] [] [] 0 [].

(** ** The monad *)

Inductive Completion (A : Type) :=
| Returned (a : A)
| Threw (e : JsError).
Arguments Returned {A} a.
Arguments Threw {A} e.

Definition M (A : Type) : Type := World -> Completion A * World.

Definition ret {A} (a : A) : M A := fun w => (Returned a, w).

Definition throw {A} (e : JsError) : M A := fun w => (Threw e, w).

Definition bind {A B} (m : M A) (k : A -> M B) : M B :=
  fun w =>
    match m w with
    | (Returned a, w') => k a w'
    | (Threw e, w') => (Threw e, w')
    end.

Notation "x <- m ;; k" := (bind m (fun x => k))
  (at level 100, m at next level, right associativity).
Notation "m ;; k" := (bind m (fun _ => k))
  (at level 100, right associativity).

(** [try { body } catch (error) { handler }]. *)
Definition try_catch {A} (body : M A) (handler : JsError -> M A) : M A :=
  fun w =>
    match body w with
    | (Returned a, w') => (Returned a, w')
    | (Threw e, w') => handler e w'
    end.

(** [try { body } finally { cleanup }]: the cleanup runs however the body
    completes; if the cleanup throws, that error replaces the body's
    completion. *)
Definition try_finally {A} (body : M A) (cleanup : M unit) : M A :=
  fun w =>
    let (r, w') := body w in
    match cleanup w' with
    | (Returned _, w'') => (r, w'')
    | (Threw e, w'') => (Threw e, w'')
    end.

(** A property read or an indexing that may throw. *)
Definition lift {A} (r : JsError + A) : M A :=
  match r with
  | inl e => throw e
  | inr a => ret a
  end.

(** [for (const x of xs) body(x)], stopping at the first throw. *)
Fixpoint forEach {A} (xs : list A) (body : A -> M unit) : M unit :=
  match xs with
  | [] => ret tt
  | x :: rest => body x ;; forEach rest body
  end.

(** ** Primitive effects *)

(** How often endpoint [e] has been called so far. *)
Definition calls_to (e : Endpoint) (w : World) : nat :=
  length (List.filter (fun e' => bool_decide (e' = e)) (requests w)).

(** The delay a timer really runs with: Node sets a delay that is below 1,
    above 2147483647 or no number at all ([None], for [NaN]) to 1. *)
Definition timeout_of (ms : option Z) : Z :=
  match ms with
  | Some n => if (1 <=? n) && (n <=? 2147483647) then n else 1
  | None => 1
  end.

Section Primitives.
Variable env : Env.

(** An outbound call: it is recorded, and completes as the environment
    says for this endpoint's next call. *)
Definition call (e : Endpoint) : M JsValue :=
  fun w =>
    let w' := set_requests (fun l => l ++ [e]) w in
    match upstream env e (calls_to e w) with
    | Resolved v => (Returned v, w')
    | Rejected err => (Threw err, w')
    end.

(** [await delay(ms)], that is [await new Promise(resolve =>
    setTimeout(resolve, ms))]: the clock moves on by [ms]. *)
Definition delay (ms : Z) : M unit :=
  fun w =>
    (Returned tt, set_timers (fun l => l ++ [ms]) (set_clock (Z.add ms) w)).

Definition Date_now : M Z := fun w => (Returned (clock w), w).

Definition console_log (args : list Logged) : M unit :=
  fun w => (Returned tt, set_console (fun l => l ++ [args]) w).

(** [console.error] writes to the same record. *)
Definition console_error := console_log.

(** [res.status(code).json(v)] and the like. *)
Definition send (c : Z) (b : Body) : M unit :=
  fun w => (Returned tt, set_replies (fun l => l ++ [mkReply c b]) w).

Definition fresh_uuid : M jsstring :=
  fun w => (Returned (uuidv4 env (uuids w)), set_uuids S w).

(** The error [fs] raises for a path that does not exist. *)
Definition ENOENT (syscall path : jsstring) : JsError :=
  Error (js "ENOENT: no such file or directory, " ++ syscall ++ js " '"
         ++ path ++ js "'").

(** [fs.statSync(path).mtimeMs]. *)
Definition statSync_mtimeMs (path : jsstring) : M Z :=
  fun w =>
    match files w !! path with
    | Some mtime => (Returned mtime, w)
    | None => (Threw (ENOENT (js "stat") path), w)
    end.

Definition unlinkSync (path : jsstring) : M unit :=
  fun w =>
    match files w !! path with
    | Some _ => (Returned tt, set_files (delete path) w)
    | None => (Threw (ENOENT (js "unlink") path), w)
    end.

Definition existsSync (path : jsstring) : M bool :=
  fun w => (Returned (bool_decide (is_Some (files w !! path))), w).

(** [fs.readFileSync(path)]: only whether the file is there matters to the
    handlers; what it holds goes into a request and decides nothing. *)
Definition readFileSync (path : jsstring) : M unit :=
  fun w =>
    match files w !! path with
    | Some _ => (Returned tt, w)
    | None => (Threw (ENOENT (js "open") path), w)
    end.

(** Writing a file (in a directory that exists) stamps it with the
    current time. *)
Definition writeFile (path : jsstring) : M unit :=
  fun w => (Returned tt, set_files (<[path := clock w]>) w).

(** [new PDFDocument(...)], and one call on the document. *)
Definition new_PDFDocument : M unit :=
  fun w => (Returned tt, set_document (fun _ => []) w).

Definition doc (op : DocOp) : M unit :=
  fun w => (Returned tt, set_document (fun l => l ++ [op]) w).

Definition the_document : M (list DocOp) :=
  fun w => (Returned (document w), w).

(** The [pdfPreviews] map. *)
Definition get_pdfPreviews : M (list (jsstring * jsstring)) :=
  fun w => (Returned (pdfPreviews w), w).

Definition update_pdfPreviews
  (f : list (jsstring * jsstring) -> list (jsstring * jsstring)) : M unit :=
  fun w => (Returned tt, set_pdfPreviews f w).

End Primitives.

(** ** [Map] *)

Module JsMap.

(** [map.get(k)]. *)
Fixpoint get (k : jsstring) (m : list (jsstring * jsstring))
  : option jsstring :=
  match m with
  | [] => None
  | (k', v) :: rest => if JS.str_eqb k k' then Some v else get k rest
  end.

(** [map.set(k, v)]: a key that is present keeps its place. *)
Fixpoint set (k v : jsstring) (m : list (jsstring * jsstring))
  : list (jsstring * jsstring) :=
  match m with
  | [] => [(k, v)]
  | (k', v') :: rest =>
      if JS.str_eqb k k' then (k, v) :: rest else (k', v') :: set k v rest
  end.

(** [map.delete(k)]. *)
Definition delete (k : jsstring) (m : list (jsstring * jsstring))
  : list (jsstring * jsstring) :=
  List.filter (fun kv => negb (JS.str_eqb k (fst kv))) m.

End JsMap.

(* ===================================================================== *)
(** * Part III.  The functions and handlers of [index.js] *)
(* ===================================================================== *)

Definition port : Z := 4000.
Definition MAX_RETRIES : nat := 5.

Definition FLIPBOOK_API_URL : jsstring :=
  js "https://api-tc.is.flippingbook.com/api/v1/fbonline/publication/".
Definition CHAT_COMPLETIONS_URL : jsstring :=
  js "https://api.openai.com/v1/chat/completions".

(** [len > 0] where [len] is the [length] of an array or of a string:
    a number, or [undefined] where there is no such property.  (An object
    carrying a [length] property of its own that is no number would be
    converted to one first; such values are outside this model, which
    takes the test to fail on them.) *)
Definition positive_length (len : JsValue) : bool :=
  match len with VNum n => 0 <? n | _ => false end.

(** ** Story namer *)

Definition stopwords : list jsstring :=
  [js "the"; js "a"; js "an"; js "is"; js "was"; js "and"; js "of";
   js "in"; js "on"].

Definition generateStoryName (summary : jsstring) : jsstring :=
  let words := JS.split (js " ") summary in
  let filteredWords :=
    List.filter (fun word => negb (JS.arrayIncludes stopwords (JS.toLowerCase word)))
           words in
  let nameWords :=
    firstn (Nat.min (length filteredWords) 3) filteredWords in
  let name := JS.join (js " ") nameWords in
  name.

(** The test the filter applies to one word. *)
Definition is_stopword (word : jsstring) : bool :=
  JS.arrayIncludes stopwords (JS.toLowerCase word).

(** The namer as the specification words it: the summary is tokenized on
    white space, so that a token never holds white space and is never
    empty.  [cur] is the token being read, reversed. *)
Fixpoint tokenize_from (cur s : jsstring) : list jsstring :=
  match s with
  | [] => match cur with [] => [] | _ => [rev cur] end
  | c :: s' =>
      if JS.isWhiteSpace c
      then match cur with
           | [] => tokenize_from [] s'
           | _ => rev cur :: tokenize_from [] s'
           end
      else tokenize_from (c :: cur) s'
  end.

Definition tokenize_on_whitespace (s : jsstring) : list jsstring :=
  tokenize_from [] s.

Definition storyName_as_specified (summary : jsstring) : jsstring :=
  JS.join (js " ")
    (firstn 3 (List.filter (fun w => negb (is_stopword w))
                      (tokenize_on_whitespace summary))).

(** ** Sanitizing a chat reply *)

(** The class [[\u0000-\u001F\u007F-\u009F]]. *)
Definition isControl (c : N) : bool :=
  ((c <=? 31) || (127 <=? c) && (c <=? 159))%N.

(** [str.replace(/[\u0000-\u001F\u007F-\u009F]/g, '')]. *)
Definition escapeJsonString (str : jsstring) : jsstring :=
  List.filter (fun c => negb (isControl c)) str.

(** The same on whatever value the reply holds where the text should be:
    calling [replace] on [undefined] or [null] throws, and no other value
    but a string has a [replace] method. *)
Definition escapeJsonString_of (str : JsValue) : JsError + jsstring :=
  match str with
  | VStr s => inr (escapeJsonString s)
  | VUndefined =>
      inl (TypeError
             (js "Cannot read properties of undefined (reading 'replace')"))
  | VNull =>
      inl (TypeError
             (js "Cannot read properties of null (reading 'replace')"))
  | _ => inl (TypeError (js "str.replace is not a function"))
  end.

(** [response.data.choices[0].message.content]; each read throws on
    [undefined] and [null]. *)
Definition first_choice_content (response : JsValue) : JsError + JsValue :=
  match Value.get response (js "data") with
  | inl e => inl e
  | inr data =>
      match Value.get data (js "choices") with
      | inl e => inl e
      | inr choices =>
          match Value.at_index choices 0 with
          | inl e => inl e
          | inr choice =>
              match Value.get choice (js "message") with
              | inl e => inl e
              | inr msg => Value.get msg (js "content")
              end
          end
      end
  end.

(** ** Retry helper *)

(** The delay of the timer set by [setTimeout(resolve, 1000 * Math.pow(2,
    i))].  The product is exact as long as it is finite, and beyond that
    it is [Infinity]; either way Node runs a timer above 2147483647 with a
    delay of 1. *)
Definition backoff (i : nat) : Z := timeout_of (Some (1000 * 2 ^ Z.of_nat i)).

Section Clients.
Variable env : Env.

(** The loop body of [makeRequestWithRetry] for [i] and the values of [i]
    still to come. *)
Fixpoint makeRequestWithRetry_for (url : jsstring) (maxRetries : nat)
  (indices : list nat) : M JsValue :=
  match indices with
  | [] => ret VUndefined
  | i :: later =>
      try_catch
        (call env (Axios POST url))
        (fun error =>
           if (Z.of_nat i =? Z.of_nat maxRetries - 1)
           then throw error
           else
             delay (backoff i) ;;
             makeRequestWithRetry_for url maxRetries later)
  end.

(** [for (let i = 0; i < maxRetries; i++) { ... }]; the function returns
    [undefined] when the loop ends. *)
Definition makeRequestWithRetry (url : jsstring) (maxRetries : nat)
  : M JsValue :=
  makeRequestWithRetry_for url maxRetries (seq 0 maxRetries).

(** ** Text generation client *)

(** The [try] block of [makeChatRequest]: one call, then the reply is
    sanitized and parsed. *)
Definition chat_attempt : M JsValue :=
  response <- call env (Axios POST CHAT_COMPLETIONS_URL) ;;
  content <- lift (first_choice_content response) ;;
  content <- lift (escapeJsonString_of content) ;;
  try_catch
    (match JSON_parse env content with
     | Some storyData => ret storyData
     | None => throw (mkError (js "SyntaxError") (js "Unexpected token")
                              VUndefined)
     end)
    (fun parseError =>
       console_error [LogVal (VStr (js "Error parsing JSON:"));
                      LogErr parseError] ;;
       console_error [LogVal (VStr (js "Content that caused the error:"));
                      LogVal (VStr content)] ;;
       throw (Error (js "Failed to parse JSON response"))).

(** [error.response && error.response.status === 429]. *)
Definition rate_limited (error : JsError) : bool :=
  Value.truthy (error_response error)
  && Value.is_num 429 (Value.prop (error_response error) (js "status")).

(** [makeChatRequest] calls itself with [retries + 1], and only while
    [retries < MAX_RETRIES]; [fuel] bounds the depth of these calls. *)
Fixpoint makeChatRequest_fuel (fuel : nat)
  (message numChapters maxWordsPerChapter : JsValue) (retries : nat)
  : M JsValue :=
  try_catch chat_attempt
    (fun error =>
       if rate_limited error && (retries <? MAX_RETRIES)%nat
       then
         console_log
           [LogVal (VStr (js "Rate limited. Retrying in "
                          ++ JS.numeral ((Z.of_nat retries + 1) * 1000)
                          ++ js " ms..."))] ;;
         delay ((Z.of_nat retries + 1) * 1000) ;;
         match fuel with
         | S fuel' =>
             makeChatRequest_fuel fuel' message numChapters
                                  maxWordsPerChapter (retries + 1)
         | O => throw (Error (js "out of fuel"))
         end
       else
         console_error
           [LogVal (VStr (js "Error in makeChatRequest:"));
            match error_message error with
            | [] => LogErr error
            | m => LogVal (VStr m)
            end] ;;
         throw error).

(** [MAX_RETRIES - retries] nested calls are all there can be. *)
Definition makeChatRequest (message numChapters maxWordsPerChapter : JsValue)
  (retries : nat) : M JsValue :=
  makeChatRequest_fuel (MAX_RETRIES - retries) message numChapters
                       maxWordsPerChapter retries.

(** ** Image description client *)

(** [content.split('\n\n').filter(p => p.trim().length > 0)]. *)
Definition paragraphs_of (content : jsstring) : list jsstring :=
  List.filter (fun p => (0 <? length (JS.trim p))%nat)
         (JS.split (LF ++ LF) content).

Definition describeImage (imageFilePath : jsstring) : M jsstring :=
  try_catch
    (readFileSync imageFilePath ;;
     response <- call env OpenAI_chat_completions_create ;;
     if Value.truthy response
        && Value.truthy (Value.prop response (js "choices"))
        && positive_length
             (Value.prop (Value.prop response (js "choices")) (js "length"))
     then
       choice <- lift (Value.at_index (Value.prop response (js "choices")) 0) ;;
       if Value.truthy choice
          && Value.truthy (Value.prop choice (js "message"))
       then
         match Value.prop (Value.prop choice (js "message")) (js "content") with
         | VStr content =>
             let paragraphs := paragraphs_of content in
             if (length paragraphs <? 5)%nat
             then throw (Error (js "Generated content has less than 5 paragraphs"))
             else ret content
         | _ => throw (Error (js "No valid message found in response"))
         end
       else throw (Error (js "No valid message found in response"))
     else throw (Error (js "Unexpected response structure")))
    (fun error =>
       console_error
         [LogVal (VStr (js "Error in describeImage:"));
          match error_message error with
          | [] => LogErr error
          | m => LogVal (VStr m)
          end] ;;
       throw error).

(** ** Downloading a chapter image *)

(** [Buffer.from(data, 'binary')].  With [responseType: 'arraybuffer']
    axios hands over a buffer.  String data gives one byte per code unit;
    [undefined], [null], numbers and booleans make [Buffer.from] throw.
    Arrays and array-like objects, which axios never yields here, are not
    modelled apart and throw as well. *)
Definition Buffer_from (data : JsValue) : JsError + list N :=
  match data with
  | VBuf bytes => inr bytes
  | VStr s => inr (map (fun c => c mod 256)%N s)
  | _ =>
      inl (TypeError (js "The first argument must be of type string or an instance of Buffer, ArrayBuffer, or Array or an Array-like Object."))
  end.

Definition downloadImageToBuffer (url : JsValue) : M (list N) :=
  try_catch
    (response <- call env (Axios GET (Value.toString url)) ;;
     status <- lift (Value.get response (js "status")) ;;
     if negb (Value.is_num 200 status)
     then
       statusText <- lift (Value.get response (js "statusText")) ;;
       throw (Error (js "Failed to fetch image: " ++ Value.toString statusText))
     else
       data <- lift (Value.get response (js "data")) ;;
       lift (Buffer_from data))
    (fun error =>
       console_error
         [LogVal (VStr (js "Error downloading image:"));
          match error_message error with
          | [] => LogErr error
          | m => LogVal (VStr m)
          end] ;;
       throw error).

(** [doc.image(imageBuffer, { fit, ... })]: pdfkit throws on bytes it
    cannot decode. *)
Definition doc_image (imageBuffer : list N) (fit : Fit) : M unit :=
  if pdfkit_decodes env imageBuffer
  then doc (OpImage imageBuffer fit)
  else throw (Error (js "Unknown image format.")).

End Clients.

(** ** Document assembler *)

(** [key.startsWith('chapter') && !key.endsWith('Name')]. *)
Definition is_chapter_key (key : jsstring) : bool :=
  JS.startsWith (js "chapter") key && negb (JS.endsWith (js "Name") key).

(** [chapterContent.split('\n\n')]: only a string has a [split]. *)
Definition split_paragraphs (chapterContent : JsValue)
  : JsError + list jsstring :=
  match chapterContent with
  | VStr s => inr (JS.split (LF ++ LF) s)
  | VUndefined =>
      inl (TypeError
             (js "Cannot read properties of undefined (reading 'split')"))
  | VNull =>
      inl (TypeError (js "Cannot read properties of null (reading 'split')"))
  | _ => inl (TypeError (js "chapterContent.split is not a function"))
  end.

Definition align (how : string) : JsValue :=
  VObj [(js "align", VStr (js how))].

Definition chapter_heading (i : nat) (chapterName : JsValue) : JsValue :=
  VStr (js "Chapter " ++ JS.numeral (Z.of_nat i + 1) ++ js ": "
        ++ Value.toString chapterName).

Definition json_error (msg : string) : Body :=
  BJson (VObj [(js "error", VStr (js msg))]).

Section Assembler.
Variable env : Env.

(** *** [POST /api/pdf] *)

(** The chapter loop, at index [i] with the keys from [i] on. *)
Fixpoint api_pdf_chapters (storyData imageUrls : JsValue) (count i : nat)
  (chapterKeys : list jsstring) : M unit :=
  match chapterKeys with
  | [] => ret tt
  | chapterKey :: later =>
      let chapterNameKey := chapterKey ++ js "Name" in
      let chapterContent := Value.prop storyData chapterKey in
      let chapterName := Value.prop storyData chapterNameKey in
      doc (OpFontSize 20) ;; doc (OpFillColor (js "blue")) ;;
      doc (OpText (chapter_heading i chapterName) (align "center")) ;;
      doc (OpMoveDown 1) ;;
      imageUrl <- lift (Value.at_index imageUrls i) ;;
      (if Value.truthy imageUrl then
         imageBuffer <- downloadImageToBuffer env imageUrl ;;
         doc_image env imageBuffer (FitBox 500 500) ;;
         doc (OpMoveDown 1)
       else ret tt) ;;
      paragraphs <- lift (split_paragraphs chapterContent) ;;
      forEach paragraphs
        (fun paragraph =>
           doc (OpFontSize 12) ;; doc (OpFillColor (js "black")) ;;
           doc (OpText (VStr paragraph) VUndefined) ;;
           doc (OpMoveDown 1)) ;;
      (if (Z.of_nat i <? Z.of_nat count - 1) then doc OpAddPage else ret tt) ;;
      api_pdf_chapters storyData imageUrls count (S i) later
  end.

(** The handler has no [try]: what is thrown inside rejects the promise
    the handler returns, and nothing is sent. *)
Definition api_pdf (body : JsValue) : M unit :=
  storyData <- lift (Value.get body (js "storyData")) ;;
  imageUrls <- lift (Value.get body (js "imageUrls")) ;;
  storyName <- lift (Value.get body (js "storyName")) ;;
  if negb (Value.truthy storyData)
  then send 400 (json_error "Story content is required")
  else
    new_PDFDocument ;;
    doc (OpFontSize 28) ;; doc (OpFillColor (js "red")) ;;
    doc (OpText storyName (align "center")) ;;
    doc (OpMoveDown 1) ;;
    let chapterKeys := List.filter is_chapter_key (Value.keys storyData) in
    api_pdf_chapters storyData imageUrls (length chapterKeys) 0 chapterKeys ;;
    pdfData <- the_document ;;
    send 200 (BPdf pdfData).

(** *** [POST /api/generate-pdf] *)

Definition justified : JsValue :=
  VObj [(js "align", VStr (js "justify")); (js "lineGap", VNum 5)].

(** [sizeOf(imageBuffer)]. *)
Definition image_size (imageBuffer : list N) : M (Z * Z) :=
  match sizeOf env imageBuffer with
  | Some dimensions => ret dimensions
  | None => throw (TypeError (js "unsupported file type: undefined"))
  end.

(** The [try]/[catch] around a chapter's image. *)
Definition generate_pdf_image (imageUrl : JsValue) : M unit :=
  try_catch
    (imageBuffer <- downloadImageToBuffer env imageUrl ;;
     (if (length imageBuffer =? 0)%nat
      then throw (Error (js "Image buffer is empty"))
      else ret tt) ;;
     dimensions <- image_size imageBuffer ;;
     let imgWidth := 400 in
     doc_image env imageBuffer (FitScaled imgWidth dimensions) ;;
     doc (OpMoveDown 1))
    (fun imgError =>
       console_error
         [LogVal (VStr (js "Error adding image to PDF:"));
          match error_message imgError with
          | [] => LogErr imgError
          | m => LogVal (VStr m)
          end] ;;
       doc (OpFontSize 10) ;; doc (OpFillColor (js "#ff0000")) ;;
       doc (OpText (VStr (js "Error loading image")) (align "center")) ;;
       doc (OpMoveDown 1)).

Fixpoint generate_pdf_chapters (storyData imageUrls : JsValue) (count i : nat)
  (chapterKeys : list jsstring) : M unit :=
  match chapterKeys with
  | [] => ret tt
  | chapterKey :: later =>
      let chapterNameKey := chapterKey ++ js "Name" in
      let chapterContent := Value.prop storyData chapterKey in
      let chapterName := Value.prop storyData chapterNameKey in
      imageUrl <- lift (Value.at_index imageUrls i) ;;
      doc (OpFontSize 18) ;; doc (OpFont (js "Helvetica-Bold")) ;;
      doc (OpFillColor (js "#0066cc")) ;;
      doc (OpText (chapter_heading i chapterName) (align "left")) ;;
      doc (OpMoveDown 1) ;;
      doc (OpFontSize 12) ;; doc (OpFont (js "Helvetica")) ;;
      doc (OpFillColor (js "#000000")) ;;
      paragraphs <- lift (split_paragraphs chapterContent) ;;
      forEach paragraphs
        (fun paragraph =>
           doc (OpText (VStr paragraph) justified) ;; doc (OpMoveDown 1)) ;;
      doc OpAddPage ;;
      (if Value.truthy imageUrl then generate_pdf_image imageUrl
       else ret tt) ;;
      (if (Z.of_nat i <? Z.of_nat count - 1) then doc OpAddPage else ret tt) ;;
      generate_pdf_chapters storyData imageUrls count (S i) later
  end.

Definition api_generate_pdf (body : JsValue) : M unit :=
  storyData <- lift (Value.get body (js "storyData")) ;;
  imageUrls <- lift (Value.get body (js "imageUrls")) ;;
  storyName <- lift (Value.get body (js "storyName")) ;;
  if negb (Value.truthy storyData) || negb (Value.truthy imageUrls)
  then send 400 (json_error "Story content and images are required")
  else
    try_catch
      (new_PDFDocument ;;
       doc (OpFontSize 24) ;; doc (OpFont (js "Helvetica-Bold")) ;;
       doc (OpFillColor (js "#333333")) ;;
       doc (OpText storyName (align "center")) ;;
       doc (OpMoveDown 2) ;;
       let chapterKeys := List.filter is_chapter_key (Value.keys storyData) in
       generate_pdf_chapters storyData imageUrls (length chapterKeys) 0
                             chapterKeys ;;
       streamed <- the_document ;;
       send 200 (BPdf streamed))
      (fun error =>
         console_error
           [LogVal (VStr (js "Error generating PDF:"));
            match error_message error with
            | [] => LogErr error
            | m => LogVal (VStr m)
            end] ;;
         send 500 (json_error "An error occurred while generating the PDF.")).

End Assembler.

(** ** Preview store *)

(** [path.join(__dirname, 'pdf-previews', `${previewId}.pdf`)], for an
    identifier without path separators, as [uuidv4] gives them. *)
Definition preview_path (env : Env) (previewId : jsstring) : jsstring :=
  dirname env ++ js "/pdf-previews/" ++ previewId ++ js ".pdf".

Definition preview_url (previewId : jsstring) : jsstring :=
  js "http://localhost:" ++ JS.numeral port ++ js "/api/pdf-preview/"
  ++ previewId.

Section Previews.
Variable env : Env.

(** *** [POST /api/generate-pdf-preview] *)

(** The [try]/[catch] around a chapter's image: the [catch] only logs. *)
Definition preview_image (imageUrl : JsValue) : M unit :=
  try_catch
    (imageBuffer <- downloadImageToBuffer env imageUrl ;;
     if (0 <? length imageBuffer)%nat
     then
       dimensions <- image_size env imageBuffer ;;
       let imgWidth := 400 in
       doc_image env imageBuffer (FitScaled imgWidth dimensions)
     else ret tt)
    (fun imgError =>
       console_error
         [LogVal (VStr (js "Error adding image to PDF:"));
          match error_message imgError with
          | [] => LogErr imgError
          | m => LogVal (VStr m)
          end]).

Fixpoint preview_chapters (storyData imageUrls : JsValue) (count i : nat)
  (chapterKeys : list jsstring) : M unit :=
  match chapterKeys with
  | [] => ret tt
  | chapterKey :: later =>
      let chapterNameKey := chapterKey ++ js "Name" in
      let chapterContent := Value.prop storyData chapterKey in
      let chapterName := Value.prop storyData chapterNameKey in
      imageUrl <- lift (Value.at_index imageUrls i) ;;
      doc (OpFontSize 18) ;; doc (OpFont (js "Helvetica-Bold")) ;;
      doc (OpFillColor (js "#0066cc")) ;;
      doc (OpText (chapter_heading i chapterName) (align "left")) ;;
      doc (OpMoveDown 1) ;;
      doc (OpFontSize 12) ;; doc (OpFont (js "Helvetica")) ;;
      doc (OpFillColor (js "#000000")) ;;
      paragraphs <- lift (split_paragraphs chapterContent) ;;
      forEach paragraphs
        (fun paragraph =>
           doc (OpText (VStr paragraph) justified) ;; doc (OpMoveDown 1)) ;;
      (if Value.truthy imageUrl then preview_image imageUrl else ret tt) ;;
      (if (Z.of_nat i <? Z.of_nat count - 1) then doc OpAddPage else ret tt) ;;
      preview_chapters storyData imageUrls count (S i) later
  end.

(** The document is written to [pdfPath]; once the write stream has
    finished, the path is registered under the identifier and the reply is
    sent.  Directories are not modelled: the handler creates
    [pdf-previews] when it is missing, so the write finds it. *)
Definition api_generate_pdf_preview (body : JsValue) : M unit :=
  storyData <- lift (Value.get body (js "storyData")) ;;
  imageUrls <- lift (Value.get body (js "imageUrls")) ;;
  storyName <- lift (Value.get body (js "storyName")) ;;
  if negb (Value.truthy storyData) || negb (Value.truthy storyName)
  then send 400 (json_error "Story content and name are required")
  else
    try_catch
      (new_PDFDocument ;;
       previewId <- fresh_uuid env ;;
       let pdfPath := preview_path env previewId in
       doc (OpFontSize 24) ;; doc (OpFont (js "Helvetica-Bold")) ;;
       doc (OpFillColor (js "#333333")) ;;
       doc (OpText storyName (align "center")) ;;
       doc (OpMoveDown 2) ;;
       let chapterKeys := List.filter is_chapter_key (Value.keys storyData) in
       preview_chapters storyData imageUrls (length chapterKeys) 0
                        chapterKeys ;;
       writeFile pdfPath ;;
       update_pdfPreviews (JsMap.set previewId pdfPath) ;;
       let previewUrl := preview_url previewId in
       send 200 (BJson (VObj [(js "previewId", VStr previewId);
                              (js "previewUrl", VStr previewUrl)])))
      (fun error =>
         console_error [LogVal (VStr (js "Error generating PDF preview:"));
                        LogErr error] ;;
         send 500
           (json_error "An error occurred while generating the PDF preview.")).

(** *** [GET /api/pdf-preview/:previewId] *)

(** [!pdfPath] holds for [undefined] and for the empty string. *)
Definition api_pdf_preview (previewId : jsstring) : M unit :=
  previews <- get_pdfPreviews ;;
  match JsMap.get previewId previews with
  | Some (c :: p) => send 200 (BFile (c :: p))
  | _ => send 404 (json_error "PDF preview not found")
  end.

(** *** The sweep *)

(** [pdfPreviews.forEach] visits the entries in insertion order; the
    callback, [sweep_entry], deletes no entry but the one it is visiting,
    so the entries still to come are those that were there when the sweep
    began. *)
Definition sweep_entry (now : Z) (entry : jsstring * jsstring) : M unit :=
  let '(id, path) := entry in
  mtimeMs <- statSync_mtimeMs path ;;
  if (now - mtimeMs >? 3600000)
  then
    unlinkSync path ;;
    update_pdfPreviews (JsMap.delete id)
  else ret tt.

Definition cleanupPreviews : M unit :=
  now <- Date_now ;;
  previews <- get_pdfPreviews ;;
  forEach previews (sweep_entry now).

End Previews.

(** ** Flipbook publisher *)

(** What multer leaves in [req.file]: the upload has been stored at
    [path] before the handler runs. *)
Record Upload := mkUpload { path : jsstring; originalname : jsstring }.

Definition view_url (hashId : JsValue) : jsstring :=
  js "https://online.flippingbook.com/view/" ++ Value.toString hashId
  ++ js "/".

Definition status_endpoint (flipbookId : JsValue) : Endpoint :=
  Axios GET (FLIPBOOK_API_URL ++ Value.toString flipbookId).

Definition create_endpoint : Endpoint :=
  Axios POST (FLIPBOOK_API_URL ++ js "create").

(** The body of the [500] reply both handlers send from their [catch]. *)
Definition flipbook_failure (error : JsError) : Body :=
  BJson (VObj
    [(js "error", VStr (js "An error occurred while creating the flipbook"));
     (js "details", VStr (error_message error));
     (js "responseData",
      if Value.truthy (error_response error)
      then Value.prop (error_response error) (js "data")
      else VNull)]).

Definition flipbook_success (flipbookUrl : jsstring) : Body :=
  BJson (VObj [(js "success", VBool true);
               (js "flipbookUrl", VStr flipbookUrl)]).

(** What the handlers append to a form of the [form-data] package: a
    stream that reads a file, or a [Blob] made of a buffer ([Blob] is a
    global of Node from version 18 on). *)
Inductive FormValue :=
  | ReadStream (file : jsstring)
  | BlobOf (type : jsstring).

(** [formData.append('file', value, options)].  The package takes a value
    that is no string, number or buffer for a stream and subscribes to its
    events with [value.on].  A read stream has that method.  A [Blob] has
    none: the call throws, and nothing is appended. *)
Definition formData_append (value : FormValue) : M unit :=
  match value with
  | ReadStream _ => ret tt
  | BlobOf _ => throw (TypeError (js "source.on is not a function"))
  end.

Section Flipbook.
Variable env : Env.

(** [catch (error) { ... }] of both handlers. *)
Definition flipbook_catch (error : JsError) : M unit :=
  console_error [LogVal (VStr (js "Error creating flipbook:"));
                 LogVal (VStr (error_message error))] ;;
  (if Value.truthy (error_response error)
   then console_error
          [LogVal (VStr (js "FlippingBook API error response:"));
           LogVal (Value.prop (error_response error) (js "data"))]
   else ret tt) ;;
  send 500 (flipbook_failure error).

(** *** [POST /api/create-flipbook-from-pdf]

    The upload is appended to the form as a [Blob], which the form does
    not take: the handler goes from there to its [catch], and the rest of
    the [try] block, the creation call and the polling, is never run. *)

(** [while (!flipbookUrl && attempts < 10) { ... attempts++ }], for the
    values of [attempts] still to come; the result is [flipbookUrl], with
    [None] for [null]. *)
Fixpoint from_pdf_poll (flipbookId : JsValue) (attempts : list nat)
  : M (option jsstring) :=
  match attempts with
  | [] => ret None
  | _ :: later =>
      delay 5000 ;;
      statusResponse <- call env (status_endpoint flipbookId) ;;
      data <- lift (Value.get statusResponse (js "data")) ;;
      publication <- lift (Value.get data (js "publication")) ;;
      if Value.truthy publication
         && Value.is_str (js "Ready") (Value.prop publication (js "state"))
      then ret (Some (view_url (Value.prop publication (js "hashId"))))
      else from_pdf_poll flipbookId later
  end.

Definition api_create_flipbook_from_pdf (file : option Upload) : M unit :=
  match file with
  | None => send 400 (json_error "No PDF file uploaded")
  | Some file =>
      try_finally
        (try_catch
           (let pdfPath := path file in
            readFileSync pdfPath ;;
            formData_append (BlobOf (js "application/pdf")) ;;
            createResponse <- call env create_endpoint ;;
            data <- lift (Value.get createResponse (js "data")) ;;
            console_log [LogVal (VStr (js "FlippingBook API Response:"));
                         LogVal data] ;;
            if Value.truthy data && Value.truthy (Value.prop data (js "id"))
            then
              let flipbookId := Value.prop data (js "id") in
              flipbookUrl <- from_pdf_poll flipbookId (seq 0 10) ;;
              match flipbookUrl with
              | Some flipbookUrl => send 200 (flipbook_success flipbookUrl)
              | None => throw (Error (js "Flipbook processing timed out"))
              end
            else
              throw (Error
                (js "Invalid or unexpected response from FlippingBook API")))
           flipbook_catch)
        (unlinkSync (path file))
  end.

(** *** [POST /api/create-flipbook-from-url] *)

(** As above, with the status logged before it is tested: the logging
    reads [publication.state] without a guard. *)
Fixpoint from_url_poll (flipbookId : JsValue) (attempts : list nat)
  : M (option jsstring) :=
  match attempts with
  | [] => ret None
  | attempts_now :: later =>
      delay 5000 ;;
      statusResponse <- call env (status_endpoint flipbookId) ;;
      data <- lift (Value.get statusResponse (js "data")) ;;
      publication <- lift (Value.get data (js "publication")) ;;
      state <- lift (Value.get publication (js "state")) ;;
      console_log
        [LogVal (VStr (js "Attempt " ++ JS.numeral (Z.of_nat attempts_now + 1)
                       ++ js ": Flipbook status:"));
         LogVal state] ;;
      if Value.truthy publication
         && Value.is_str (js "Ready") (Value.prop publication (js "state"))
      then ret (Some (view_url (Value.prop publication (js "hashId"))))
      else from_url_poll flipbookId later
  end.

(** [path.join(__dirname, 'temp', `temp-${Date.now()}.pdf`)]. *)
Definition temp_path (now : Z) : jsstring :=
  dirname env ++ js "/temp/temp-" ++ JS.numeral now ++ js ".pdf".

(** [const tempFilePath] is declared inside the [try] block and is in
    scope there only.  The [finally] block names it all the same; there
    the identifier has no binding, in the handler or in the module, and
    evaluating it throws a [ReferenceError] before [fs.existsSync] is
    called. *)
Definition api_create_flipbook_from_url (body : JsValue) : M unit :=
  previewUrl <- lift (Value.get body (js "previewUrl")) ;;
  if negb (Value.truthy previewUrl)
  then send 400 (json_error "Preview URL is required")
  else
    try_finally
      (try_catch
         (console_log
            [LogVal (VStr (js "Attempting to download PDF from: "
                           ++ Value.toString previewUrl))] ;;
          pdfResponse <- call env (Axios GET (Value.toString previewUrl)) ;;
          data <- lift (Value.get pdfResponse (js "data")) ;;
          lift (Buffer_from data) ;;
          now <- Date_now ;;
          let tempFilePath := temp_path now in
          writeFile tempFilePath ;;
          console_log [LogVal (VStr (js "Temporary PDF saved to: "
                                     ++ tempFilePath))] ;;
          formData_append (ReadStream tempFilePath) ;;
          console_log [LogVal (VStr (js "Sending request to FlippingBook API..."))] ;;
          createResponse <- call env create_endpoint ;;
          data <- lift (Value.get createResponse (js "data")) ;;
          console_log [LogVal (VStr (js "FlippingBook API Response:"));
                       LogVal data] ;;
          if Value.truthy data && Value.truthy (Value.prop data (js "id"))
          then
            let flipbookId := Value.prop data (js "id") in
            flipbookUrl <- from_url_poll flipbookId (seq 0 10) ;;
            match flipbookUrl with
            | Some flipbookUrl => send 200 (flipbook_success flipbookUrl)
            | None => throw (Error (js "Flipbook processing timed out"))
            end
          else
            throw (Error
              (js "Invalid or unexpected response from FlippingBook API")))
         flipbook_catch)
      (throw (ReferenceError (js "tempFilePath is not defined"))).

End Flipbook.

(** ** Image-seeded stories *)

(** [Object.values(v)] for a value that is neither [undefined] nor
    [null]. *)
Definition Object_values (v : JsValue) : list JsValue :=
  match v with
  | VObj props => map snd props
  | VArr l => l
  | VStr s => map (fun c => VStr [c]) s
  | VBuf l => map (fun c => VNum (Z.of_N c)) l
  | _ => []
  end.

(** [values.join(sep)]: [undefined] and [null] give the empty string. *)
Definition join_values (sep : jsstring) (values : list JsValue) : jsstring :=
  JS.join sep
    (map (fun x => match x with
                   | VUndefined | VNull => []
                   | _ => Value.toString x
                   end) values).

(** [{ ...obj, key: v }] on the property list of [obj]. *)
Fixpoint with_prop (key : jsstring) (v : JsValue)
  (props : list (jsstring * JsValue)) : list (jsstring * JsValue) :=
  match props with
  | [] => [(key, v)]
  | (k', v') :: rest =>
      if JS.str_eqb key k' then (key, v) :: rest
      else (k', v') :: with_prop key v rest
  end.

(** The own enumerable properties a spread [...v] copies. *)
Definition spread (v : JsValue) : list (jsstring * JsValue) :=
  combine (Value.keys v) (Object_values v).

(** [a || b]. *)
Definition or_else (a b : JsValue) : JsValue :=
  if Value.truthy a then a else b.

Section Stories.
Variable env : Env.

Definition log_and_rethrow {A} (label : string) (error : JsError) : M A :=
  console_error
    [LogVal (VStr (js label));
     match error_message error with
     | [] => LogErr error
     | m => LogVal (VStr m)
     end] ;;
  throw error.

Definition summarizeStory (story : JsValue) : M JsValue :=
  try_catch
    (response <- call env (Axios POST CHAT_COMPLETIONS_URL) ;;
     summary <- lift (first_choice_content response) ;;
     ret summary)
    (log_and_rethrow "Error in summarizeStory:").

Definition generateImage (prompt : JsValue) : M JsValue :=
  try_catch
    (response <- call env OpenAI_images_generate ;;
     data <- lift (Value.get response (js "data")) ;;
     first <- lift (Value.at_index data 0) ;;
     lift (Value.get first (js "url")))
    (log_and_rethrow "Error in generateImage:").

(** [generateStoryName(summary)]: only a string has a [split]. *)
Definition generateStoryName_of (summary : JsValue) : JsError + jsstring :=
  match summary with
  | VStr s => inr (generateStoryName s)
  | VUndefined =>
      inl (TypeError
             (js "Cannot read properties of undefined (reading 'split')"))
  | VNull =>
      inl (TypeError (js "Cannot read properties of null (reading 'split')"))
  | _ => inl (TypeError (js "summary.split is not a function"))
  end.

(** The per-chapter fan-out [Promise.all(chapterKeys.map(async ...))],
    taken one chapter after the other and up to the first failure.  The
    tasks of the real fan-out overlap in time; none of them touches the
    file system or the replies. *)
Fixpoint chapter_images (storyData : JsValue) (chapterKeys : list jsstring)
  : M (list JsValue) :=
  match chapterKeys with
  | [] => ret []
  | chapterKey :: later =>
      chapterSummary <- summarizeStory (Value.prop storyData chapterKey) ;;
      imageUrl <- generateImage chapterSummary ;;
      urls <- chapter_images storyData later ;;
      ret (imageUrl :: urls)
  end.

(** [Object.values(storyData)] and [Object.keys(storyData)] throw on
    [undefined] and [null]. *)
Definition object_of (storyData : JsValue) : M unit :=
  match storyData with
  | VUndefined | VNull =>
      throw (TypeError (js "Cannot convert undefined or null to object"))
  | _ => ret tt
  end.

(** *** [POST /api/describe-image] *)

Definition api_describe_image (file : option Upload) : M unit :=
  match file with
  | None => send 400 (json_error "No image uploaded")
  | Some file =>
      let imageFilePath := path file in
      try_finally
        (try_catch
           (description <- describeImage env imageFilePath ;;
            send 200 (BJson (VObj [(js "description", VStr description)])))
           (fun error =>
              console_error
                [LogVal (VStr (js "Error in describe-image:"));
                 match error_message error with
                 | [] => LogErr error
                 | m => LogVal (VStr m)
                 end] ;;
              send 500 (json_error "Internal Server Error")))
        (unlinkSync imageFilePath)
  end.

(** *** [POST /api/generate-story-from-image] *)

Definition api_generate_story_from_image (file : option Upload)
  (body : JsValue) : M unit :=
  match file with
  | None => send 400 (json_error "No image uploaded")
  | Some file =>
      let imageFilePath := path file in
      numChapters <- lift (Value.get body (js "numChapters")) ;;
      let numChapters := or_else numChapters (VNum 1) in
      maxWordsPerChapter <- lift (Value.get body (js "maxWordsPerChapter")) ;;
      let maxWordsPerChapter := or_else maxWordsPerChapter (VNum 500) in
      try_finally
        (try_catch
           (initialDescription <- describeImage env imageFilePath ;;
            let storyPrompt :=
              VStr (js "Based on this description, create a "
                    ++ Value.toString numChapters ++ js "-chapter story: "
                    ++ initialDescription) in
            storyData <- makeChatRequest env storyPrompt numChapters
                                         maxWordsPerChapter 0 ;;
            object_of storyData ;;
            let fullStory :=
              VStr (join_values (LF ++ LF) (Object_values storyData)) in
            summary <- summarizeStory fullStory ;;
            storyName <- lift (generateStoryName_of summary) ;;
            let chapterKeys := List.filter is_chapter_key (Value.keys storyData) in
            imageUrls <- chapter_images storyData chapterKeys ;;
            send 200
              (BJson (VObj
                 (with_prop (js "storyName") (VStr storyName)
                    (with_prop (js "imageUrls") (VArr imageUrls)
                       (with_prop (js "summary") summary
                          (spread storyData)))))))
           (fun error =>
              console_error
                [LogVal (VStr (js "Error in generate-story-from-image:"));
                 match error_message error with
                 | [] => LogErr error
                 | m => LogVal (VStr m)
                 end] ;;
              send 500 (json_error "Internal Server Error")))
        (unlinkSync imageFilePath)
  end.

End Stories.

(** ** Environments for worked examples *)

(** A parser for the replies the chat prompt asks for: one flat JSON
    object whose keys and values are strings that need no escape.  What it
    accepts is a JSON text, and [JSON.parse] gives the same object for it
    (keys that are no array indices keep their order); [JSON.parse] accepts
    more.  It stands in for [JSON.parse] in the worked examples only. *)
Module FlatJson.

Inductive State :=
| Start
| Open
| InKey (key : jsstring)
| AfterKey (key : jsstring)
| BeforeValue (key : jsstring)
| InValue (key value : jsstring)
| AfterValue
| BeforeKey
| Closed.

Definition isSpace (c : N) : bool :=
  ((c =? 32) || (c =? 9) || (c =? 10) || (c =? 13))%N.

(** A code unit that cannot stand unescaped inside a string. *)
Definition needs_escape (c : N) : bool := ((c =? 92) || (c <? 32))%N.

Fixpoint run (st : State) (acc : list (jsstring * JsValue)) (s : jsstring)
  : option JsValue :=
  match s with
  | [] => match st with Closed => Some (VObj acc) | _ => None end
  | c :: s' =>
      match st with
      | Start =>
          if isSpace c then run Start acc s'
          else if (c =? 123)%N then run Open acc s' else None
      | Open =>
          if isSpace c then run Open acc s'
          else if (c =? 34)%N then run (InKey []) acc s'
          else if (c =? 125)%N then run Closed acc s' else None
      | InKey k =>
          if (c =? 34)%N then run (AfterKey (rev k)) acc s'
          else if needs_escape c then None else run (InKey (c :: k)) acc s'
      | AfterKey k =>
          if isSpace c then run (AfterKey k) acc s'
          else if (c =? 58)%N then run (BeforeValue k) acc s' else None
      | BeforeValue k =>
          if isSpace c then run (BeforeValue k) acc s'
          else if (c =? 34)%N then run (InValue k []) acc s' else None
      | InValue k v =>
          if (c =? 34)%N
          then run AfterValue (with_prop k (VStr (rev v)) acc) s'
          else if needs_escape c then None else run (InValue k (c :: v)) acc s'
      | AfterValue =>
          if isSpace c then run AfterValue acc s'
          else if (c =? 44)%N then run BeforeKey acc s'
          else if (c =? 125)%N then run Closed acc s' else None
      | BeforeKey =>
          if isSpace c then run BeforeKey acc s'
          else if (c =? 34)%N then run (InKey []) acc s' else None
      | Closed => if isSpace c then run Closed acc s' else None
      end
  end.

Definition parse (s : jsstring) : option JsValue := run Start [] s.

End FlatJson.

(** An environment around given upstream behaviour: PNG files measure
    400 by 300 and decode, nothing else does. *)
Definition PNG : list N := [137; 80; 78; 71]%N.

Definition example_env (up : Endpoint -> nat -> Outcome) : Env :=
  mkEnv up FlatJson.parse
        (fun bytes => if JS.startsWith PNG bytes then Some (400, 300) else None)
        (JS.startsWith PNG)
        (fun n => js "preview-" ++ JS.numeral (Z.of_nat n))
        (js "/srv/app").

(** An [axios] response with the given body. *)
Definition http_ok (data : JsValue) : JsValue :=
  VObj [(js "status", VNum 200); (js "statusText", VStr (js "OK"));
        (js "data", data)].

(** The error [axios] rejects with when the server answers with [status]. *)
Definition http_error (status : Z) : JsError :=
  mkError (js "AxiosError")
          (js "Request failed with status code " ++ JS.numeral status)
          (VObj [(js "status", VNum status); (js "data", VNull)]).

(** The error [axios] rejects with when no answer arrives. *)
Definition network_error : JsError :=
  mkError (js "AxiosError") (js "socket hang up") VUndefined.

(** A chat completion whose first choice holds [content]. *)
Definition completion (content : JsValue) : JsValue :=
  VObj [(js "choices",
         VArr [VObj [(js "message", VObj [(js "content", content)])]])].

Definition q (s : string) : jsstring := dq ++ js s ++ dq.

(** A world in which [path] exists, last modified at [mtime]. *)
Definition with_file (path : jsstring) (mtime : Z) (w : World) : World :=
  set_files (<[path := mtime]>) w.

(** The model answers every description request with [content]. *)
Definition describing (content : jsstring) : Env :=
  example_env (fun e _ =>
    match e with
    | OpenAI_chat_completions_create => Resolved (completion (VStr content))
    | _ => Rejected network_error
    end).

Definition two_paragraphs : jsstring :=
  js "A fox crossed the field." ++ LF ++ LF ++ js "Then it was gone.".

Definition five_lines : list jsstring :=
  [js "A fox crossed the field."; js "It stopped at the hedge.";
   js "A hare sat there."; js "Neither of them moved.";
   js "Then both were gone."].

Definition five_paragraphs : jsstring := JS.join (LF ++ LF) five_lines.

(** Four paragraphs, a blank line, and a space after it. *)
Definition four_paragraphs_and_a_space : jsstring :=
  JS.join (LF ++ LF)
    [js "A fox crossed the field."; js "It stopped at the hedge.";
     js "A hare sat there."; js "Then both were gone."; js " "].

(** The address of some service to post to. *)
Definition some_url : jsstring := js "https://render.example.com/jobs".

(** A server that fails once with status 500 and answers from then on. *)
Definition failing_once : Env :=
  example_env (fun _ n =>
    match n with
    | O => Rejected (http_error 500)
    | _ => Resolved (http_ok (VStr (js "done")))
    end).

(** A server that answers every request with status 429. *)
Definition throttling : Env :=
  example_env (fun _ _ => Rejected (http_error 429)).

(** The chat service answers every request with [content] as the text of
    its first choice. *)
Definition chatting (content : jsstring) : Env :=
  example_env (fun _ _ => Resolved (http_ok (completion (VStr content)))).

(** A story whose text holds a raw line feed, which JSON does not allow
    inside a string. *)
Definition story_with_line_feed : jsstring :=
  js "{" ++ q "chapter1" ++ js ": " ++ dq ++ js "Once" ++ LF ++ js "upon"
  ++ dq ++ js "}".

(** A story cut off in the middle of a string. *)
Definition truncated_story : jsstring :=
  js "{" ++ q "chapter1" ++ js ": " ++ dq ++ js "Once upon a time".

(** A flipbook service: it accepts every document as job "job-17" and
    answers the [n]-th status request as [status_of n] says; any other
    address serves a document. *)
Definition job_17 : JsValue := VStr (js "job-17").

Definition flipbook_service (status_of : nat -> Outcome) : Env :=
  example_env (fun e n =>
    match e with
    | Axios POST _ => Resolved (http_ok (VObj [(js "id", job_17)]))
    | Axios GET url =>
        if JS.startsWith FLIPBOOK_API_URL url then status_of n
        else Resolved (http_ok (VBuf [37; 80; 68; 70]%N))
    | _ => Rejected network_error
    end).

(** A status answer with a publication in the given state. *)
Definition in_state (state : string) : Outcome :=
  Resolved (http_ok (VObj [(js "publication",
                            VObj [(js "state", VStr (js state));
                                  (js "hashId", VStr (js "h4sh"))])])).

(** The job never gets ready. *)
Definition never_ready : Env := flipbook_service (fun _ => in_state "Processing").

(** The job is ready at the third status request. *)
Definition ready_at_third : Env :=
  flipbook_service (fun n => match n with
                             | 2%nat => in_state "Ready"
                             | _ => in_state "Processing"
                             end).

(** The status address answers with status 503. *)
Definition status_unavailable : Env :=
  flipbook_service (fun _ => Rejected (http_error 503)).

(** The status answers hold no publication. *)
Definition without_publication : Env :=
  flipbook_service (fun _ => Resolved (http_ok (VObj []))).

Definition an_upload : Upload :=
  mkUpload (js "uploads/9c1d") (js "story.pdf").

(** A world in which the upload has been stored. *)
Definition upload_stored : World := with_file (js "uploads/9c1d") 900 (boot 1000).

Definition a_preview_request : JsValue :=
  VObj [(js "previewUrl",
         VStr (js "http://localhost:4000/api/pdf-preview/preview-0"))].

(* ===================================================================== *)
(** * Part IV.  Vocabulary of the statements *)
(* ===================================================================== *)

(** [m] leaves the component [part] of the world as it found it. *)
Definition preserves {A X} (part : World -> X) (m : M A) : Prop :=
  forall w, part (snd (m w)) = part w.

(** ** Descriptions *)

(** A paragraph that holds something else than white space. *)
Definition has_text (p : jsstring) : bool :=
  existsb (fun c => negb (JS.isWhiteSpace c)) p.

(** A text of one line: it holds no line feed. *)
Definition one_line (p : jsstring) : Prop := ~ In 10%N p.

(** The paragraphs of a description as the specification counts them:
    the pieces between blank lines that are not empty. *)
Definition nonempty_paragraphs (content : jsstring) : list jsstring :=
  List.filter (fun p => (0 <? length p)%nat) (JS.split (LF ++ LF) content).

(** ** Flipbook runs *)

(** The creation call of a run starting in [w] is answered with a job
    identifier. *)
Definition accepted (env : Env) (w : World) (flipbookId : JsValue) : Prop :=
  exists createResponse data,
    upstream env create_endpoint (calls_to create_endpoint w)
    = Resolved createResponse
    /\ Value.get createResponse (js "data") = inr data
    /\ Value.truthy data = true
    /\ Value.prop data (js "id") = flipbookId
    /\ Value.truthy flipbookId = true.

(** A status answer that holds a publication whose state is not
    "Ready". *)
Definition unready (answer : Outcome) : Prop :=
  exists statusResponse data publication,
    answer = Resolved statusResponse
    /\ Value.get statusResponse (js "data") = inr data
    /\ Value.get data (js "publication") = inr publication
    /\ Value.truthy publication = true
    /\ Value.is_str (js "Ready") (Value.prop publication (js "state")) = false.

(** A status answer that holds a publication in state "Ready", with the
    given hash identifier. *)
Definition ready_with (hashId : JsValue) (answer : Outcome) : Prop :=
  exists statusResponse data publication,
    answer = Resolved statusResponse
    /\ Value.get statusResponse (js "data") = inr data
    /\ Value.get data (js "publication") = inr publication
    /\ Value.truthy publication = true
    /\ Value.is_str (js "Ready") (Value.prop publication (js "state")) = true
    /\ Value.prop publication (js "hashId") = hashId.

(** The answer to the [k]-th poll of a run that starts in [w]. *)
Definition poll_answer (env : Env) (w : World) (flipbookId : JsValue)
  (k : nat) : Outcome :=
  upstream env (status_endpoint flipbookId)
           (calls_to (status_endpoint flipbookId) w + k).

(** The document behind [previewUrl] downloads, from an address that is
    not the status address of the job. *)
Definition downloads (env : Env) (w : World) (previewUrl flipbookId : JsValue)
  : Prop :=
  Value.truthy previewUrl = true
  /\ Axios GET (Value.toString previewUrl) <> status_endpoint flipbookId
  /\ exists pdfResponse data bytes,
       upstream env (Axios GET (Value.toString previewUrl))
                (calls_to (Axios GET (Value.toString previewUrl)) w)
       = Resolved pdfResponse
       /\ Value.get pdfResponse (js "data") = inr data
       /\ Buffer_from data = inr bytes.

Definition timed_out : JsError := Error (js "Flipbook processing timed out").

(** The world after one wait of five seconds and one poll. *)
Definition polled (flipbookId : JsValue) (w : World) : World :=
  set_requests (fun r => r ++ [status_endpoint flipbookId])
    (set_timers (fun l => l ++ [5000]) (set_clock (Z.add 5000) w)).

(** The world after [create-flipbook-from-url] has logged the state it
    read in attempt [a]. *)
Definition logged (a : nat) (state : JsValue) (w : World) : World :=
  set_console
    (fun l => l ++ [[LogVal (VStr (js "Attempt "
                                   ++ JS.numeral (Z.of_nat a + 1)
                                   ++ js ": Flipbook status:"));
                     LogVal state]]) w.

(** From [w] to [w'], [n] polls were made, five seconds after one another,
    and nothing was sent or done to the files. *)
Definition after_polls (flipbookId : JsValue) (n : nat) (w w' : World)
  : Prop :=
  requests w' = requests w ++ repeat (status_endpoint flipbookId) n
  /\ timers w' = timers w ++ repeat 5000 n
  /\ replies w' = replies w
  /\ files w' = files w.

(** From [w] to [w'], exactly the given calls were issued and the given
    delays awaited, and exactly one reply was sent. *)
Definition reports (w w' : World) (calls : list Endpoint) (waits : list Z)
  (reply : Reply) : Prop :=
  requests w' = requests w ++ calls
  /\ timers w' = timers w ++ waits
  /\ replies w' = replies w ++ [reply].

(** The reply a flipbook handler sends for what its polling came to. *)
Definition flipbook_reply (polling : Completion (option jsstring)) : Reply :=
  match polling with
  | Returned (Some flipbookUrl) => mkReply 200 (flipbook_success flipbookUrl)
  | Returned None => mkReply 500 (flipbook_failure timed_out)
  | Threw error => mkReply 500 (flipbook_failure error)
  end.

(** ** Preview store *)

(** [put(id, path)]: the registration [pdfPreviews.set(id, path)]. *)
Definition put (id path : jsstring) : M unit :=
  update_pdfPreviews (JsMap.set id path).

(** The store and the files agree: identifiers and paths are not
    repeated, and every registered path is non-empty and exists. *)
Definition consistent (w : World) : Prop :=
  NoDup (map fst (pdfPreviews w))
  /\ NoDup (map snd (pdfPreviews w))
  /\ forall id path, In (id, path) (pdfPreviews w) ->
                     path <> [] /\ is_Some (files w !! path).

Definition not_found : Reply :=
  mkReply 404 (json_error "PDF preview not found").

(** Two previews, the first of which has lost its file. *)
Definition first_file_missing : World :=
  set_pdfPreviews
    (fun _ => [(js "preview-0", js "/srv/app/pdf-previews/preview-0.pdf");
               (js "preview-1", js "/srv/app/pdf-previews/preview-1.pdf")])
    (with_file (js "/srv/app/pdf-previews/preview-1.pdf") 0 (boot 7200001)).

(** One preview, written at time 0, seen at time [now]. *)
Definition one_preview (now : Z) : World :=
  set_pdfPreviews
    (fun _ => [(js "preview-0", js "/srv/app/pdf-previews/preview-0.pdf")])
    (with_file (js "/srv/app/pdf-previews/preview-0.pdf") 0 (boot now)).

(** ** Requests for documents *)

(** A story of one chapter with one image address. *)
Definition one_chapter_story : JsValue :=
  VObj [(js "chapter1", VStr (js "Once upon a time."));
        (js "chapter1Name", VStr (js "Dawn"))].

Definition a_pdf_request : JsValue :=
  VObj [(js "storyData", one_chapter_story);
        (js "imageUrls", VArr [VStr (js "https://images.example.com/1.png")]);
        (js "storyName", VStr (js "Dawn"))].

(** The same request without the [imageUrls] field. *)
Definition a_pdf_request_without_images : JsValue :=
  VObj [(js "storyData", one_chapter_story);
        (js "storyName", VStr (js "Dawn"))].

(** No image can be fetched: every download fails with status 404. *)
Definition images_gone : Env :=
  example_env (fun _ _ => Rejected (http_error 404)).

(** What [generate-pdf] draws in place of an image it could not load. *)
Definition placeholder : list DocOp :=
  [OpFontSize 10; OpFillColor (js "#ff0000");
   OpText (VStr (js "Error loading image")) (align "center");
   OpMoveDown 1].

(* ===================================================================== *)
(** * Part V.  The rest of the service, and its earlier versions *)
(* ===================================================================== *)

(** ** Logging *)

(** [error.message || error], as an argument of [console.error]. *)
Definition message_or_error (error : JsError) : Logged :=
  match error_message error with
  | [] => LogErr error
  | m => LogVal (VStr m)
  end.

(** An identifier that is bound nowhere: evaluating it throws. *)
Definition unbound {A} (name : string) : M A :=
  throw (ReferenceError (js name ++ js " is not defined")).

(** ** Prompt validation *)

(** [/tell me a story|write a story|create a story/i.test(prompt)].

    The pattern is made of letters and spaces.  With the flag [i], and
    without the flag [u], two code units match when they are the same once
    put in upper case, and a code unit outside ASCII never matches one
    inside: so a code unit of the text matches a letter of the pattern
    exactly when it is that letter, small or capital. *)
Definition same_ignoring_case (a b : N) : bool :=
  (JS.upperUnit a =? JS.upperUnit b)%N.

(** The phrase is read at the start of the text. *)
Fixpoint matches_here (phrase text : jsstring) : bool :=
  match phrase, text with
  | [], _ => true
  | _ :: _, [] => false
  | a :: phrase', b :: text' =>
      same_ignoring_case a b && matches_here phrase' text'
  end.

(** The phrase is read somewhere in the text. *)
Fixpoint matches_somewhere (phrase text : jsstring) : bool :=
  matches_here phrase text ||
  match text with
  | [] => false
  | _ :: text' => matches_somewhere phrase text'
  end.

Definition story_phrases : list jsstring :=
  [js "tell me a story"; js "write a story"; js "create a story"].

(** [test] converts its argument to a string first. *)
Definition validateStoryPrompt (prompt : JsValue) : bool :=
  existsb (fun phrase => matches_somewhere phrase (Value.toString prompt))
          story_phrases.

(** ** Story handlers *)

Section StoryHandlers.
Variable env : Env.

(** The body of the [500] reply of [/api/chat]. *)
Definition chat_failure (error : JsError) : Body :=
  BJson (VObj
    [(js "error",
      VStr (js "An error occurred while generating the story and images."));
     (js "details", VStr (error_message error));
     (js "responseData",
      if Value.truthy (error_response error)
      then Value.prop (error_response error) (js "data")
      else VNull)]).

(** *** [POST /api/chat]

    The per-chapter fan-out is [chapter_images], which takes the chapters
    one after the other.  In the running service the tasks overlap, so
    that when several of them fail the error reported is the one that
    came first in time; which replies are sent, and how many, does not
    depend on that. *)
Definition api_chat (body : JsValue) : M unit :=
  message <- lift (Value.get body (js "message")) ;;
  numChapters <- lift (Value.get body (js "numChapters")) ;;
  maxWordsPerChapter <- lift (Value.get body (js "maxWordsPerChapter")) ;;
  try_catch
    (storyData <- makeChatRequest env message numChapters
                                  maxWordsPerChapter 0 ;;
     object_of storyData ;;
     summary <- summarizeStory env
                  (VStr (join_values (LF ++ LF) (Object_values storyData))) ;;
     storyName <- lift (generateStoryName_of summary) ;;
     let chapterKeys := List.filter is_chapter_key (Value.keys storyData) in
     imageUrls <- chapter_images env storyData chapterKeys ;;
     send 200
       (BJson (VObj
          (with_prop (js "storyName") (VStr storyName)
             (with_prop (js "imageUrls") (VArr imageUrls)
                (with_prop (js "summary") summary
                   (spread storyData)))))))
    (fun error =>
       console_error [LogVal (VStr (js "Detailed error in /api/chat:"));
                      LogErr error] ;;
       (if Value.truthy (error_response error)
        then console_error
               [LogVal (VStr (js "Error response:"));
                LogVal (Value.prop (error_response error) (js "data"))]
        else ret tt) ;;
       send 500 (chat_failure error)).

(** *** [POST /api/regenerate-story]

    [makeChatRequest] is called with the prompt only: the number of
    chapters and the word limit are [undefined]. *)
Definition api_regenerate_story (body : JsValue) : M unit :=
  story <- lift (Value.get body (js "story")) ;;
  regeneratePrompt <- lift (Value.get body (js "regeneratePrompt")) ;;
  try_catch
    (newStory <- makeChatRequest env (or_else regeneratePrompt story)
                                 VUndefined VUndefined 0 ;;
     send 200 (BJson (VObj [(js "newStory", newStory)])))
    (fun error =>
       console_error [LogVal (VStr (js "Error in regenerate-story:"));
                      message_or_error error] ;;
       send 500 (json_error "Internal Server Error")).

(** *** [POST /api/regenerate-image] *)

Definition api_regenerate_image (body : JsValue) : M unit :=
  summary <- lift (Value.get body (js "summary")) ;;
  regeneratePrompt <- lift (Value.get body (js "regeneratePrompt")) ;;
  try_catch
    (newImageUrl <- generateImage env (or_else regeneratePrompt summary) ;;
     send 200 (BJson (VObj [(js "newImageUrl", newImageUrl)])))
    (fun error =>
       console_error [LogVal (VStr (js "Error in regenerate-image:"));
                      message_or_error error] ;;
       send 500 (json_error "Internal Server Error")).

End StoryHandlers.

(** ** Flipbook status *)

(** [v?.k]. *)
Definition optional (v : JsValue) (k : jsstring) : JsValue :=
  match v with
  | VUndefined | VNull => VUndefined
  | _ => Value.prop v k
  end.

(** [publicationDetails?.publication?.state || 'Unknown']. *)
Definition state_of (publicationDetails : JsValue) : JsValue :=
  or_else (optional (optional publicationDetails (js "publication"))
                    (js "state"))
          (VStr (js "Unknown")).

(** [2000 * (4 - retries)], as the delay of the timer that runs before
    the attempt that leaves [retries - 1] more. *)
Definition details_wait (retries : nat) : Z :=
  timeout_of (Some (2000 * (4 - Z.of_nat retries))).

Section FlipbookStatus.
Variable env : Env.

(** [getPublicationDetails(flipbookId, retries)]: whatever fails in the
    [try] block, the call or the reading of its answer, is tried again
    while [retries > 0]. *)
Fixpoint getPublicationDetails (flipbookId : JsValue) (retries : nat)
  : M JsValue :=
  try_catch
    (response <- call env (status_endpoint flipbookId) ;;
     lift (Value.get response (js "data")))
    (fun error =>
       match retries with
       | S fewer =>
           console_log
             [LogVal (VStr (js "Retrying to get publication details. "
                            ++ js "Attempts left: "
                            ++ JS.numeral (Z.of_nat retries - 1)))] ;;
           delay (details_wait retries) ;;
           getPublicationDetails flipbookId fewer
       | O => throw error
       end).

(** [checkFlipbookStatus(flipbookId)] for one run.  The result tells
    whether the run has scheduled the next one,
    [setTimeout(() => checkFlipbookStatus(flipbookId), 30000)]; the
    scheduled run itself is no part of this one. *)
Definition checkFlipbookStatus (flipbookId : JsValue) : M bool :=
  try_catch
    (publicationDetails <- getPublicationDetails flipbookId 3 ;;
     let status := state_of publicationDetails in
     console_log
       [LogVal (VStr (js "Flipbook " ++ Value.toString flipbookId
                      ++ js " status: " ++ Value.toString status))] ;;
     if negb (Value.is_str (js "Ready") status) then ret true else ret false)
    (fun error =>
       console_error
         [LogVal (VStr (js "Error checking status for flipbook "
                        ++ Value.toString flipbookId ++ js ":"));
          LogVal (VStr (error_message error))] ;;
       ret false).

(** *** [GET /api/check-flipbook-status/:flipbookId] *)

Definition api_check_flipbook_status (flipbookId : jsstring) : M unit :=
  try_catch
    (publicationDetails <- getPublicationDetails (VStr flipbookId) 3 ;;
     let status := state_of publicationDetails in
     send 200 (BJson (VObj [(js "status", status);
                            (js "details", publicationDetails)])))
    (fun error =>
       console_error [LogVal (VStr (js "Error checking flipbook status:"));
                      LogErr error] ;;
       send 500 (json_error "Failed to check flipbook status")).

End FlipbookStatus.

(** ** The first version of the service ([part_000]) *)

(** [parseInt(text, 10)]: white space at the start is skipped, a sign is
    read, then decimal digits as far as they go; without a digit there the
    result is [NaN], which is [None] here. *)
Definition isDigit (c : N) : bool := ((48 <=? c) && (c <=? 57))%N.

Fixpoint digits_value (acc : Z) (s : jsstring) : Z :=
  match s with
  | c :: s' =>
      if isDigit c then digits_value (10 * acc + (Z.of_N c - 48)) s' else acc
  | [] => acc
  end.

Definition parseInt10 (text : jsstring) : option Z :=
  let unsigned (sign : Z) (s : jsstring) : option Z :=
    match s with
    | c :: _ => if isDigit c then Some (sign * digits_value 0 s) else None
    | [] => None
    end in
  match JS.trimStart text with
  | 45%N :: s => unsigned (-1) s
  | 43%N :: s => unsigned 1 s
  | s => unsigned 1 s
  end.

Module Part_000.

(** [completion.choices[0].message.content]. *)
Definition choice_content (completion : JsValue) : JsError + JsValue :=
  match Value.get completion (js "choices") with
  | inl e => inl e
  | inr choices =>
      match Value.at_index choices 0 with
      | inl e => inl e
      | inr choice =>
          match Value.get choice (js "message") with
          | inl e => inl e
          | inr msg => Value.get msg (js "content")
          end
      end
  end.

Section Clients.
Variable env : Env.

(** The [try] block of [makeChatRequest]: the prompt is validated once
    the completion has come back. *)
Definition chat_attempt (message : JsValue) : M JsValue :=
  completion <- call env OpenAI_chat_completions_create ;;
  content <- lift (choice_content completion) ;;
  if negb (validateStoryPrompt message)
  then throw (Error (js "Invalid story prompt."))
  else ret content.

(** [parseInt(error.response.headers['retry-after'] || '1', 10) * 1000],
    as the delay of the timer. *)
Definition retry_delay (header : JsValue) : Z :=
  timeout_of
    (option_map (fun retryAfter => retryAfter * 1000)
       (parseInt10 (Value.toString (or_else header (VStr (js "1")))))).

(** [makeChatRequest(message, retries)]; [fuel] bounds the depth of the
    calls it makes to itself, which stop when [retries] has come to
    [MAX_RETRIES]. *)
Fixpoint makeChatRequest_fuel (fuel : nat) (message : JsValue)
  (retries : nat) : M JsValue :=
  try_catch (chat_attempt message)
    (fun error =>
       if rate_limited error && (retries <? MAX_RETRIES)%nat
       then
         headers <- lift (Value.get (error_response error) (js "headers")) ;;
         header <- lift (Value.get headers (js "retry-after")) ;;
         delay (retry_delay header) ;;
         match fuel with
         | S fuel' => makeChatRequest_fuel fuel' message (retries + 1)
         | O => throw (Error (js "out of fuel"))
         end
       else
         console_error [LogVal (VStr (js "Error in makeChatRequest:"));
                        message_or_error error] ;;
         throw error).

Definition makeChatRequest (message : JsValue) (retries : nat) : M JsValue :=
  makeChatRequest_fuel (MAX_RETRIES - retries) message retries.

Definition summarizeStory (story : JsValue) : M JsValue :=
  try_catch
    (completion <- call env OpenAI_chat_completions_create ;;
     lift (choice_content completion))
    (fun error =>
       console_error [LogVal (VStr (js "Error in summarizeStory:"));
                      message_or_error error] ;;
       throw error).

(** *** [POST /api/chat] *)

Definition api_chat (body : JsValue) : M unit :=
  message <- lift (Value.get body (js "message")) ;;
  try_catch
    (story <- makeChatRequest message 0 ;;
     summary <- summarizeStory story ;;
     imageUrl <- generateImage env summary ;;
     storyName <- lift (generateStoryName_of summary) ;;
     send 200 (BJson (VObj [(js "story", story);
                            (js "summary", summary);
                            (js "imageUrl", imageUrl);
                            (js "storyName", VStr storyName)])))
    (fun error =>
       console_error [LogVal (VStr (js "Error:")); LogErr error] ;;
       send 500 (json_error "Internal Server Error")).

(** *** [POST /api/regenerate-story] *)

Definition api_regenerate_story (body : JsValue) : M unit :=
  story <- lift (Value.get body (js "story")) ;;
  regeneratePrompt <- lift (Value.get body (js "regeneratePrompt")) ;;
  try_catch
    (newStory <- makeChatRequest (or_else regeneratePrompt story) 0 ;;
     send 200 (BJson (VObj [(js "newStory", newStory)])))
    (fun error =>
       console_error [LogVal (VStr (js "Error in regenerate-story:"));
                      message_or_error error] ;;
       send 500 (json_error "Internal Server Error")).

End Clients.

End Part_000.

(** ** The second version of the service ([part_001]) *)

Module Part_001.

(** One page of the flipbook: [{ content, image }]. *)
Definition page (storyData imageUrls : JsValue) (chapterKey : jsstring)
  (index : nat) : JsValue :=
  VObj [(js "content", Value.prop storyData chapterKey);
        (js "image",
         match Value.at_index imageUrls index with
         | inr image => image
         | inl _ => VUndefined
         end)].

Fixpoint pages_from (storyData imageUrls : JsValue) (index : nat)
  (chapterKeys : list jsstring) : list JsValue :=
  match chapterKeys with
  | [] => []
  | chapterKey :: later =>
      page storyData imageUrls chapterKey index
      :: pages_from storyData imageUrls (S index) later
  end.

Section Flipbook.
Variable env : Env.

(** *** [POST /api/create-flipbook]

    The request to the flipbook service is built from [flipbookApiKey],
    an identifier the file declares nowhere: building it throws before
    the call is made. *)
Definition api_create_flipbook (body : JsValue) : M unit :=
  storyData <- lift (Value.get body (js "storyData")) ;;
  imageUrls <- lift (Value.get body (js "imageUrls")) ;;
  storyName <- lift (Value.get body (js "storyName")) ;;
  if negb (Value.truthy storyData) || negb (Value.truthy imageUrls)
     || negb (Value.truthy storyName)
  then
    send 400
      (json_error "Missing required fields: storyData, imageUrls, storyName")
  else
    try_catch
      (let pages :=
         pages_from storyData imageUrls 0
           (List.filter is_chapter_key (Value.keys storyData)) in
       flipbookApiKey <- @unbound JsValue "flipbookApiKey" ;;
       flipbookResponse <-
         call env (Axios POST (js "https://api.flipbook.com/create")) ;;
       data <- lift (Value.get flipbookResponse (js "data")) ;;
       flipbookUrl <- lift (Value.get data (js "url")) ;;
       send 200 (BJson (VObj [(js "flipbookUrl", flipbookUrl)])))
      (fun error =>
         console_error [LogVal (VStr (js "Error creating flipbook:"));
                        LogErr error] ;;
         send 500
           (BJson (VObj [(js "error", VStr (js "Failed to create flipbook"));
                         (js "details", VStr (error_message error))]))).

End Flipbook.

End Part_001.

(** ** Vocabulary of the further statements *)

(** [m] either returns having sent exactly one reply, a [good] one, or
    throws having sent none. *)
Definition sends_or_throws (good : Reply -> Prop) (m : M unit) : Prop :=
  forall w,
    match fst (m w) with
    | Returned _ =>
        exists reply, replies (snd (m w)) = replies w ++ [reply] /\ good reply
    | Threw _ => replies (snd (m w)) = replies w
    end.

(** [m] returns, and has sent exactly one reply, a [good] one. *)
Definition sends_once (good : Reply -> Prop) (m : M unit) : Prop :=
  forall w,
    fst (m w) = Returned tt
    /\ exists reply, replies (snd (m w)) = replies w ++ [reply] /\ good reply.

Definition ok (reply : Reply) : Prop := status_code reply = 200.

Definition internal_server_error : Reply :=
  mkReply 500 (json_error "Internal Server Error").

(** The chapters of a story are texts. *)
Definition chapters_are_texts (storyData : JsValue) : Prop :=
  Forall (fun chapterKey => exists text,
            Value.prop storyData chapterKey = VStr text)
         (List.filter is_chapter_key (Value.keys storyData)).

(** ** Further environments for worked examples *)

(** A server that answers 429 twice and then with [content] as the text
    of its first choice. *)
Definition throttling_twice (content : jsstring) : Env :=
  example_env (fun _ n =>
    match n with
    | 0%nat | 1%nat => Rejected (http_error 429)
    | _ => Resolved (http_ok (completion (VStr content)))
    end).

Definition a_story : jsstring :=
  js "{" ++ q "chapter1" ++ js ": " ++ q "Once upon a time." ++ js "}".

(** An image server that answers with status 204 and no content. *)
Definition no_content : Env :=
  example_env (fun _ _ =>
    Resolved (VObj [(js "status", VNum 204);
                    (js "statusText", VStr (js "No Content"));
                    (js "data", VBuf [])])).

(** An image server that serves a PNG file. *)
Definition serving_png : Env :=
  example_env (fun _ _ => Resolved (http_ok (VBuf PNG))).

(** The status address fails twice and then reports the job as
    processing. *)
Definition status_fails_twice : Env :=
  flipbook_service (fun n => match n with
                             | 0%nat | 1%nat => Rejected (http_error 502)
                             | _ => in_state "Processing"
                             end).

(** The error of the OpenAI client for an answer 429: an [Error] with
    the status in its message, and without a [response]. *)
Definition client_rate_limit : JsError :=
  Error (js "429 Rate limit reached for requests").

(** The model refuses every request with it. *)
Definition client_throttled : Env :=
  example_env (fun _ _ => Rejected client_rate_limit).

(** The model answers every request with [content]. *)
Definition completing (content : jsstring) : Env :=
  example_env (fun _ _ => Resolved (completion (VStr content))).

(** The same story with an empty list of images. *)
Definition a_pdf_request_with_no_images : JsValue :=
  VObj [(js "storyData", one_chapter_story);
        (js "imageUrls", VArr []);
        (js "storyName", VStr (js "Dawn"))].

Definition pdf_failed : Reply :=
  mkReply 500 (json_error "An error occurred while generating the PDF.").

(* ===================================================================== *)
(** * Part VI.  Theorems *)
(* ===================================================================== *)

(** ** Strings *)

Lemma js_space : js " " = [32%N].
Proof. reflexivity. Qed.

Lemma startsWith_unit (c x : N) (s : jsstring) :
  JS.startsWith [c] (x :: s) = N.eqb c x.
Proof. simpl. apply andb_true_r. Qed.

Lemma split_from_not_nil (sep : jsstring) (skip : nat) (cur s : jsstring) :
  JS.split_from sep skip cur s <> [].
Proof.
  revert skip cur.
  induction s as [|c s IH]; intros skip cur; simpl; [discriminate|].
  destruct skip; [|apply IH].
  destruct (JS.startsWith sep (c :: s)); [discriminate|apply IH].
Qed.

Lemma join_cons (sep p : jsstring) (rest : list jsstring) :
  rest <> [] -> JS.join sep (p :: rest) = p ++ sep ++ JS.join sep rest.
Proof. destruct rest; [congruence|reflexivity]. Qed.

(** Splitting at a single code unit cuts the string at every occurrence
    of it: joining the pieces gives the string back... *)
Lemma join_split_unit (c : N) (cur s : jsstring) :
  JS.join [c] (JS.split_from [c] 0 cur s) = rev cur ++ s.
Proof.
  revert cur.
  induction s as [|x s IH]; intros cur.
  - simpl. now rewrite app_nil_r.
  - cbn [JS.split_from]. rewrite startsWith_unit.
    destruct (N.eqb_spec c x) as [->|Hne].
    + rewrite join_cons by apply split_from_not_nil.
      cbn [length Nat.sub]. rewrite IH. reflexivity.
    + rewrite IH. simpl. now rewrite <- app_assoc.
Qed.

(** ... and no piece holds it. *)
Lemma split_unit_pieces (c : N) (cur s : jsstring) :
  ~ In c cur -> Forall (fun w => ~ In c w) (JS.split_from [c] 0 cur s).
Proof.
  revert cur.
  induction s as [|x s IH]; intros cur Hcur.
  - simpl. constructor; [|constructor]. now rewrite <- in_rev.
  - cbn [JS.split_from]. rewrite startsWith_unit.
    destruct (N.eqb_spec c x) as [->|Hne].
    + constructor; [now rewrite <- in_rev|].
      cbn [length Nat.sub]. apply IH. intros [].
    + apply IH. intros [->|H]; [congruence|auto].
Qed.

Lemma lower_upper_unit (c : N) : JS.lowerUnit (JS.upperUnit c) = JS.lowerUnit c.
Proof.
  unfold JS.upperUnit.
  destruct (N.leb_spec 97 c), (N.leb_spec c 122); cbn [andb];
    unfold JS.lowerUnit;
    repeat match goal with
           | |- context [(?a <=? ?b)%N] => destruct (N.leb_spec a b)
           end; cbn [andb]; lia.
Qed.

Lemma toLowerCase_upperCaseAscii (w : jsstring) :
  JS.toLowerCase (JS.upperCaseAscii w) = JS.toLowerCase w.
Proof.
  unfold JS.toLowerCase, JS.upperCaseAscii. rewrite map_map.
  apply map_ext. intros c. apply lower_upper_unit.
Qed.

Lemma firstn_min_length {A} (n : nat) (l : list A) :
  firstn (Nat.min (length l) n) l = firstn n l.
Proof.
  destruct (Nat.le_ge_cases n (length l)) as [H|H].
  - now rewrite Nat.min_r.
  - rewrite Nat.min_l by assumption.
    rewrite firstn_all. symmetry. now apply firstn_all2.
Qed.

(** ** Story namer *)

(** C6, as the code has it.  The summary is cut at every space character
    (U+0020) and nowhere else: the words joined by single spaces give the
    summary back, and no word holds a space.  The name is made of the
    first three words at most that are no stopword, whatever the case of
    their letters, joined by single spaces.  The empty summary gives the
    empty name, and "The quick brown fox is fast" gives
    "quick brown fox". *)
Theorem generateStoryName_cuts_at_spaces (summary : jsstring) :
  let words := JS.split (js " ") summary in
  let kept := List.filter (fun w => negb (is_stopword w)) words in
  JS.join (js " ") words = summary
  /\ Forall (fun w => ~ In 32%N w) words
  /\ generateStoryName summary = JS.join (js " ") (firstn 3 kept)
  /\ (length (firstn 3 kept) <= 3)%nat
  /\ (forall w, is_stopword (JS.upperCaseAscii w) = is_stopword w)
  /\ generateStoryName [] = []
  /\ generateStoryName (js "The quick brown fox is fast")
     = js "quick brown fox".
Proof.
  cbv zeta. rewrite js_space. unfold JS.split.
  split; [apply (join_split_unit 32 [] summary)|].
  split; [apply split_unit_pieces; intros []|].
  split.
  { unfold generateStoryName. rewrite js_space.
    rewrite firstn_min_length. reflexivity. }
  split; [apply firstn_le_length|].
  split.
  { intros w. unfold is_stopword. now rewrite toLowerCase_upperCaseAscii. }
  split; reflexivity.
Qed.

(** C6, as the specification words it, fails: a line feed is white
    space, yet the code does not cut there, so the word around it is kept
    whole and a fourth word of the summary enters the name. *)
Lemma generateStoryName_keeps_line_feeds :
  let summary := js "The quick" ++ LF ++ js "brown fox is fast" in
  generateStoryName summary = js "quick" ++ LF ++ js "brown fox fast"
  /\ storyName_as_specified summary = js "quick brown fox"
  /\ generateStoryName summary <> storyName_as_specified summary.
Proof.
  cbv zeta. split; [reflexivity|]. split; [reflexivity|].
  vm_compute. discriminate.
Qed.

(** ** Running a computation *)

Lemma bind_run {A B} (m : M A) (k : A -> M B) (w : World) :
  bind m k w =
  match m w with
  | (Returned a, w') => k a w'
  | (Threw e, w') => (Threw e, w')
  end.
Proof. reflexivity. Qed.

(** A [catch] that logs and throws the error again changes nothing about
    how the block completes. *)
Lemma fst_log_rethrow {A} (m : M A) (entry : JsError -> list Logged)
  (w : World) :
  fst (try_catch m (fun e => console_error (entry e) ;; throw e) w)
  = fst (m w).
Proof. unfold try_catch. destruct (m w) as [[a|e] w']; reflexivity. Qed.

(** Two [Error]s with different messages are different. *)
Ltac differ :=
  let H := fresh in
  intros H; apply (f_equal error_message) in H; vm_compute in H;
  discriminate H.

Ltac differ_threw :=
  let H := fresh in
  intros H;
  apply (f_equal (fun c => match c with
                           | Threw e => error_message e
                           | Returned _ => []
                           end)) in H;
  vm_compute in H; discriminate H.

(** ** Values *)

Lemma at_index_error (v : JsValue) (i : nat) (e : JsError) :
  Value.at_index v i = inl e -> error_name e = js "TypeError".
Proof.
  destruct v; simpl; intros H; inversion H; reflexivity.
Qed.

Lemma get_truthy (v : JsValue) (k : jsstring) :
  Value.truthy v = true -> Value.get v k = inr (Value.prop v k).
Proof. unfold Value.prop. destruct v; simpl; try discriminate; reflexivity. Qed.

Lemma prop_object_truthy (v : JsValue) (k : jsstring) (x : JsValue) :
  Value.prop v k = x -> x <> VUndefined -> Value.truthy v = true \/
  (exists n, x = VNum n).
Proof.
  intros <- Hx. destruct v; simpl in *; try congruence; auto;
    unfold Value.prop in *; simpl in *;
    try (destruct (JS.str_eqb _ _); [right; eexists; reflexivity|congruence]).
Qed.

Lemma prop_array_truthy (v : JsValue) (k : jsstring) (l : list JsValue) :
  Value.prop v k = VArr l -> Value.truthy v = true.
Proof.
  intros H. destruct (prop_object_truthy v k _ H) as [?|[n ?]]; congruence.
Qed.

Lemma prop_obj_truthy (v : JsValue) (k : jsstring) props :
  Value.prop v k = VObj props -> Value.truthy v = true.
Proof.
  intros H. destruct (prop_object_truthy v k _ H) as [?|[n ?]]; congruence.
Qed.

Lemma prop_str_truthy (v : JsValue) (k : jsstring) (s : jsstring) :
  Value.prop v k = VStr s -> Value.truthy v = true.
Proof.
  intros H. destruct (prop_object_truthy v k _ H) as [?|[n ?]]; congruence.
Qed.

(** *** Paragraphs *)

Lemma trimStart_nil (s : jsstring) :
  JS.trimStart s = [] <-> forallb JS.isWhiteSpace s = true.
Proof.
  induction s as [|c s IH]; simpl; [tauto|].
  destruct (JS.isWhiteSpace c); simpl; [exact IH|].
  split; discriminate.
Qed.

Lemma trimStart_blank (s : jsstring) :
  forallb JS.isWhiteSpace (JS.trimStart s) = forallb JS.isWhiteSpace s.
Proof.
  induction s as [|c s IH]; simpl; [reflexivity|].
  destruct (JS.isWhiteSpace c) eqn:Hc; simpl; [exact IH|].
  now rewrite Hc.
Qed.

Lemma forallb_rev {A} (f : A -> bool) (l : list A) :
  forallb f (rev l) = forallb f l.
Proof.
  induction l as [|x l IH]; simpl; [reflexivity|].
  rewrite forallb_app, IH. simpl. rewrite andb_true_r. apply andb_comm.
Qed.

Lemma has_text_not_blank (p : jsstring) :
  has_text p = negb (forallb JS.isWhiteSpace p).
Proof.
  unfold has_text. induction p as [|c p IH]; simpl; [reflexivity|].
  rewrite IH. now destruct (JS.isWhiteSpace c).
Qed.

(** [p.trim().length > 0] holds of the strings that are not white space
    all through. *)
Lemma trim_has_text (p : jsstring) :
  (0 <? length (JS.trim p))%nat = has_text p.
Proof.
  rewrite has_text_not_blank. unfold JS.trim, JS.trimEnd.
  rewrite length_rev.
  destruct (JS.trimStart (rev (JS.trimStart p))) as [|c rest] eqn:Htrim.
  - apply trimStart_nil in Htrim.
    rewrite forallb_rev, trimStart_blank in Htrim. now rewrite Htrim.
  - assert (H : forallb JS.isWhiteSpace p <> true).
    { rewrite <- trimStart_blank, <- forallb_rev. intros H.
      apply trimStart_nil in H. congruence. }
    destruct (forallb JS.isWhiteSpace p); [congruence|reflexivity].
Qed.

Lemma paragraphs_of_have_text (content : jsstring) :
  paragraphs_of content
  = List.filter has_text (JS.split (LF ++ LF) content).
Proof.
  unfold paragraphs_of. apply filter_ext. intros p. apply trim_has_text.
Qed.

(** Splitting at blank lines cuts the text at them: the pieces, joined by
    blank lines, give the text back. *)
Lemma join_split_blank_lines (n : nat) (cur s : jsstring) :
  (length s <= n)%nat ->
  JS.join (LF ++ LF) (JS.split_from (LF ++ LF) 0 cur s) = rev cur ++ s.
Proof.
  revert cur s. induction n as [|n IH]; intros cur s Hn.
  - destruct s; [|simpl in Hn; lia]. simpl. now rewrite app_nil_r.
  - destruct s as [|c s]; [simpl; now rewrite app_nil_r|].
    cbn [JS.split_from]. simpl in Hn.
    destruct (JS.startsWith (LF ++ LF) (c :: s)) eqn:Hsep.
    + cbn [LF app JS.startsWith] in Hsep.
      apply andb_true_iff in Hsep as [Hc Hs].
      apply N.eqb_eq in Hc. subst c.
      destruct s as [|c' s]; [discriminate|].
      apply andb_true_iff in Hs as [Hc' _].
      apply N.eqb_eq in Hc'. subst c'.
      rewrite join_cons by apply split_from_not_nil.
      cbn [LF app length Nat.sub JS.split_from].
      rewrite IH by (simpl in Hn; lia). reflexivity.
    + rewrite IH by lia. simpl. now rewrite <- app_assoc.
Qed.

Lemma split_from_line (p cur rest : jsstring) :
  one_line p ->
  JS.split_from (LF ++ LF) 0 cur (p ++ rest)
  = JS.split_from (LF ++ LF) 0 (rev p ++ cur) rest.
Proof.
  revert cur. induction p as [|c p IH]; intros cur Hline; [reflexivity|].
  assert (Hc : c <> 10%N) by (intros ->; apply Hline; now left).
  assert (Hp : one_line p) by (intros H; apply Hline; now right).
  cbn [app JS.split_from].
  replace (JS.startsWith (LF ++ LF) (c :: p ++ rest)) with false.
  - rewrite IH by assumption. simpl. now rewrite <- app_assoc.
  - cbn [LF app JS.startsWith].
    destruct (N.eqb_spec 10 c); [congruence|reflexivity].
Qed.

(** Lines joined by blank lines are split into these lines again. *)
Lemma split_join_lines (lines : list jsstring) (first cur : jsstring) :
  Forall one_line (first :: lines) ->
  JS.split_from (LF ++ LF) 0 cur (JS.join (LF ++ LF) (first :: lines))
  = (rev cur ++ first) :: lines.
Proof.
  revert first cur.
  induction lines as [|second lines IH]; intros first cur Hlines;
    apply Forall_cons in Hlines as [Hfirst Hlines].
  - cbn [JS.join]. rewrite <- (app_nil_r first) at 1.
    rewrite split_from_line by assumption.
    cbn [JS.split_from]. now rewrite rev_app_distr, rev_involutive.
  - rewrite join_cons by discriminate.
    rewrite split_from_line by assumption.
    cbn [LF app JS.split_from JS.startsWith N.eqb Pos.eqb andb length
         Nat.sub].
    rewrite IH by assumption.
    now rewrite rev_app_distr, rev_involutive.
Qed.

Lemma paragraphs_of_lines (lines : list jsstring) :
  Forall one_line lines ->
  paragraphs_of (JS.join (LF ++ LF) lines) = List.filter has_text lines.
Proof.
  intros Hlines. rewrite paragraphs_of_have_text.
  destruct lines as [|first lines]; [reflexivity|].
  unfold JS.split. now rewrite split_join_lines.
Qed.

(** ** Image description client *)

Section DescribeImage.
Variable env : Env.
Variable w : World.
Variable imageFilePath : jsstring.
Variable response : JsValue.

Let too_short := Error (js "Generated content has less than 5 paragraphs").
Let no_message := Error (js "No valid message found in response").
Let bad_shape := Error (js "Unexpected response structure").

Hypothesis file_there : is_Some (files w !! imageFilePath).
Hypothesis replied :
  upstream env OpenAI_chat_completions_create
           (calls_to OpenAI_chat_completions_create w)
  = Resolved response.

(** What the validation of [describeImage] comes to once the file has
    been read and the model has replied. *)
Lemma describeImage_validation :
  fst (describeImage env imageFilePath w) =
  if Value.truthy response
     && Value.truthy (Value.prop response (js "choices"))
     && positive_length
          (Value.prop (Value.prop response (js "choices")) (js "length"))
  then
    match Value.at_index (Value.prop response (js "choices")) 0 with
    | inl e => Threw e
    | inr choice =>
        if Value.truthy choice
           && Value.truthy (Value.prop choice (js "message"))
        then
          match Value.prop (Value.prop choice (js "message")) (js "content") with
          | VStr content =>
              if (length (paragraphs_of content) <? 5)%nat
              then Threw too_short else Returned content
          | _ => Threw no_message
          end
        else Threw no_message
    end
  else Threw bad_shape.
Proof.
  unfold describeImage. rewrite fst_log_rethrow.
  destruct file_there as [mtime Hfile].
  rewrite bind_run. unfold readFileSync. rewrite Hfile.
  rewrite bind_run. unfold call. rewrite replied.
  destruct (_ && _ && positive_length _); [|reflexivity].
  rewrite bind_run. unfold lift.
  destruct (Value.at_index _ 0) as [e|choice]; [reflexivity|].
  unfold ret at 1.
  destruct (Value.truthy choice && _); [|reflexivity].
  destruct (Value.prop (Value.prop choice _) _); try reflexivity.
  destruct (_ <? 5)%nat; reflexivity.
Qed.

(** C5, as the code has it.  Once the uploaded image has been read and
    the model has replied: for a reply whose first choice holds a text,
    [describeImage] fails with the "less than 5 paragraphs" error when
    fewer than five of the pieces of the text between blank lines hold
    something else than white space, and returns the text otherwise.  The
    pieces are those of the text: joined by blank lines they give it back,
    and a text made of lines with blank lines between them is judged by
    these lines.  [describeImage] fails with that error for no other
    reply; a missing reply fails with another error, and the three errors
    of the validation are pairwise different. *)
Theorem describeImage_fails_below_five_paragraphs :
  let outcome := fst (describeImage env imageFilePath w) in
  let judged_by (paragraphs : list jsstring) (content : jsstring) :=
    outcome = if (length (List.filter has_text paragraphs) <? 5)%nat
              then Threw too_short else Returned content in
  (forall choice others fields content,
     Value.prop response (js "choices") = VArr (choice :: others) ->
     Value.prop choice (js "message") = VObj fields ->
     Value.lookup_prop (js "content") fields = VStr content ->
     judged_by (JS.split (LF ++ LF) content) content
     /\ JS.join (LF ++ LF) (JS.split (LF ++ LF) content) = content
     /\ forall lines,
          Forall one_line lines -> content = JS.join (LF ++ LF) lines ->
          judged_by lines content)
  /\ (outcome = Threw too_short ->
      exists choice content,
        Value.at_index (Value.prop response (js "choices")) 0 = inr choice
        /\ Value.prop (Value.prop choice (js "message")) (js "content")
           = VStr content
        /\ (length (List.filter has_text (JS.split (LF ++ LF) content))
            < 5)%nat)
  /\ (Value.truthy response = false -> outcome = Threw bad_shape)
  /\ too_short <> no_message
  /\ too_short <> bad_shape
  /\ no_message <> bad_shape.
Proof.
  cbv zeta. rewrite describeImage_validation.
  split; [|split; [|split]].
  - intros choice others fields content Hchoices Hmessage Hcontent.
    rewrite (prop_array_truthy _ _ _ Hchoices), Hchoices.
    cbn [Value.truthy Value.prop Value.get andb positive_length length
         Value.at_index nth].
    change (JS.str_eqb (js "length") (js "length")) with true. cbv iota.
    rewrite (prop_obj_truthy _ _ _ Hmessage), Hmessage.
    cbn [Value.truthy Value.prop Value.get andb]. rewrite Hcontent.
    split; [|split].
    + now rewrite paragraphs_of_have_text.
    + unfold JS.split.
      now rewrite (join_split_blank_lines (length content)).
    + intros lines Hlines ->. now rewrite paragraphs_of_lines.
  - intros H.
    destruct (_ && _ && positive_length _); [|exfalso; revert H; differ_threw].
    destruct (Value.at_index _ 0) as [e|choice] eqn:Hat.
    + exfalso. apply at_index_error in Hat.
      assert (E : e = too_short) by congruence. subst e.
      vm_compute in Hat. discriminate.
    + destruct (Value.truthy choice && _);
        [|exfalso; revert H; differ_threw].
      destruct (Value.prop (Value.prop choice _) _)
        as [| | | |content| | |] eqn:Hcontent;
        try (exfalso; revert H; differ_threw).
      exists choice, content. split; [reflexivity|]. split; [exact Hcontent|].
      rewrite <- paragraphs_of_have_text.
      destruct (Nat.ltb_spec (length (paragraphs_of content)) 5);
        [assumption|discriminate].
  - intros ->. reflexivity.
  - repeat split; differ.
Qed.

End DescribeImage.

(** A reply of two paragraphs is refused, and one of five is returned. *)
Lemma describeImage_two_paragraphs_refused :
  fst (describeImage (describing two_paragraphs) (js "uploads/3f9a")
                     (with_file (js "uploads/3f9a") 0 (boot 1000)))
  = Threw (Error (js "Generated content has less than 5 paragraphs"))
  /\ fst (describeImage (describing five_paragraphs) (js "uploads/3f9a")
                        (with_file (js "uploads/3f9a") 0 (boot 1000)))
     = Returned five_paragraphs.
Proof.
  split.
  - refine (proj1 (proj1 (describeImage_fails_below_five_paragraphs
                     (describing two_paragraphs)
                     (with_file (js "uploads/3f9a") 0 (boot 1000))
                     (js "uploads/3f9a")
                     (completion (VStr two_paragraphs)) _ _)
                  (VObj [(js "message",
                          VObj [(js "content", VStr two_paragraphs)])])
                  [] [(js "content", VStr two_paragraphs)] two_paragraphs
                  _ _ _)).
    + exists 0. vm_compute. reflexivity.
    + reflexivity.
    + vm_compute. reflexivity.
    + vm_compute. reflexivity.
    + vm_compute. reflexivity.
  - refine (proj2 (proj2 (proj1 (describeImage_fails_below_five_paragraphs
                     (describing five_paragraphs)
                     (with_file (js "uploads/3f9a") 0 (boot 1000))
                     (js "uploads/3f9a")
                     (completion (VStr five_paragraphs)) _ _)
                  (VObj [(js "message",
                          VObj [(js "content", VStr five_paragraphs)])])
                  [] [(js "content", VStr five_paragraphs)] five_paragraphs
                  _ _ _)) five_lines _ _).
    + exists 0. vm_compute. reflexivity.
    + reflexivity.
    + vm_compute. reflexivity.
    + vm_compute. reflexivity.
    + vm_compute. reflexivity.
    + repeat constructor; vm_compute;
        intros H; repeat (destruct H as [H|H]; [discriminate|]); exact H.
    + reflexivity.
Defined.

(** C5, as the specification words it, fails on a paragraph of white
    space.  Here the text has five pieces between blank lines that are
    not empty, the last of them a space; [describeImage] counts four and
    fails. *)
Lemma describeImage_counts_no_blank_paragraph :
  length (nonempty_paragraphs four_paragraphs_and_a_space) = 5%nat
  /\ fst (describeImage (describing four_paragraphs_and_a_space)
                        (js "uploads/3f9a")
                        (with_file (js "uploads/3f9a") 0 (boot 1000)))
     = Threw (Error (js "Generated content has less than 5 paragraphs")).
Proof. vm_compute. split; reflexivity. Qed.

(** ** What a computation leaves alone *)

Section Frame.
Context {X : Type} (part : World -> X).

Lemma preserves_ret {A} (a : A) : preserves part (ret a).
Proof. intros w. reflexivity. Qed.

Lemma preserves_throw {A} (e : JsError) : preserves part (@throw A e).
Proof. intros w. reflexivity. Qed.

Lemma preserves_lift {A} (r : JsError + A) : preserves part (lift r).
Proof. destruct r; intros w; reflexivity. Qed.

Lemma preserves_bind {A B} (m : M A) (k : A -> M B) :
  preserves part m -> (forall a, preserves part (k a)) ->
  preserves part (bind m k).
Proof.
  intros Hm Hk w. unfold bind. specialize (Hm w).
  destruct (m w) as [[a|e] w1]; simpl in *; [|assumption].
  now rewrite Hk.
Qed.

Lemma preserves_try_catch {A} (m : M A) (h : JsError -> M A) :
  preserves part m -> (forall e, preserves part (h e)) ->
  preserves part (try_catch m h).
Proof.
  intros Hm Hh w. unfold try_catch. specialize (Hm w).
  destruct (m w) as [[a|e] w1]; simpl in *; [assumption|].
  now rewrite Hh.
Qed.

Lemma preserves_try_finally {A} (m : M A) (c : M unit) :
  preserves part m -> preserves part c -> preserves part (try_finally m c).
Proof.
  intros Hm Hc w. unfold try_finally. specialize (Hm w).
  destruct (m w) as [r w1]. specialize (Hc w1).
  destruct (c w1) as [[[]|e] w2]; simpl in *; congruence.
Qed.

Lemma preserves_forEach {A} (xs : list A) (body : A -> M unit) :
  (forall x, preserves part (body x)) -> preserves part (forEach xs body).
Proof.
  intros Hbody. induction xs as [|x xs IH]; simpl.
  - apply preserves_ret.
  - apply preserves_bind; [apply Hbody|intros _; exact IH].
Qed.

End Frame.

(** A primitive that does not write the component. *)
Ltac untouched :=
  let w := fresh "w" in
  intros w;
  cbv [call delay console_log console_error send fresh_uuid Date_now
       statSync_mtimeMs unlinkSync existsSync readFileSync writeFile
       new_PDFDocument doc the_document get_pdfPreviews update_pdfPreviews
       doc_image image_size];
  repeat match goal with
         | |- context [match ?x with _ => _ end] => destruct x
         end;
  reflexivity.

(** Walks through a computation, one construct at a time. *)
Ltac frame :=
  repeat first
    [ apply preserves_ret
    | apply preserves_throw
    | apply preserves_lift
    | apply preserves_bind; [|intros ?]
    | apply preserves_try_catch; [|intros ?]
    | apply preserves_try_finally
    | apply preserves_forEach; intros ?
    | match goal with
      | |- preserves _ (if ?b then _ else _) => destruct b
      | |- preserves _ (match ?x with _ => _ end) => destruct x
      | |- preserves _ (let '(_, _) := ?x in _) => destruct x
      end
    | assumption
    | solve [untouched] ].

(** Runs the effects at the head of a computation that cannot fail. *)
Ltac run :=
  repeat (rewrite bind_run;
          cbn [ret console_log console_error delay send Date_now
               new_PDFDocument doc the_document get_pdfPreviews
               update_pdfPreviews writeFile]).

(** ** Counting calls *)

Lemma calls_to_app (e : Endpoint) (w : World) (l : list Endpoint) :
  calls_to e (set_requests (fun r => r ++ l) w)
  = (calls_to e w + length (List.filter (fun e' => bool_decide (e' = e)) l))%nat.
Proof.
  unfold calls_to. simpl. now rewrite List.filter_app, length_app.
Qed.

Lemma calls_to_next (e : Endpoint) (w : World) :
  calls_to e (set_requests (fun r => r ++ [e]) w) = S (calls_to e w).
Proof.
  rewrite calls_to_app. simpl. rewrite bool_decide_true by reflexivity.
  simpl. lia.
Qed.

(** The world after a call, whatever came of it. *)
Lemma snd_call (env : Env) (e : Endpoint) (w : World) :
  snd (call env e w) = set_requests (fun r => r ++ [e]) w.
Proof. unfold call. destruct (upstream env e _); reflexivity. Qed.

Lemma fst_call (env : Env) (e : Endpoint) (w : World) :
  fst (call env e w) =
  match upstream env e (calls_to e w) with
  | Resolved v => Returned v
  | Rejected err => Threw err
  end.
Proof. unfold call. destruct (upstream env e _); reflexivity. Qed.

Lemma call_run (env : Env) (e : Endpoint) (w : World) :
  call env e w =
  (match upstream env e (calls_to e w) with
   | Resolved v => Returned v
   | Rejected err => Threw err
   end, set_requests (fun r => r ++ [e]) w).
Proof. unfold call. destruct (upstream env e _); reflexivity. Qed.

(** ** Text generation client *)

Section ChatAttempt.
Variable env : Env.

Let chat := Axios POST CHAT_COMPLETIONS_URL.

(** The [try] block issues exactly one call, waits for nothing and
    touches no file. *)
Lemma chat_attempt_requests (w : World) :
  requests (snd (chat_attempt env w)) = requests w ++ [chat].
Proof.
  unfold chat_attempt. rewrite bind_run, call_run.
  destruct (upstream env _ _) as [v|err]; [|reflexivity].
  match goal with
  | |- requests (snd (?m ?w')) = _ =>
      assert (H : preserves requests m) by frame;
      rewrite H; reflexivity
  end.
Qed.

Lemma chat_attempt_timers : preserves timers (chat_attempt env).
Proof. unfold chat_attempt. frame. Qed.

Lemma chat_attempt_files : preserves files (chat_attempt env).
Proof. unfold chat_attempt. frame. Qed.

(** A failed call is what the block throws, with nothing logged. *)
Lemma chat_attempt_rejected (w : World) (err : JsError) :
  upstream env chat (calls_to chat w) = Rejected err ->
  chat_attempt env w = (Threw err, set_requests (fun r => r ++ [chat]) w).
Proof.
  intros H. unfold chat_attempt. rewrite bind_run, call_run.
  fold chat. now rewrite H.
Qed.

End ChatAttempt.

(** ** Retry helper *)

Lemma backoff_doubles (i : nat) :
  (i <= 21)%nat -> backoff i = 1000 * 2 ^ Z.of_nat i.
Proof.
  intros Hi. unfold backoff, timeout_of.
  assert (H : 1 <= 2 ^ Z.of_nat i <= 2 ^ 21).
  { split; [|apply Z.pow_le_mono_r; lia].
    pose proof (Z.pow_pos_nonneg 2 (Z.of_nat i)). lia. }
  change (2 ^ 21) with 2097152 in H.
  replace (1 <=? 1000 * 2 ^ Z.of_nat i) with true
    by (symmetry; apply Z.leb_le; lia).
  replace (1000 * 2 ^ Z.of_nat i <=? 2147483647) with true
    by (symmetry; apply Z.leb_le; lia).
  reflexivity.
Qed.

Lemma backoff_clamped (i : nat) : (22 <= i)%nat -> backoff i = 1.
Proof.
  intros Hi. unfold backoff, timeout_of.
  assert (H : 2 ^ 22 <= 2 ^ Z.of_nat i) by (apply Z.pow_le_mono_r; lia).
  change (2 ^ 22) with 4194304 in H.
  replace (1000 * 2 ^ Z.of_nat i <=? 2147483647) with false
    by (symmetry; apply Z.leb_gt; lia).
  now rewrite andb_false_r.
Qed.

Section RetryHelper.
Variable env : Env.
Variable url : jsstring.

Let post := Axios POST url.

Lemma makeRequestWithRetry_for_eq (maxRetries i : nat) (later : list nat)
  (w : World) :
  makeRequestWithRetry_for env url maxRetries (i :: later) w =
  match upstream env post (calls_to post w) with
  | Resolved v => (Returned v, set_requests (fun r => r ++ [post]) w)
  | Rejected error =>
      if (Z.of_nat i =? Z.of_nat maxRetries - 1)
      then (Threw error, set_requests (fun r => r ++ [post]) w)
      else makeRequestWithRetry_for env url maxRetries later
             (snd (delay (backoff i)
                         (set_requests (fun r => r ++ [post]) w)))
  end.
Proof.
  cbn [makeRequestWithRetry_for]. unfold try_catch. rewrite call_run.
  fold post. destruct (upstream env post _) as [v|error]; [reflexivity|].
  destruct (_ =? _); reflexivity.
Qed.

(** The loop over the last [n] indices makes at most [n] calls, and at
    least one if there is an index at all; between two calls it waits,
    after the call with index [k] for [backoff k]. *)
Lemma makeRequestWithRetry_for_calls (maxRetries n i : nat) (w : World) :
  (i + n = maxRetries)%nat ->
  exists k, (k <= n)%nat /\ (0 < n -> 0 < k)%nat /\
    requests (snd (makeRequestWithRetry_for env url maxRetries (seq i n) w))
    = requests w ++ repeat post k
    /\ timers (snd (makeRequestWithRetry_for env url maxRetries (seq i n) w))
       = timers w ++ map backoff (seq i (k - 1)).
Proof.
  revert i w. induction n as [|n IH]; intros i w Hi.
  - exists 0%nat. simpl. rewrite !app_nil_r. repeat split; lia.
  - cbn [seq]. rewrite makeRequestWithRetry_for_eq.
    destruct (upstream env post _) as [v|error].
    + exists 1%nat. cbn. rewrite app_nil_r. repeat split; lia.
    + destruct (Z.eqb_spec (Z.of_nat i) (Z.of_nat maxRetries - 1))
        as [Hlast|Hmore].
      * exists 1%nat. cbn. rewrite app_nil_r. repeat split; lia.
      * destruct (IH (S i) (snd (delay (backoff i)
                                   (set_requests (fun r => r ++ [post]) w))))
          as (k & Hk & Hpos & Hreq & Htim); [lia|].
        assert (0 < k)%nat by (apply Hpos; lia).
        exists (S k). split; [lia|]. split; [lia|]. split.
        -- rewrite Hreq. simpl. now rewrite <- app_assoc.
        -- rewrite Htim. cbn [delay snd timers set_timers set_clock
                              set_requests].
           replace (S k - 1)%nat with (S (k - 1)) by lia.
           cbn [seq map]. now rewrite <- app_assoc.
Qed.

(** When every attempt fails, the failure of the last one is thrown, and
    no attempt was left out. *)
Lemma makeRequestWithRetry_for_exhausted (maxRetries n i : nat) (w : World) :
  (i + S n = maxRetries)%nat ->
  (forall j, (j <= n)%nat ->
     exists error, upstream env post (calls_to post w + j) = Rejected error) ->
  let result := makeRequestWithRetry_for env url maxRetries (seq i (S n)) w in
  (exists error,
     upstream env post (calls_to post w + n) = Rejected error
     /\ fst result = Threw error)
  /\ requests (snd result) = requests w ++ repeat post (S n)
  /\ timers (snd result) = timers w ++ map backoff (seq i n).
Proof.
  cbv zeta. revert i w. induction n as [|n IH]; intros i w Hi Hall.
  - destruct (Hall 0%nat) as [error Herr]; [lia|].
    cbn [seq]. rewrite makeRequestWithRetry_for_eq.
    rewrite Nat.add_0_r in Herr. fold post. rewrite Herr.
    replace (Z.of_nat i =? Z.of_nat maxRetries - 1) with true
      by (symmetry; apply Z.eqb_eq; lia).
    cbn. rewrite app_nil_r. split; [|auto].
    exists error. rewrite Nat.add_0_r. auto.
  - destruct (Hall 0%nat) as [first Hfirst]; [lia|].
    rewrite Nat.add_0_r in Hfirst.
    cbn [seq]. rewrite makeRequestWithRetry_for_eq. fold post.
    rewrite Hfirst.
    replace (Z.of_nat i =? Z.of_nat maxRetries - 1) with false
      by (symmetry; apply Z.eqb_neq; lia).
    set (w1 := snd (delay _ _)).
    assert (Hcalls : calls_to post w1 = S (calls_to post w))
      by apply calls_to_next.
    destruct (IH (S i) w1) as ((error & Herr & Hthrown) & Hreq & Htim);
      [lia| |].
    + intros j Hj. rewrite Hcalls.
      destruct (Hall (S j)) as [e He]; [lia|].
      exists e.
      replace (S (calls_to post w) + j)%nat with (calls_to post w + S j)%nat
        by lia.
      exact He.
    + split; [|split].
      * exists error. split; [|exact Hthrown].
        rewrite Hcalls in Herr.
        replace (calls_to post w + S n)%nat with (S (calls_to post w) + n)%nat
          by lia.
        exact Herr.
      * cbn [seq] in Hreq. rewrite Hreq. subst w1. cbn.
        now rewrite <- app_assoc.
      * cbn [seq] in Htim. rewrite Htim. subst w1. cbn.
        now rewrite <- app_assoc.
Qed.

(** The loop from index [i] on: after [j] failed attempts the first
    answer is returned. *)
Lemma makeRequestWithRetry_for_answered (maxRetries n i j : nat) (w : World)
  (response : JsValue) :
  (i + n = maxRetries)%nat -> (j < n)%nat ->
  (forall k, (k < j)%nat ->
     exists error, upstream env post (calls_to post w + k) = Rejected error) ->
  upstream env post (calls_to post w + j) = Resolved response ->
  let result := makeRequestWithRetry_for env url maxRetries (seq i n) w in
  fst result = Returned response
  /\ requests (snd result) = requests w ++ repeat post (S j)
  /\ timers (snd result) = timers w ++ map backoff (seq i j).
Proof.
  cbv zeta. revert n i w.
  induction j as [|j IH]; intros n i w Hi Hj Hfail Hok;
    (destruct n as [|n]; [lia|]); cbn [seq];
    rewrite makeRequestWithRetry_for_eq.
  - rewrite Nat.add_0_r in Hok. fold post. rewrite Hok.
    cbn. rewrite app_nil_r. auto.
  - destruct (Hfail 0%nat) as [error Herr]; [lia|].
    rewrite Nat.add_0_r in Herr. fold post. rewrite Herr.
    replace (Z.of_nat i =? Z.of_nat maxRetries - 1) with false
      by (symmetry; apply Z.eqb_neq; lia).
    set (w1 := snd (delay _ _)).
    assert (Hcalls : calls_to post w1 = S (calls_to post w))
      by apply calls_to_next.
    destruct (IH n (S i) w1) as (Hres & Hreq & Htim); [lia|lia| | |].
    + intros k Hk. rewrite Hcalls.
      replace (S (calls_to post w) + k)%nat with (calls_to post w + S k)%nat
        by lia.
      apply Hfail. lia.
    + rewrite Hcalls.
      replace (S (calls_to post w) + j)%nat with (calls_to post w + S j)%nat
        by lia.
      exact Hok.
    + split; [exact Hres|]. split.
      * rewrite Hreq. subst w1. cbn. now rewrite <- app_assoc.
      * rewrite Htim. subst w1. cbn. now rewrite <- app_assoc.
Qed.

End RetryHelper.

(** ** Text generation client: the retries *)

Section ChatRetries.
Variable env : Env.
Variables message numChapters maxWordsPerChapter : JsValue.

Let chat := Axios POST CHAT_COMPLETIONS_URL.

Lemma makeChatRequest_fuel_eq (fuel retries : nat) :
  makeChatRequest_fuel env fuel message numChapters maxWordsPerChapter retries
  = try_catch (chat_attempt env)
      (fun error =>
         if rate_limited error && (retries <? MAX_RETRIES)%nat
         then
           console_log
             [LogVal (VStr (js "Rate limited. Retrying in "
                            ++ JS.numeral ((Z.of_nat retries + 1) * 1000)
                            ++ js " ms..."))] ;;
           delay ((Z.of_nat retries + 1) * 1000) ;;
           match fuel with
           | S fuel' =>
               makeChatRequest_fuel env fuel' message numChapters
                                    maxWordsPerChapter (retries + 1)
           | O => throw (Error (js "out of fuel"))
           end
         else
           console_error
             [LogVal (VStr (js "Error in makeChatRequest:"));
              match error_message error with
              | [] => LogErr error
              | m => LogVal (VStr m)
              end] ;;
           throw error).
Proof. destruct fuel; reflexivity. Qed.

(** Fuel beyond [MAX_RETRIES - retries] is never used: the nested calls
    stop by themselves. *)
Lemma makeChatRequest_fuel_enough (fuel1 fuel2 retries : nat) (w : World) :
  (MAX_RETRIES - retries <= fuel1)%nat ->
  (MAX_RETRIES - retries <= fuel2)%nat ->
  makeChatRequest_fuel env fuel1 message numChapters maxWordsPerChapter
                       retries w
  = makeChatRequest_fuel env fuel2 message numChapters maxWordsPerChapter
                         retries w.
Proof.
  revert fuel2 retries w.
  induction fuel1 as [|fuel1 IH]; intros fuel2 retries w H1 H2;
    rewrite (makeChatRequest_fuel_eq fuel2 retries);
    [rewrite (makeChatRequest_fuel_eq 0 retries)
    |rewrite (makeChatRequest_fuel_eq (S fuel1) retries)];
    unfold try_catch;
    destruct (chat_attempt env w) as [[v|error] w1]; try reflexivity;
    destruct (rate_limited error); cbn [andb]; try reflexivity;
    destruct (Nat.ltb_spec retries MAX_RETRIES); try reflexivity.
  - lia.
  - destruct fuel2 as [|fuel2]; [lia|].
    run.
    apply IH; lia.
Qed.

(** A call of [makeChatRequest] issues between one and [fuel + 1]
    requests, all of them to the chat endpoint. *)
Lemma makeChatRequest_fuel_calls (fuel retries : nat) (w : World) :
  exists n, (1 <= n <= S fuel)%nat /\
    requests (snd (makeChatRequest_fuel env fuel message numChapters
                                        maxWordsPerChapter retries w))
    = requests w ++ repeat chat n.
Proof.
  revert retries w.
  induction fuel as [|fuel IH]; intros retries w;
    rewrite makeChatRequest_fuel_eq; unfold try_catch;
    pose proof (chat_attempt_requests env w) as Hreq;
    destruct (chat_attempt env w) as [[v|error] w1]; cbn [snd] in Hreq;
    try (exists 1%nat; split; [lia|exact Hreq]);
    destruct (rate_limited error && _);
    try (exists 1%nat; split; [lia|exact Hreq]).
  run.
    match goal with
    | |- context [makeChatRequest_fuel env fuel _ _ _ ?r ?w2] =>
        destruct (IH r w2) as (n & Hn & Hreq')
    end.
    exists (S n). split; [lia|].
    rewrite Hreq'. cbn [requests set_timers set_clock set_console].
    rewrite Hreq. simpl. now rewrite <- app_assoc.
Qed.

(** A failure that is no rate limit is thrown on at once: one request,
    no wait. *)
Lemma makeChatRequest_fails_fast (retries : nat) (w : World) (error : JsError) :
  upstream env chat (calls_to chat w) = Rejected error ->
  rate_limited error = false ->
  let result :=
    makeChatRequest env message numChapters maxWordsPerChapter retries w in
  fst result = Threw error
  /\ requests (snd result) = requests w ++ [chat]
  /\ timers (snd result) = timers w.
Proof.
  intros Hup Hrl. unfold makeChatRequest.
  rewrite makeChatRequest_fuel_eq. unfold try_catch.
  rewrite (chat_attempt_rejected env w error Hup), Hrl.
  cbn. repeat split; reflexivity.
Qed.

(** A rate limit is waited out and the request made again, as long as
    [retries] is below [MAX_RETRIES]. *)
Lemma makeChatRequest_retries (retries : nat) (w : World) (error : JsError) :
  upstream env chat (calls_to chat w) = Rejected error ->
  rate_limited error = true ->
  (retries < MAX_RETRIES)%nat ->
  exists w1,
    makeChatRequest env message numChapters maxWordsPerChapter retries w
    = makeChatRequest env message numChapters maxWordsPerChapter
                      (retries + 1) w1
    /\ requests w1 = requests w ++ [chat]
    /\ timers w1 = timers w ++ [(Z.of_nat retries + 1) * 1000].
Proof.
  intros Hup Hrl Hlt. unfold makeChatRequest.
  rewrite makeChatRequest_fuel_eq. unfold try_catch.
  rewrite (chat_attempt_rejected env w error Hup), Hrl.
  destruct (Nat.ltb_spec retries MAX_RETRIES); [|lia]. cbn [andb].
  replace (MAX_RETRIES - retries)%nat with (S (MAX_RETRIES - (retries + 1)))
    by lia.
  run.
  eexists. split; [reflexivity|]. split; reflexivity.
Qed.

End ChatRetries.

(** C1, as the code has it.  [makeRequestWithRetry] with [maxRetries = N]
    makes at most [N] calls, and one at least if [N] is not 0; between two
    calls it waits, after the failed call [i] (counted from 0) for the
    delay of the timer it sets: [1000 * 2 ^ i] milliseconds up to
    [i = 21], and one millisecond from [i = 22] on, where the product is
    more than a timer takes.  It calls again after a failure of any kind,
    and when all [N] calls fail it throws the failure of the last one.
    [makeChatRequest] makes at least one and at most
    [MAX_RETRIES - retries + 1] calls (six from [retries = 0]); a failure
    of its call that is no 429 answer is thrown at once, unchanged, after
    that one call and without waiting. *)
Theorem retry_helpers_as_built (env : Env) (url : jsstring) (maxRetries : nat)
  (message numChapters maxWordsPerChapter : JsValue) (retries : nat)
  (w : World) :
  let post := Axios POST url in
  let chat := Axios POST CHAT_COMPLETIONS_URL in
  let helper := makeRequestWithRetry env url maxRetries w in
  let client :=
    makeChatRequest env message numChapters maxWordsPerChapter retries w in
  (exists n, (n <= maxRetries)%nat /\ (0 < maxRetries -> 0 < n)%nat
     /\ requests (snd helper) = requests w ++ repeat post n
     /\ timers (snd helper) = timers w ++ map backoff (seq 0 (n - 1)))
  /\ (forall i, (i <= 21)%nat -> backoff i = 1000 * 2 ^ Z.of_nat i)
  /\ (forall i, (22 <= i)%nat -> backoff i = 1)
  /\ (forall error,
        upstream env post (calls_to post w) = Rejected error ->
        (2 <= maxRetries)%nat ->
        exists n, (2 <= n)%nat
          /\ requests (snd helper) = requests w ++ repeat post n)
  /\ ((0 < maxRetries)%nat ->
      (forall j, (j < maxRetries)%nat ->
         exists error,
           upstream env post (calls_to post w + j) = Rejected error) ->
      (exists error,
         upstream env post (calls_to post w + (maxRetries - 1))
         = Rejected error
         /\ fst helper = Threw error)
      /\ requests (snd helper) = requests w ++ repeat post maxRetries)
  /\ (exists n, (1 <= n <= MAX_RETRIES - retries + 1)%nat
        /\ requests (snd client) = requests w ++ repeat chat n)
  /\ (forall error,
        upstream env chat (calls_to chat w) = Rejected error ->
        rate_limited error = false ->
        fst client = Threw error
        /\ requests (snd client) = requests w ++ [chat]
        /\ timers (snd client) = timers w).
Proof.
  cbv zeta. unfold makeRequestWithRetry.
  split; [|split; [|split; [|split; [|split; [|split]]]]].
  - destruct (makeRequestWithRetry_for_calls env url maxRetries maxRetries 0 w)
      as (n & Hn & Hpos & Hreq & Htim); [lia|].
    exists n. auto.
  - apply backoff_doubles.
  - apply backoff_clamped.
  - intros error Herr Hmax.
    destruct maxRetries as [|n]; [lia|]. cbn [seq].
    rewrite makeRequestWithRetry_for_eq, Herr.
    replace (Z.of_nat 0 =? Z.of_nat (S n) - 1) with false
      by (symmetry; apply Z.eqb_neq; lia).
    match goal with
    | |- context [makeRequestWithRetry_for env url ?m (seq 1 n) ?w1] =>
        destruct (makeRequestWithRetry_for_calls env url m n 1 w1)
          as (k & _ & Hpos & Hreq & _); [lia|]
    end.
    exists (S k). split; [lia|].
    rewrite Hreq. simpl. now rewrite <- app_assoc.
  - intros Hpos Hall.
    destruct maxRetries as [|n]; [lia|].
    replace (S n - 1)%nat with n by lia.
    destruct (makeRequestWithRetry_for_exhausted env url (S n) n 0 w)
      as (Hthrown & Hreq & _); [lia| |auto].
    intros j Hj. apply Hall. lia.
  - unfold makeChatRequest.
    destruct (makeChatRequest_fuel_calls env message numChapters
                maxWordsPerChapter (MAX_RETRIES - retries) retries w)
      as (n & Hn & Hreq).
    exists n. split; [lia|exact Hreq].
  - intros error Herr Hrl.
    exact (makeChatRequest_fails_fast env message numChapters
             maxWordsPerChapter retries w error Herr Hrl).
Qed.

(** C1, as the specification words it, fails on both helpers.
    [makeRequestWithRetry] calls again after a failure that is no 429:
    here a 500, answered by a second call one second later.  And against
    a server that keeps answering 429, [makeChatRequest] makes one call
    more than [MAX_RETRIES]. *)
Lemma retry_helpers_exceed_the_bound :
  let again := makeRequestWithRetry failing_once some_url 3 (boot 0) in
  let client :=
    makeChatRequest throttling (VStr (js "tell me a story")) (VNum 3)
                    (VNum 200) 0 (boot 0) in
  rate_limited (http_error 500) = false
  /\ fst again = Returned (http_ok (VStr (js "done")))
  /\ requests (snd again) = [Axios POST some_url; Axios POST some_url]
  /\ timers (snd again) = [1000]
  /\ MAX_RETRIES = 5%nat
  /\ length (requests (snd client)) = 6%nat
  /\ timers (snd client) = [1000; 2000; 3000; 4000; 5000]
  /\ fst client = Threw (http_error 429).
Proof. vm_compute. repeat split; reflexivity. Qed.

(** A chat call that the service answers with status 500 is given up at
    once: one call, no wait, and the 500 itself is thrown. *)
Lemma makeChatRequest_gives_up_on_500 :
  let client :=
    makeChatRequest failing_once (VStr (js "tell me a story")) (VNum 3)
                    (VNum 200) 0 (boot 0) in
  fst client = Threw (http_error 500)
  /\ requests (snd client) = [Axios POST CHAT_COMPLETIONS_URL]
  /\ timers (snd client) = [].
Proof.
  cbv zeta.
  refine (proj2 (proj2 (proj2 (proj2 (proj2 (proj2
            (retry_helpers_as_built failing_once some_url 3
               (VStr (js "tell me a story")) (VNum 3) (VNum 200) 0
               (boot 0)))))))
            (http_error 500) _ _);
    vm_compute; reflexivity.
Defined.

(** ** Sanitizing and parsing a chat reply *)

Lemma escapeJsonString_clean (str : jsstring) :
  Forall (fun c => isControl c = false) (escapeJsonString str).
Proof.
  unfold escapeJsonString. apply List.Forall_forall. intros c Hc.
  apply filter_In in Hc as [_ Hc]. now apply negb_true_iff.
Qed.

Lemma escapeJsonString_sublist (str : jsstring) :
  sublist (escapeJsonString str) str.
Proof.
  unfold escapeJsonString. induction str as [|c str IH]; simpl.
  - constructor.
  - destruct (negb (isControl c)); now constructor.
Qed.

Lemma escapeJsonString_keeps (str : jsstring) (c : N) :
  In c str -> isControl c = false -> In c (escapeJsonString str).
Proof.
  intros Hin Hc. unfold escapeJsonString. apply filter_In.
  split; [assumption|]. now rewrite Hc.
Qed.

Section ParsingReply.
Variable env : Env.
Variables message numChapters maxWordsPerChapter : JsValue.
Variable retries : nat.
Variable w : World.
Variable response : JsValue.
Variable raw : jsstring.

Let chat := Axios POST CHAT_COMPLETIONS_URL.
Let parse_failure := Error (js "Failed to parse JSON response").

Hypothesis answered :
  upstream env chat (calls_to chat w) = Resolved response.
Hypothesis text : first_choice_content response = inr (VStr raw).

Lemma chat_attempt_parses :
  chat_attempt env w =
  match JSON_parse env (escapeJsonString raw) with
  | Some storyData =>
      (Returned storyData, set_requests (fun r => r ++ [chat]) w)
  | None =>
      (Threw parse_failure,
       set_console
         (fun l =>
            l ++ [[LogVal (VStr (js "Error parsing JSON:"));
                   LogErr (mkError (js "SyntaxError") (js "Unexpected token")
                                   VUndefined)];
                  [LogVal (VStr (js "Content that caused the error:"));
                   LogVal (VStr (escapeJsonString raw))]])
         (set_requests (fun r => r ++ [chat]) w))
  end.
Proof.
  unfold chat_attempt. rewrite bind_run, call_run. fold chat.
  rewrite answered, text. clear answered. destruct w as [fs ck rq tm cs pv rp uu dc].
  cbv [bind lift ret throw escapeJsonString_of try_catch console_error
       console_log set_console set_requests files clock requests timers
       console pdfPreviews replies uuids document parse_failure].
  destruct (JSON_parse env (escapeJsonString raw)); [reflexivity|].
  now rewrite <- app_assoc.
Qed.

(** C3, as the code has it.  The text of a chat reply is parsed after its
    control characters have been taken out, and what parses is returned.
    If the sanitized text does not parse, [makeChatRequest] throws an
    [Error] of its own, "Failed to parse JSON response", which has no
    [response] and does not depend on the text: the sanitized text is
    written to the console instead.  No second request is made. *)
Theorem makeChatRequest_parses_sanitized_reply :
  let sanitized := escapeJsonString raw in
  let result :=
    makeChatRequest env message numChapters maxWordsPerChapter retries w in
  Forall (fun c => isControl c = false) sanitized
  /\ sublist sanitized raw
  /\ (forall c, In c raw -> isControl c = false -> In c sanitized)
  /\ (forall storyData,
        JSON_parse env sanitized = Some storyData ->
        fst result = Returned storyData)
  /\ (JSON_parse env sanitized = None ->
      fst result = Threw parse_failure
      /\ error_response parse_failure = VUndefined
      /\ rate_limited parse_failure = false
      /\ requests (snd result) = requests w ++ [chat]
      /\ console (snd result) =
         console w ++
         [[LogVal (VStr (js "Error parsing JSON:"));
           LogErr (mkError (js "SyntaxError") (js "Unexpected token")
                           VUndefined)];
          [LogVal (VStr (js "Content that caused the error:"));
           LogVal (VStr sanitized)];
          [LogVal (VStr (js "Error in makeChatRequest:"));
           LogVal (VStr (js "Failed to parse JSON response"))]]).
Proof.
  cbv zeta.
  split; [apply escapeJsonString_clean|].
  split; [apply escapeJsonString_sublist|].
  split; [apply escapeJsonString_keeps|].
  unfold makeChatRequest. rewrite makeChatRequest_fuel_eq.
  unfold try_catch. rewrite chat_attempt_parses.
  split.
  - intros storyData ->. reflexivity.
  - intros ->.
    change (rate_limited parse_failure) with false. destruct w as [fs ck rq tm cs pv rp uu dc].
    cbv [andb bind throw ret console_error console_log fst snd
         set_console set_requests files clock requests timers
         console pdfPreviews replies uuids document parse_failure].
    repeat split; try reflexivity.
    now rewrite <- app_assoc.
Qed.

End ParsingReply.

(** A story with a raw line feed inside a string parses once the line
    feed has been taken out. *)
Lemma makeChatRequest_parses_after_sanitizing :
  fst (makeChatRequest (chatting story_with_line_feed)
                       (VStr (js "tell me a story")) (VNum 1) (VNum 100) 0
                       (boot 0))
  = Returned (VObj [(js "chapter1", VStr (js "Onceupon"))]).
Proof.
  refine (proj1 (proj2 (proj2 (proj2
           (makeChatRequest_parses_sanitized_reply
              (chatting story_with_line_feed)
              (VStr (js "tell me a story")) (VNum 1) (VNum 100) 0 (boot 0)
              (http_ok (completion (VStr story_with_line_feed)))
              story_with_line_feed _ _)))) _ _).
  - reflexivity.
  - vm_compute. reflexivity.
  - vm_compute. reflexivity.
Defined.

(** C3, as the specification words it, fails: for a reply cut off in the
    middle of a string the error thrown carries the fixed message and no
    response; the offending text is in neither. *)
Lemma makeChatRequest_parse_error_drops_text :
  let result :=
    makeChatRequest (chatting truncated_story) (VStr (js "tell me a story"))
                    (VNum 1) (VNum 100) 0 (boot 0) in
  fst result = Threw (Error (js "Failed to parse JSON response"))
  /\ error_response (Error (js "Failed to parse JSON response")) = VUndefined
  /\ JS.includes (escapeJsonString truncated_story)
                 (error_message (Error (js "Failed to parse JSON response")))
     = false
  /\ JS.includes (js "Once upon a time")
                 (error_message (Error (js "Failed to parse JSON response")))
     = false.
Proof. vm_compute. repeat split; reflexivity. Qed.

(** ** Flipbook publisher *)

Lemma calls_to_other (e e' : Endpoint) (w : World) :
  e' <> e ->
  calls_to e (set_requests (fun r => r ++ [e']) w) = calls_to e w.
Proof.
  intros Hne. rewrite calls_to_app. simpl.
  rewrite bool_decide_false by assumption. simpl. lia.
Qed.

Lemma repeat_snoc {A} (x : A) (n : nat) : repeat x n ++ [x] = repeat x (S n).
Proof. induction n as [|n IH]; simpl; [reflexivity|now rewrite IH]. Qed.

Lemma app_repeat_S {A} (l : list A) (x : A) (n : nat) :
  (l ++ [x]) ++ repeat x n = l ++ repeat x (S n).
Proof. now rewrite <- app_assoc. Qed.

Section Polling.
Variable env : Env.
Variable flipbookId : JsValue.

Let status := status_endpoint flipbookId.

Lemma polled_calls (w : World) : calls_to status (polled flipbookId w) = S (calls_to status w).
Proof. unfold polled. now rewrite calls_to_next. Qed.

Lemma from_url_poll_eq (a : nat) (later : list nat) (w : World) :
  from_url_poll env flipbookId (a :: later) w =
  match upstream env status (calls_to status w) with
  | Rejected error => (Threw error, polled flipbookId w)
  | Resolved statusResponse =>
      match Value.get statusResponse (js "data") with
      | inl e => (Threw e, polled flipbookId w)
      | inr data =>
          match Value.get data (js "publication") with
          | inl e => (Threw e, polled flipbookId w)
          | inr publication =>
              match Value.get publication (js "state") with
              | inl e => (Threw e, polled flipbookId w)
              | inr state =>
                  if Value.truthy publication
                     && Value.is_str (js "Ready")
                                     (Value.prop publication (js "state"))
                  then (Returned
                          (Some (view_url
                                   (Value.prop publication (js "hashId")))),
                        logged a state (polled flipbookId w))
                  else from_url_poll env flipbookId later
                         (logged a state (polled flipbookId w))
              end
          end
      end
  end.
Proof.
  cbn [from_url_poll]. rewrite bind_run. cbn [delay].
  rewrite bind_run, call_run. fold status.
  change (calls_to status (set_timers _ (set_clock _ w)))
    with (calls_to status w).
  destruct (upstream env status _) as [statusResponse|error]; [|reflexivity].
  rewrite bind_run. destruct (Value.get statusResponse _) as [e|data];
    [reflexivity|].
  cbn [lift ret]. rewrite bind_run.
  destruct (Value.get data _) as [e|publication]; [reflexivity|].
  cbn [lift ret]. rewrite bind_run.
  destruct (Value.get publication _) as [e|state]; [reflexivity|].
  cbn [lift ret]. rewrite bind_run. cbn [console_log].
  destruct (_ && _); reflexivity.
Qed.

Lemma after_polls_none (w : World) : after_polls flipbookId 0 w w.
Proof. unfold after_polls. simpl. rewrite !app_nil_r. auto. Qed.

Lemma after_polls_one (w : World) : after_polls flipbookId 1 w (polled flipbookId w).
Proof. unfold after_polls. simpl. auto. Qed.

Lemma after_polls_one_logged (a : nat) (state : JsValue) (w : World) :
  after_polls flipbookId 1 w (logged a state (polled flipbookId w)).
Proof. unfold after_polls. simpl. auto. Qed.

Lemma after_polls_more_logged (n a : nat) (state : JsValue) (w w' : World) :
  after_polls flipbookId n (logged a state (polled flipbookId w)) w' ->
  after_polls flipbookId (S n) w w'.
Proof.
  unfold after_polls. intros (Hr & Ht & Hs & Hf).
  rewrite Hr, Ht, Hs, Hf. cbn [polled logged requests timers
    replies files set_requests set_timers set_clock set_console].
  rewrite !app_repeat_S. auto.
Qed.

Lemma unready_shift (w : World) (n : nat) :
  (forall k, (k < S n)%nat -> unready (poll_answer env w flipbookId k)) ->
  forall k, (k < n)%nat -> unready (poll_answer env (polled flipbookId w) flipbookId k).
Proof.
  intros H k Hk. unfold poll_answer. fold status. rewrite polled_calls.
  replace (S (calls_to status w) + k)%nat with (calls_to status w + S k)%nat
    by lia.
  apply H. lia.
Qed.

Lemma poll_answer_first (w : World) :
  poll_answer env w flipbookId 0 = upstream env status (calls_to status w).
Proof. unfold poll_answer. fold status. now rewrite Nat.add_0_r. Qed.

Lemma poll_answer_shift (w : World) (k : nat) :
  poll_answer env (polled flipbookId w) flipbookId k = poll_answer env w flipbookId (S k).
Proof.
  unfold poll_answer. fold status. rewrite polled_calls. f_equal. lia.
Qed.

(** *** The loop of [create-flipbook-from-url] *)

Lemma logged_answers (a : nat) (state : JsValue) (w : World) (k : nat) :
  poll_answer env (logged a state w) flipbookId k
  = poll_answer env w flipbookId k.
Proof. reflexivity. Qed.

Lemma from_url_poll_unready (n a : nat) (w : World) :
  (forall k, (k < n)%nat -> unready (poll_answer env w flipbookId k)) ->
  exists w',
    from_url_poll env flipbookId (seq a n) w = (Returned None, w')
    /\ after_polls flipbookId n w w'.
Proof.
  revert a w. induction n as [|n IH]; intros a w Hall.
  - exists w. split; [reflexivity|apply after_polls_none].
  - cbn [seq]. rewrite from_url_poll_eq.
    destruct (Hall 0%nat) as (sr & data & pub & Hup & Hdata & Hpub & Ht & Hs);
      [lia|].
    rewrite poll_answer_first in Hup. rewrite Hup, Hdata, Hpub.
    rewrite (get_truthy pub _ Ht), Ht, Hs. cbn [andb].
    match goal with
    | |- context [from_url_poll env flipbookId _ ?w1] =>
        destruct (IH (S a) w1) as (w' & Hrun & Hafter)
    end.
    { intros k Hk. rewrite logged_answers, poll_answer_shift.
      apply Hall. lia. }
    exists w'. split; [exact Hrun|].
    now apply after_polls_more_logged in Hafter.
Qed.

Lemma from_url_poll_ready (k n a : nat) (w : World) (hashId : JsValue) :
  (k < n)%nat ->
  (forall j, (j < k)%nat -> unready (poll_answer env w flipbookId j)) ->
  ready_with hashId (poll_answer env w flipbookId k) ->
  exists w',
    from_url_poll env flipbookId (seq a n) w
    = (Returned (Some (view_url hashId)), w')
    /\ after_polls flipbookId (S k) w w'.
Proof.
  revert n a w. induction k as [|k IH]; intros n a w Hk Hbefore Hready;
    (destruct n as [|n]; [lia|]); cbn [seq]; rewrite from_url_poll_eq.
  - destruct Hready as (sr & data & pub & Hup & Hdata & Hpub & Ht & Hs & Hh).
    rewrite poll_answer_first in Hup. rewrite Hup, Hdata, Hpub.
    rewrite (get_truthy pub _ Ht), Ht, Hs, Hh.
    cbn [andb]. eexists. split; [reflexivity|apply after_polls_one_logged].
  - destruct (Hbefore 0%nat)
      as (sr & data & pub & Hup & Hdata & Hpub & Ht & Hs); [lia|].
    rewrite poll_answer_first in Hup. rewrite Hup, Hdata, Hpub.
    rewrite (get_truthy pub _ Ht), Ht, Hs. cbn [andb].
    match goal with
    | |- context [from_url_poll env flipbookId _ ?w1] =>
        destruct (IH n (S a) w1) as (w' & Hrun & Hafter); [lia| | |]
    end.
    { intros j Hj. rewrite logged_answers, poll_answer_shift.
      apply Hbefore. lia. }
    { now rewrite logged_answers, poll_answer_shift. }
    exists w'. split; [exact Hrun|].
    now apply after_polls_more_logged in Hafter.
Qed.

Lemma from_url_poll_rejected (k n a : nat) (w : World) (error : JsError) :
  (k < n)%nat ->
  (forall j, (j < k)%nat -> unready (poll_answer env w flipbookId j)) ->
  poll_answer env w flipbookId k = Rejected error ->
  exists w',
    from_url_poll env flipbookId (seq a n) w = (Threw error, w')
    /\ after_polls flipbookId (S k) w w'.
Proof.
  revert n a w. induction k as [|k IH]; intros n a w Hk Hbefore Hrej;
    (destruct n as [|n]; [lia|]); cbn [seq]; rewrite from_url_poll_eq.
  - rewrite poll_answer_first in Hrej. rewrite Hrej.
    eexists. split; [reflexivity|apply after_polls_one].
  - destruct (Hbefore 0%nat)
      as (sr & data & pub & Hup & Hdata & Hpub & Ht & Hs); [lia|].
    rewrite poll_answer_first in Hup. rewrite Hup, Hdata, Hpub.
    rewrite (get_truthy pub _ Ht), Ht, Hs. cbn [andb].
    match goal with
    | |- context [from_url_poll env flipbookId _ ?w1] =>
        destruct (IH n (S a) w1) as (w' & Hrun & Hafter); [lia| | |]
    end.
    { intros j Hj. rewrite logged_answers, poll_answer_shift.
      apply Hbefore. lia. }
    { now rewrite logged_answers, poll_answer_shift. }
    exists w'. split; [exact Hrun|].
    now apply after_polls_more_logged in Hafter.
Qed.

(** A status answer whose publication cannot be read for its state ends
    the loop with the error of that read. *)
Lemma from_url_poll_unguarded (k n a : nat) (w : World)
  (statusResponse data publication : JsValue) (error : JsError) :
  (k < n)%nat ->
  (forall j, (j < k)%nat -> unready (poll_answer env w flipbookId j)) ->
  poll_answer env w flipbookId k = Resolved statusResponse ->
  Value.get statusResponse (js "data") = inr data ->
  Value.get data (js "publication") = inr publication ->
  Value.get publication (js "state") = inl error ->
  exists w',
    from_url_poll env flipbookId (seq a n) w = (Threw error, w')
    /\ after_polls flipbookId (S k) w w'.
Proof.
  revert n a w.
  induction k as [|k IH]; intros n a w Hk Hbefore Hans Hdata Hpub Hstate;
    (destruct n as [|n]; [lia|]); cbn [seq]; rewrite from_url_poll_eq.
  - rewrite poll_answer_first in Hans. rewrite Hans, Hdata, Hpub, Hstate.
    eexists. split; [reflexivity|apply after_polls_one].
  - destruct (Hbefore 0%nat)
      as (sr & d & pub & Hup & Hd & Hp & Ht & Hs); [lia|].
    rewrite poll_answer_first in Hup. rewrite Hup, Hd, Hp.
    rewrite (get_truthy pub _ Ht), Ht, Hs. cbn [andb].
    match goal with
    | |- context [from_url_poll env flipbookId _ ?w1] =>
        destruct (IH n (S a) w1) as (w' & Hrun & Hafter); [lia| | | | | |]
    end.
    { intros j Hj. rewrite logged_answers, poll_answer_shift.
      apply Hbefore. lia. }
    { now rewrite logged_answers, poll_answer_shift. }
    { exact Hdata. }
    { exact Hpub. }
    { exact Hstate. }
    exists w'. split; [exact Hrun|].
    now apply after_polls_more_logged in Hafter.
Qed.

End Polling.

(** *** The handlers around the loops *)

Lemma status_is_not_create (flipbookId : JsValue) :
  create_endpoint <> status_endpoint flipbookId.
Proof. unfold create_endpoint, status_endpoint. congruence. Qed.

Lemma get_is_not_create (url : jsstring) : Axios GET url <> create_endpoint.
Proof. unfold create_endpoint. congruence. Qed.

(** What the [catch] of the handlers does with an error. *)
Lemma flipbook_catch_reports (error : JsError) (w : World) :
  fst (flipbook_catch error w) = Returned tt
  /\ reports w (snd (flipbook_catch error w)) [] []
             (mkReply 500 (flipbook_failure error))
  /\ files (snd (flipbook_catch error w)) = files w.
Proof.
  unfold flipbook_catch, reports.
  destruct (Value.truthy (error_response error));
    cbn; rewrite !app_nil_r; auto.
Qed.

Lemma reports_after (w w1 w2 : World) (calls1 calls2 : list Endpoint)
  (waits : list Z) (reply : Reply) :
  requests w1 = requests w ++ calls1 ->
  timers w1 = timers w ->
  replies w1 = replies w ->
  requests w2 = requests w1 ++ calls2 ->
  timers w2 = timers w1 ++ waits ->
  replies w2 = replies w1 ++ [reply] ->
  reports w w2 (calls1 ++ calls2) waits reply.
Proof.
  unfold reports. intros -> -> -> -> -> ->.
  now rewrite <- app_assoc.
Qed.

(** What the handlers do with what the polling came to. *)
Lemma settle_reports (env : Env) (flipbookId : JsValue) (n : nat)
  (w w2 w3 : World) (before : list Endpoint)
  (polling : Completion (option jsstring)) :
  requests w2 = requests w ++ before ->
  timers w2 = timers w -> replies w2 = replies w ->
  after_polls flipbookId n w2 w3 ->
  reports w
    (snd (match polling with
          | Returned (Some flipbookUrl) =>
              send 200 (flipbook_success flipbookUrl) w3
          | Returned None => flipbook_catch timed_out w3
          | Threw error => flipbook_catch error w3
          end))
    (before ++ repeat (status_endpoint flipbookId) n) (repeat 5000 n)
    (flipbook_reply polling).
Proof.
  intros Hrq Htm Hrp (Hrq3 & Htm3 & Hrp3 & _).
  apply (reports_after w w2 _ before _ _ _ Hrq Htm Hrp);
    destruct polling as [[flipbookUrl|]|error]; cbn [flipbook_reply];
    try (cbn; congruence);
    match goal with
    | |- context [flipbook_catch ?e w3] =>
        destruct (flipbook_catch_reports e w3) as (_ & (H1 & H2 & H3) & _);
        rewrite app_nil_r in H1, H2; congruence
    end.
Qed.

Section FromUrl.
Variable env : Env.
Variable w : World.
Variable flipbookId : JsValue.
Variables body previewUrl pdfResponse pdf : JsValue.
Variable bytes : list N.
Variables createResponse data : JsValue.

Let download := Axios GET (Value.toString previewUrl).

Hypothesis has_url : Value.get body (js "previewUrl") = inr previewUrl.
Hypothesis url_truthy : Value.truthy previewUrl = true.
Hypothesis downloaded :
  upstream env download (calls_to download w) = Resolved pdfResponse.
Hypothesis has_pdf : Value.get pdfResponse (js "data") = inr pdf.
Hypothesis is_buffer : Buffer_from pdf = inr bytes.
Hypothesis created :
  upstream env create_endpoint (calls_to create_endpoint w)
  = Resolved createResponse.
Hypothesis has_data : Value.get createResponse (js "data") = inr data.
Hypothesis data_truthy : Value.truthy data = true.
Hypothesis has_id : Value.prop data (js "id") = flipbookId.
Hypothesis id_truthy : Value.truthy flipbookId = true.

(** The world in which the polling of [create-flipbook-from-url]
    starts: the document has been downloaded and written to the temporary
    file, and the job created. *)
Let start : World :=
  set_console
    (fun l => l ++ [[LogVal (VStr (js "FlippingBook API Response:"));
                     LogVal data]])
    (set_requests (fun r => r ++ [create_endpoint])
       (set_console
          (fun l => l ++ [[LogVal (VStr (js "Sending request to FlippingBook API..."))]])
          (set_console
             (fun l => l ++ [[LogVal (VStr (js "Temporary PDF saved to: "
                                            ++ temp_path env (clock w)))]])
             (set_files (<[temp_path env (clock w) := clock w]>)
                (set_requests (fun r => r ++ [download])
                   (set_console
                      (fun l => l ++ [[LogVal (VStr
                                         (js "Attempting to download PDF from: "
                                          ++ Value.toString previewUrl))]])
                      w)))))).

Lemma from_url_start_answers (k : nat) :
  download <> status_endpoint flipbookId ->
  poll_answer env start flipbookId k = poll_answer env w flipbookId k.
Proof.
  intros Hne. unfold poll_answer, start.
  change (calls_to ?e (set_console _ ?x)) with (calls_to e x).
  rewrite calls_to_other by apply status_is_not_create.
  change (calls_to ?e (set_console _ ?x)) with (calls_to e x).
  change (calls_to ?e (set_console _ ?x)) with (calls_to e x).
  change (calls_to ?e (set_files _ ?x)) with (calls_to e x).
  rewrite calls_to_other by assumption.
  reflexivity.
Qed.

(** The handler up to its polling loop, and what it does with what the
    polling comes to. *)
Lemma from_url_run :
  api_create_flipbook_from_url env body w =
  let (polling, w3) := from_url_poll env flipbookId (seq 0 10) start in
  (Threw (ReferenceError (js "tempFilePath is not defined")),
   snd (match polling with
        | Returned (Some flipbookUrl) =>
            send 200 (flipbook_success flipbookUrl) w3
        | Returned None => flipbook_catch timed_out w3
        | Threw error => flipbook_catch error w3
        end)).
Proof.
  unfold api_create_flipbook_from_url.
  rewrite bind_run, has_url. cbn [lift ret]. rewrite url_truthy. cbn [negb].
  unfold try_finally, try_catch.
  rewrite bind_run. cbn [console_log].
  rewrite bind_run, call_run. fold download.
  change (calls_to download (set_console _ w)) with (calls_to download w).
  rewrite downloaded.
  rewrite bind_run, has_pdf. cbn [lift ret].
  rewrite bind_run, is_buffer. cbn [lift ret].
  rewrite bind_run. cbn [Date_now].
  rewrite bind_run. cbn [writeFile].
  rewrite bind_run. cbn [console_log].
  rewrite bind_run. cbn [formData_append ret].
  rewrite bind_run. cbn [console_log].
  rewrite bind_run, call_run.
  change (calls_to create_endpoint (set_console _ ?x))
    with (calls_to create_endpoint x).
  change (calls_to create_endpoint (set_console _ ?x))
    with (calls_to create_endpoint x).
  change (calls_to create_endpoint (set_files _ ?x))
    with (calls_to create_endpoint x).
  rewrite calls_to_other by apply get_is_not_create.
  change (calls_to create_endpoint (set_console _ w))
    with (calls_to create_endpoint w).
  rewrite created.
  rewrite bind_run, has_data. cbn [lift ret].
  rewrite bind_run. cbn [console_log].
  rewrite data_truthy, has_id, id_truthy. cbn [andb].
  rewrite bind_run.
  change (clock (set_requests _ (set_console _ w))) with (clock w).
  fold start.
  destruct (from_url_poll env flipbookId (seq 0 10) start)
    as [[[flipbookUrl|]|error] w3]; cbn [throw].
  - reflexivity.
  - unfold timed_out.
    destruct (flipbook_catch_reports
                (Error (js "Flipbook processing timed out")) w3) as (Hr & _).
    destruct (flipbook_catch _ w3) as [r w4].
    cbn [fst] in Hr. subst r. reflexivity.
  - destruct (flipbook_catch_reports error w3) as (Hr & _).
    destruct (flipbook_catch error w3) as [r w4].
    cbn [fst] in Hr. subst r. reflexivity.
Qed.

Lemma from_url_reports (n : nat) (polling : Completion (option jsstring))
  (w3 : World) :
  from_url_poll env flipbookId (seq 0 10) start = (polling, w3) ->
  after_polls flipbookId n start w3 ->
  reports w (snd (api_create_flipbook_from_url env body w))
          (download :: create_endpoint
             :: repeat (status_endpoint flipbookId) n)
          (repeat 5000 n) (flipbook_reply polling).
Proof.
  intros Hpoll Hafter. rewrite from_url_run, Hpoll. cbn [snd].
  assert (Hstart : requests start = requests w ++ [download; create_endpoint]).
  { unfold start. cbn. now rewrite <- app_assoc. }
  exact (settle_reports env flipbookId n w start w3
           [download; create_endpoint] polling Hstart eq_refl eq_refl
           Hafter).
Qed.

End FromUrl.




(** The loop of [create-flipbook-from-url] reads the state of the
    publication for its log before it tests whether there is a
    publication.  A status answer that holds none, after [k] answers that
    were not ready, therefore ends the run: the handler replies 500 with
    the [TypeError] of that read as the failure, after [k + 1] polls, and
    neither polls on nor reports a timeout. *)
Theorem flipbook_from_url_reads_state_unguarded (env : Env) (w : World)
  (flipbookId body previewUrl : JsValue) (k : nat)
  (statusResponse data : JsValue) :
  accepted env w flipbookId ->
  Value.get body (js "previewUrl") = inr previewUrl ->
  downloads env w previewUrl flipbookId ->
  (k < 10)%nat ->
  (forall j, (j < k)%nat -> unready (poll_answer env w flipbookId j)) ->
  poll_answer env w flipbookId k = Resolved statusResponse ->
  Value.get statusResponse (js "data") = inr data ->
  Value.get data (js "publication") = inr VUndefined ->
  reports w (snd (api_create_flipbook_from_url env body w))
    ([Axios GET (Value.toString previewUrl); create_endpoint]
     ++ repeat (status_endpoint flipbookId) (S k))
    (repeat 5000 (S k))
    (mkReply 500
       (flipbook_failure
          (TypeError
             (js "Cannot read properties of undefined (reading 'state')")))).
Proof.
  intros (createResponse & created & Hcreated & Hcdata & Htruthy & Hid & Hidt)
         Hurl (Hut & Hne & pdfResponse & pdf & bytes & Hdl & Hpdf & Hbuf)
         Hk Hbefore Hans Hdata Hpub.
  pose proof (from_url_reports env w flipbookId body previewUrl pdfResponse
                pdf bytes createResponse created Hurl Hut Hdl Hpdf Hbuf
                Hcreated Hcdata Htruthy Hid Hidt) as Hreports.
  pose proof (fun j => from_url_start_answers env w flipbookId previewUrl
                         created j Hne) as Hanswers.
  cbv zeta in Hreports, Hanswers.
  edestruct (from_url_poll_unguarded env flipbookId k 10 0)
    as (w3 & Hrun & Hafter);
    [exact Hk| | | | | |exact (Hreports (S k) _ _ Hrun Hafter)].
  - intros j Hj. rewrite Hanswers. now apply Hbefore.
  - rewrite Hanswers. exact Hans.
  - exact Hdata.
  - exact Hpub.
  - reflexivity.
Qed.

(** A first status answer without a publication ends the run at once. *)
Lemma flipbook_from_url_stops_without_publication :
  reports (boot 1000)
    (snd (api_create_flipbook_from_url without_publication a_preview_request
                                       (boot 1000)))
    [Axios GET (js "http://localhost:4000/api/pdf-preview/preview-0");
     create_endpoint; status_endpoint job_17]
    [5000]
    (mkReply 500
       (flipbook_failure
          (TypeError
             (js "Cannot read properties of undefined (reading 'state')")))).
Proof.
  refine (flipbook_from_url_reads_state_unguarded without_publication
            (boot 1000) job_17 a_preview_request
            (VStr (js "http://localhost:4000/api/pdf-preview/preview-0"))
            0 (http_ok (VObj [])) (VObj []) _ _ _ _ _ _ _ _).
  - exists (http_ok (VObj [(js "id", job_17)])), (VObj [(js "id", job_17)]).
    repeat split; vm_compute; reflexivity.
  - reflexivity.
  - split; [reflexivity|]. split; [vm_compute; discriminate|].
    exists (http_ok (VBuf [37; 80; 68; 70]%N)), (VBuf [37; 80; 68; 70]%N),
           [37; 80; 68; 70]%N.
    repeat split; vm_compute; reflexivity.
  - lia.
  - intros j Hj. lia.
  - reflexivity.
  - reflexivity.
  - reflexivity.
Defined.

(** *** [POST /api/create-flipbook-from-pdf] *)

(** The upload handler never gets to the flipbook service.  With the
    upload where multer stored it, appending it to the form throws; the
    handler calls nobody and waits for nothing, replies 500 with the
    message of that [TypeError] as the details, deletes the upload and
    returns, whatever the service would have answered.  Without an upload
    it replies 400. *)
Theorem create_flipbook_from_pdf_never_calls (env : Env) (file : Upload)
  (w : World) :
  let refused := TypeError (js "source.on is not a function") in
  (is_Some (files w !! path file) ->
   let result := api_create_flipbook_from_pdf env (Some file) w in
   fst result = Returned tt
   /\ requests (snd result) = requests w
   /\ timers (snd result) = timers w
   /\ replies (snd result)
      = replies w ++ [mkReply 500 (flipbook_failure refused)]
   /\ files (snd result) = delete (path file) (files w))
  /\ api_create_flipbook_from_pdf env None w
     = (Returned tt,
        set_replies
          (fun l => l ++ [mkReply 400 (json_error "No PDF file uploaded")]) w)
  /\ flipbook_failure refused
     = BJson (VObj
         [(js "error",
           VStr (js "An error occurred while creating the flipbook"));
          (js "details", VStr (js "source.on is not a function"));
          (js "responseData", VNull)]).
Proof.
  cbv zeta. split; [|split; reflexivity].
  intros [mtime Hfile].
  assert (Hrun :
    api_create_flipbook_from_pdf env (Some file) w
    = (Returned tt,
       set_files (delete (path file))
         (set_replies
            (fun l =>
               l ++ [mkReply 500
                       (flipbook_failure
                          (TypeError (js "source.on is not a function")))])
            (set_console
               (fun l =>
                  l ++ [[LogVal (VStr (js "Error creating flipbook:"));
                         LogVal (VStr (js "source.on is not a function"))]])
               w)))).
  { unfold api_create_flipbook_from_pdf, try_finally, try_catch.
    rewrite bind_run. unfold readFileSync. rewrite Hfile.
    rewrite bind_run. cbn [formData_append throw].
    unfold flipbook_catch. rewrite !bind_run.
    cbn [console_error console_log error_response error_message TypeError
         Value.truthy ret send].
    rewrite bind_run. cbn [ret send].
    unfold unlinkSync. cbn [files set_replies set_console]. rewrite Hfile.
    reflexivity. }
  rewrite Hrun. cbn. auto.
Qed.

(** An upload that is there is answered with the failure of the form. *)
Lemma create_flipbook_from_pdf_fails_on_the_form :
  let result :=
    api_create_flipbook_from_pdf ready_at_third (Some an_upload)
                                 upload_stored in
  fst result = Returned tt
  /\ requests (snd result) = []
  /\ timers (snd result) = []
  /\ replies (snd result)
     = [mkReply 500
          (flipbook_failure (TypeError (js "source.on is not a function")))]
  /\ files (snd result) = delete (js "uploads/9c1d") (files upload_stored).
Proof.
  refine (proj1 (create_flipbook_from_pdf_never_calls ready_at_third an_upload
                   upload_stored) _).
  exists 900. vm_compute. reflexivity.
Defined.

(** ** Preview store *)

Lemma str_eqb_eq (s t : jsstring) : JS.str_eqb s t = true <-> s = t.
Proof. unfold JS.str_eqb. apply bool_decide_eq_true. Qed.

Lemma str_eqb_refl (s : jsstring) : JS.str_eqb s s = true.
Proof. now apply str_eqb_eq. Qed.

Lemma str_eqb_neq (s t : jsstring) : JS.str_eqb s t = false <-> s <> t.
Proof. unfold JS.str_eqb. apply bool_decide_eq_false. Qed.

(** *** The map *)

Lemma map_get_set (k v : jsstring) (m : list (jsstring * jsstring)) :
  JsMap.get k (JsMap.set k v m) = Some v.
Proof.
  induction m as [|[k' v'] m IH]; simpl.
  - now rewrite str_eqb_refl.
  - destruct (JS.str_eqb k k') eqn:E; simpl.
    + now rewrite str_eqb_refl.
    + now rewrite E.
Qed.

Lemma map_get_In (k v : jsstring) (m : list (jsstring * jsstring)) :
  NoDup (map fst m) -> (JsMap.get k m = Some v <-> In (k, v) m).
Proof.
  induction m as [|[k' v'] m IH]; simpl; intros Hnd.
  - split; [discriminate|tauto].
  - inversion Hnd as [|? ? Hnotin Hnd']; subst.
    rewrite list_elem_of_In in Hnotin.
    destruct (JS.str_eqb k k') eqn:E.
    + apply str_eqb_eq in E. subst k'. split.
      * intros [= ->]. now left.
      * intros [[= ->]|Hin]; [reflexivity|].
        exfalso. apply Hnotin. apply in_map_iff. now exists (k, v).
    + apply str_eqb_neq in E. rewrite (IH Hnd'). split; [tauto|].
      intros [[= -> ->]|Hin]; [congruence|assumption].
Qed.

Lemma map_get_None (k : jsstring) (m : list (jsstring * jsstring)) :
  JsMap.get k m = None <-> ~ In k (map fst m).
Proof.
  induction m as [|[k' v'] m IH]; simpl.
  - tauto.
  - destruct (JS.str_eqb k k') eqn:E.
    + apply str_eqb_eq in E. subst. split; [discriminate|tauto].
    + apply str_eqb_neq in E. rewrite IH. split; [|tauto].
      intros H [->|Hin]; [congruence|tauto].
Qed.

Lemma map_delete_In (k : jsstring) (m : list (jsstring * jsstring))
  (k' v' : jsstring) :
  In (k', v') (JsMap.delete k m) <-> In (k', v') m /\ k' <> k.
Proof.
  unfold JsMap.delete. rewrite filter_In. simpl.
  rewrite negb_true_iff, str_eqb_neq. intuition congruence.
Qed.

(** *** One pass of the sweep *)

Lemma forEach_app {A} (xs ys : list A) (body : A -> M unit) (w : World) :
  forEach (xs ++ ys) body w =
  match forEach xs body w with
  | (Returned _, w1) => forEach ys body w1
  | (Threw e, w1) => (Threw e, w1)
  end.
Proof.
  revert w. induction xs as [|x xs IH]; intros w; simpl.
  - reflexivity.
  - rewrite !bind_run. destruct (body x w) as [[[]|e] w1]; [apply IH|reflexivity].
Qed.

(** What visiting one entry does. *)
Lemma sweep_entry_eq (now : Z) (id path : jsstring) (w : World) :
  sweep_entry now (id, path) w =
  match files w !! path with
  | None => (Threw (ENOENT (js "stat") path), w)
  | Some mtimeMs =>
      if (now - mtimeMs >? 3600000)
      then (Returned tt,
            set_pdfPreviews (JsMap.delete id) (set_files (delete path) w))
      else (Returned tt, w)
  end.
Proof.
  unfold sweep_entry. rewrite bind_run. unfold statSync_mtimeMs.
  destruct (files w !! path) as [mtimeMs|] eqn:Hfile; [|reflexivity].
  destruct (_ >? _); [|reflexivity].
  rewrite bind_run. unfold unlinkSync. rewrite Hfile. reflexivity.
Qed.

Lemma filter_filter {A} (f g : A -> bool) (l : list A) :
  List.filter f (List.filter g l) = List.filter (fun x => g x && f x) l.
Proof.
  induction l as [|x l IH]; simpl; [reflexivity|].
  destruct (g x); simpl; [destruct (f x)|]; now rewrite IH.
Qed.

(** The entries of [todo] whose files exist are visited one after the
    other without failure.  Afterwards a file is there exactly if it was
    there before and no entry of [todo] names it with an age above one
    hour; and an entry is registered exactly if it was before and [todo]
    holds no entry for its identifier with such a file. *)
Lemma sweep_visits (now : Z) (todo : list (jsstring * jsstring)) (w : World) :
  NoDup (map snd todo) ->
  (forall id path, In (id, path) todo -> is_Some (files w !! path)) ->
  exists w',
    forEach todo (sweep_entry now) w = (Returned tt, w')
    /\ (forall path mtime,
          files w' !! path = Some mtime <->
          files w !! path = Some mtime
          /\ ~ (exists id, In (id, path) todo /\ now - mtime > 3600000))
    /\ (forall id path,
          In (id, path) (pdfPreviews w') <->
          In (id, path) (pdfPreviews w)
          /\ ~ (exists path' mtime,
                  In (id, path') todo /\ files w !! path' = Some mtime
                  /\ now - mtime > 3600000))
    /\ exists keep, pdfPreviews w' = List.filter keep (pdfPreviews w).
Proof.
  revert w. induction todo as [|[id0 path0] todo IH]; intros w Hnd Hfiles.
  - exists w. split; [reflexivity|]. split; [|split].
    + intros path mtime. split; [intros H; split; [exact H|]|tauto].
      intros (id & [] & _).
    + intros id path. split; [intros H; split; [exact H|]|tauto].
      intros (p & m & [] & _).
    + exists (fun _ => true). induction (pdfPreviews w) as [|x l IHl];
        simpl; [reflexivity|now rewrite <- IHl].
  - cbn [map] in Hnd. inversion Hnd as [|? ? Hfresh Hnd']; subst.
    rewrite list_elem_of_In in Hfresh.
    destruct (Hfiles id0 path0) as [mtime0 Hfile0]; [now left|].
    cbn [forEach]. rewrite bind_run, sweep_entry_eq, Hfile0.
    destruct (Z.gtb_spec (now - mtime0) 3600000) as [Hold|Hyoung].
    + set (w1 := set_pdfPreviews (JsMap.delete id0)
                   (set_files (delete path0) w)).
      assert (Hrest : forall id path, In (id, path) todo ->
                        files w1 !! path = files w !! path).
      { intros id path Hin. cbn. apply lookup_delete_ne.
        intros ->. apply Hfresh. apply in_map_iff. now exists (id, path). }
      destruct (IH w1 Hnd') as (w' & Hrun & Hf & Hp & keep & Hkeep).
      { intros id path Hin. rewrite (Hrest id path Hin).
        apply (Hfiles id path). now right. }
      exists w'. split; [exact Hrun|]. split; [|split].
      * intros path mtime. rewrite Hf. cbn [w1 files set_pdfPreviews set_files].
        rewrite lookup_delete_Some. split.
        -- intros [[Hne Hfile] Hnone]. split; [exact Hfile|].
           intros (id & [[= <- <-]|Hin] & Hage); [congruence|].
           apply Hnone. now exists id.
        -- intros [Hfile Hnone]. split; [split; [|exact Hfile]|].
           ++ intros <-. apply Hnone. exists id0. split; [now left|].
              rewrite Hfile0 in Hfile. injection Hfile as <-. lia.
           ++ intros (id & Hin & Hage). apply Hnone. exists id.
              split; [now right|exact Hage].
      * intros id path. rewrite Hp. cbn [w1 pdfPreviews set_pdfPreviews set_files].
        rewrite map_delete_In. split.
        -- intros [[Hin Hne] Hnone]. split; [exact Hin|].
           intros (p & m & [[= -> <-]|Hin'] & Hfile & Hage); [congruence|].
           apply Hnone. exists p, m. split; [exact Hin'|].
           split; [|exact Hage]. now rewrite (Hrest id p Hin').
        -- intros [Hin Hnone]. split; [split; [exact Hin|]|].
           ++ intros ->. apply Hnone. exists path0, mtime0.
              split; [now left|]. split; [assumption|lia].
           ++ intros (p & m & Hin' & Hfile & Hage). apply Hnone.
              exists p, m. split; [now right|]. split; [|exact Hage].
              now rewrite <- (Hrest id p Hin').
      * eexists. rewrite Hkeep.
        cbn [w1 pdfPreviews set_pdfPreviews set_files].
        unfold JsMap.delete. apply filter_filter.
    + destruct (IH w Hnd') as (w' & Hrun & Hf & Hp & Hkeep).
      { intros id path Hin. apply (Hfiles id path). now right. }
      exists w'. split; [exact Hrun|]. split; [|split; [|exact Hkeep]].
      * intros path mtime. rewrite Hf. split.
        -- intros [Hfile Hnone]. split; [exact Hfile|].
           intros (id & [[= <- <-]|Hin] & Hage).
           ++ rewrite Hfile0 in Hfile. injection Hfile as <-. lia.
           ++ apply Hnone. now exists id.
        -- intros [Hfile Hnone]. split; [exact Hfile|].
           intros (id & Hin & Hage). apply Hnone. exists id.
           split; [now right|exact Hage].
      * intros id path. rewrite Hp. split.
        -- intros [Hin Hnone]. split; [exact Hin|].
           intros (p & m & [[= -> <-]|Hin'] & Hfile & Hage).
           ++ rewrite Hfile0 in Hfile. injection Hfile as <-. lia.
           ++ apply Hnone. exists p, m. auto.
        -- intros [Hin Hnone]. split; [exact Hin|].
           intros (p & m & Hin' & Hfile & Hage). apply Hnone.
           exists p, m. split; [now right|auto].
Qed.

Lemma cleanupPreviews_eq (w : World) :
  cleanupPreviews w = forEach (pdfPreviews w) (sweep_entry (clock w)) w.
Proof. reflexivity. Qed.

Lemma NoDup_map_filter {A B} (g : A -> B) (f : A -> bool) (l : list A) :
  NoDup (map g l) -> NoDup (map g (List.filter f l)).
Proof.
  induction l as [|x l IH]; simpl; intros H; [constructor|].
  inversion H as [|? ? Hfresh Hnd]; subst.
  destruct (f x); simpl; [|now apply IH].
  constructor; [|now apply IH].
  rewrite list_elem_of_In in *. intros Hin. apply Hfresh.
  apply in_map_iff in Hin as (y & Hy & Hin).
  apply filter_In in Hin as [Hin _].
  apply in_map_iff. now exists y.
Qed.

Lemma NoDup_snd_same {A B} (l : list (A * B)) (a b : A) (p : B) :
  NoDup (map snd l) -> In (a, p) l -> In (b, p) l -> a = b.
Proof.
  induction l as [|[x q] l IH]; simpl; intros Hnd; [tauto|].
  inversion Hnd as [|? ? Hfresh Hnd']; subst.
  rewrite list_elem_of_In in Hfresh.
  intros [[= -> ->]|Ha] [[= ->]|Hb]; try reflexivity.
  - exfalso. apply Hfresh. apply in_map_iff. now exists (b, p).
  - exfalso. apply Hfresh. apply in_map_iff. now exists (a, p).
  - now apply IH.
Qed.

Lemma NoDup_fst_same {A B} (l : list (A * B)) (a : A) (p q : B) :
  NoDup (map fst l) -> In (a, p) l -> In (a, q) l -> p = q.
Proof.
  induction l as [|[x r] l IH]; simpl; intros Hnd; [tauto|].
  inversion Hnd as [|? ? Hfresh Hnd']; subst.
  rewrite list_elem_of_In in Hfresh.
  intros [[= -> ->]|Ha] [[= ->]|Hb]; try reflexivity.
  - exfalso. apply Hfresh. apply in_map_iff. now exists (a, q).
  - exfalso. apply Hfresh. apply in_map_iff. now exists (a, p).
  - now apply IH.
Qed.

(** A [get] answers 200 with the registered path, and 404 where no path
    (or the empty path) is registered; it never throws. *)
Lemma api_pdf_preview_run (previewId : jsstring) (w : World) :
  api_pdf_preview previewId w =
  (Returned tt,
   set_replies
     (fun l => l ++ [match JsMap.get previewId (pdfPreviews w) with
                     | Some (c :: p) => mkReply 200 (BFile (c :: p))
                     | _ => not_found
                     end]) w).
Proof.
  unfold api_pdf_preview. rewrite bind_run. cbn [get_pdfPreviews].
  destruct (JsMap.get previewId (pdfPreviews w)) as [[|c p]|]; reflexivity.
Qed.

Section Sweep.
Variable w : World.
Hypothesis agree : consistent w.

Let swept := snd (cleanupPreviews w).

Lemma cleanupPreviews_visits :
  fst (cleanupPreviews w) = Returned tt
  /\ (forall path mtime,
        files swept !! path = Some mtime <->
        files w !! path = Some mtime
        /\ ~ (exists id, In (id, path) (pdfPreviews w)
                         /\ clock w - mtime > 3600000))
  /\ (forall id path,
        In (id, path) (pdfPreviews swept) <->
        In (id, path) (pdfPreviews w)
        /\ ~ (exists path' mtime,
                In (id, path') (pdfPreviews w)
                /\ files w !! path' = Some mtime
                /\ clock w - mtime > 3600000))
  /\ exists keep, pdfPreviews swept = List.filter keep (pdfPreviews w).
Proof.
  destruct agree as (_ & Hpaths & Hfiles).
  destruct (sweep_visits (clock w) (pdfPreviews w) w Hpaths)
    as (w' & Hrun & H).
  { intros id path Hin. now apply (Hfiles id path). }
  unfold swept. rewrite cleanupPreviews_eq, Hrun. split; [reflexivity|exact H].
Qed.

(** A sweep of a consistent store leaves a consistent store. *)
Lemma cleanupPreviews_consistent : consistent swept.
Proof.
  destruct cleanupPreviews_visits as (_ & Hf & Hp & keep & Hkeep).
  destruct agree as (Hids & Hpaths & Hfiles).
  split; [|split].
  - rewrite Hkeep. now apply NoDup_map_filter.
  - rewrite Hkeep. now apply NoDup_map_filter.
  - intros id path Hin. apply Hp in Hin as [Hin Hnone].
    destruct (Hfiles id path Hin) as [Hne [mtime Hfile]].
    split; [exact Hne|]. exists mtime. apply Hf. split; [exact Hfile|].
    intros (id' & Hin' & Hage). apply Hnone. exists path, mtime.
    rewrite (NoDup_snd_same _ id id' path Hpaths Hin Hin'). auto.
Qed.

Variables id path : jsstring.
Variable mtime : Z.
Hypothesis registered : JsMap.get id (pdfPreviews w) = Some path.
Hypothesis stored : files w !! path = Some mtime.

Lemma registered_In : In (id, path) (pdfPreviews w).
Proof. destruct agree as (Hids & _). now apply map_get_In. Qed.

(** An entry whose file is at most one hour old survives the sweep. *)
Lemma cleanupPreviews_keeps_young :
  clock w - mtime <= 3600000 ->
  files swept !! path = Some mtime
  /\ JsMap.get id (pdfPreviews swept) = Some path.
Proof.
  intros Hyoung.
  destruct cleanupPreviews_visits as (_ & Hf & Hp & _).
  destruct cleanupPreviews_consistent as (Hids' & _).
  destruct agree as (Hids & _).
  pose proof registered_In as Hin.
  split.
  - apply Hf. split; [exact stored|]. intros (id' & _ & Hage). lia.
  - apply map_get_In; [exact Hids'|]. apply Hp. split; [exact Hin|].
    intros (p & m & Hin' & Hfile & Hage).
    rewrite (NoDup_fst_same _ id p path Hids Hin' Hin) in Hfile.
    rewrite stored in Hfile. injection Hfile as <-. lia.
Qed.

(** An entry whose file is more than one hour old is swept, file and
    registration. *)
Lemma cleanupPreviews_removes_old :
  clock w - mtime > 3600000 ->
  files swept !! path = None
  /\ JsMap.get id (pdfPreviews swept) = None.
Proof.
  intros Hold.
  destruct cleanupPreviews_visits as (_ & Hf & Hp & _).
  pose proof registered_In as Hin.
  split.
  - destruct (files swept !! path) as [m|] eqn:Hfile; [|reflexivity].
    exfalso. apply Hf in Hfile as [Hfile Hnone].
    rewrite stored in Hfile. injection Hfile as <-.
    apply Hnone. now exists id.
  - apply map_get_None. intros Hk.
    apply in_map_iff in Hk as ([i p] & [= ->] & Hin').
    apply Hp in Hin' as [_ Hnone]. apply Hnone.
    exists path, mtime. auto.
Qed.

End Sweep.

(** *** Registering a preview *)

Lemma map_set_fresh (k v : jsstring) (m : list (jsstring * jsstring)) :
  JsMap.get k m = None -> JsMap.set k v m = m ++ [(k, v)].
Proof.
  induction m as [|[k' v'] m IH]; simpl; [reflexivity|].
  destruct (JS.str_eqb k k'); [discriminate|].
  intros H. now rewrite IH.
Qed.

(** Writing the file of a new preview and registering it keeps the store
    consistent, as long as the identifier and the path are new. *)
Lemma register_consistent (w : World) (id path : jsstring) :
  consistent w -> path <> [] ->
  JsMap.get id (pdfPreviews w) = None ->
  ~ In path (map snd (pdfPreviews w)) ->
  consistent (snd ((writeFile path ;; put id path) w)).
Proof.
  intros (Hids & Hpaths & Hfiles) Hne Hid Hpath.
  rewrite bind_run. cbn [writeFile put update_pdfPreviews snd].
  unfold consistent.
  cbn [pdfPreviews files set_pdfPreviews set_files].
  rewrite (map_set_fresh _ _ _ Hid), !map_app. cbn [map fst snd].
  split; [|split].
  - apply NoDup_app. split; [exact Hids|]. split; [|apply NoDup_singleton].
    intros k Hk Hk'. apply list_elem_of_In in Hk.
    apply list_elem_of_singleton in Hk'. subst k.
    now apply map_get_None in Hid.
  - apply NoDup_app. split; [exact Hpaths|]. split; [|apply NoDup_singleton].
    intros p Hp Hp'. apply list_elem_of_In in Hp.
    apply list_elem_of_singleton in Hp'. now subst p.
  - intros i p Hin. apply in_app_or in Hin as [Hin|[[= <- <-]|[]]].
    + destruct (Hfiles i p Hin) as [Hnonempty [m Hm]].
      split; [exact Hnonempty|].
      destruct (decide (path = p)) as [->|Hdiff].
      * rewrite lookup_insert_eq. now eexists.
      * rewrite lookup_insert_ne by assumption. now exists m.
    + split; [exact Hne|]. rewrite lookup_insert_eq. now eexists.
Qed.

(** The store is consistent when the server starts. *)
Lemma boot_consistent (now : Z) : consistent (boot now).
Proof.
  unfold consistent, boot. cbn [pdfPreviews files map].
  split; [apply NoDup_nil; exact I|split; [apply NoDup_nil; exact I|]].
  intros id path [].
Qed.

(** C4.  A [get] never throws.  After [put(id, path)], with [path] not the
    empty string (the handler registers paths that end in [.pdf]), a
    [get(id)] answers with the path.  In a consistent store (the store is
    so at the start, and registering and sweeping keep it so), a sweep
    ends without failure and leaves the store consistent; if the file
    registered under [id] is at most one hour old when the sweep runs,
    file and registration are still there and [get(id)] answers with the
    path; if it is more than one hour old, the file is gone and [get(id)]
    answers 404. *)
Theorem preview_store_retention (w : World) (id path : jsstring) (mtime : Z) :
  (forall previewId w0, fst (api_pdf_preview previewId w0) = Returned tt)
  /\ (path <> [] ->
      replies (snd (api_pdf_preview id (snd (put id path w))))
      = replies w ++ [mkReply 200 (BFile path)])
  /\ (consistent w ->
      JsMap.get id (pdfPreviews w) = Some path ->
      files w !! path = Some mtime ->
      let swept := snd (cleanupPreviews w) in
      fst (cleanupPreviews w) = Returned tt
      /\ consistent swept
      /\ (clock w - mtime <= 3600000 ->
          files swept !! path = Some mtime
          /\ replies (snd (api_pdf_preview id swept))
             = replies swept ++ [mkReply 200 (BFile path)])
      /\ (clock w - mtime > 3600000 ->
          files swept !! path = None
          /\ replies (snd (api_pdf_preview id swept))
             = replies swept ++ [not_found])).
Proof.
  split; [|split].
  - intros previewId w0. now rewrite api_pdf_preview_run.
  - intros Hne. rewrite api_pdf_preview_run.
    cbn [put update_pdfPreviews snd pdfPreviews set_pdfPreviews replies
         set_replies].
    rewrite map_get_set. destruct path; [congruence|reflexivity].
  - intros Hagree Hreg Hfile. cbv zeta.
    split; [apply (cleanupPreviews_visits w Hagree)|].
    split; [apply (cleanupPreviews_consistent w Hagree)|].
    assert (Hne : path <> []).
    { destruct Hagree as (Hids & _ & Hfiles).
      apply (Hfiles id path). now apply map_get_In. }
    split.
    + intros Hyoung.
      destruct (cleanupPreviews_keeps_young w Hagree id path mtime Hreg
                  Hfile Hyoung) as [Hkept Hget].
      split; [exact Hkept|].
      rewrite api_pdf_preview_run. cbn [snd replies set_replies].
      rewrite Hget. destruct path; [congruence|reflexivity].
    + intros Hold.
      destruct (cleanupPreviews_removes_old w Hagree id path mtime Hreg
                  Hfile Hold) as [Hgone Hget].
      split; [exact Hgone|].
      rewrite api_pdf_preview_run. cbn [snd replies set_replies].
      now rewrite Hget.
Qed.

(** A preview written at time 0 is gone after the sweep at 3600001 ms. *)
Lemma preview_swept_after_an_hour :
  let swept := snd (cleanupPreviews (one_preview 3600001)) in
  files swept !! js "/srv/app/pdf-previews/preview-0.pdf" = None
  /\ replies (snd (api_pdf_preview (js "preview-0") swept))
     = replies swept ++ [not_found].
Proof.
  refine (proj2 (proj2 (proj2 (proj2 (proj2
           (preview_store_retention (one_preview 3600001) (js "preview-0")
              (js "/srv/app/pdf-previews/preview-0.pdf") 0)) _ _ _))) _).
  - split; [|split].
    + vm_compute. apply NoDup_singleton.
    + vm_compute. apply NoDup_singleton.
    + intros i p [[= <- <-]|[]]. split; [discriminate|].
      exists 0. vm_compute. reflexivity.
  - vm_compute. reflexivity.
  - vm_compute. reflexivity.
  - vm_compute. reflexivity.
Defined.

(** *** A sweep that meets a missing file *)

(** C9, as the code has it.  When the sweep comes to an entry whose file
    is missing, [fs.statSync] throws and nothing catches it: the sweep
    fails with that error.  The entries before have been visited (those
    with a file older than one hour are gone); the entry itself and all
    entries after it are left as they were, registered and with their
    files, however old. *)
Theorem cleanupPreviews_stops_at_missing_file (w : World)
  (before after : list (jsstring * jsstring)) (id path : jsstring) :
  NoDup (map fst (pdfPreviews w)) ->
  NoDup (map snd (pdfPreviews w)) ->
  pdfPreviews w = before ++ (id, path) :: after ->
  (forall i p, In (i, p) before -> is_Some (files w !! p)) ->
  files w !! path = None ->
  let stopped := snd (cleanupPreviews w) in
  fst (cleanupPreviews w) = Threw (ENOENT (js "stat") path)
  /\ (forall i p mtime,
        In (i, p) before -> files w !! p = Some mtime ->
        clock w - mtime > 3600000 ->
        files stopped !! p = None /\ JsMap.get i (pdfPreviews stopped) = None)
  /\ (forall i p,
        In (i, p) ((id, path) :: after) ->
        In (i, p) (pdfPreviews stopped)
        /\ files stopped !! p = files w !! p).
Proof.
  intros Hids Hpaths Hsplit Hbefore Hmissing. cbv zeta.
  rewrite cleanupPreviews_eq, Hsplit, forEach_app.
  rewrite Hsplit in Hids, Hpaths.
  rewrite map_app in Hids, Hpaths.
  apply NoDup_app in Hids as (_ & Hids & _).
  apply NoDup_app in Hpaths as (Hpb & Hpaths & _).
  destruct (sweep_visits (clock w) before w Hpb Hbefore)
    as (w1 & Hrun & Hf & Hp & _).
  rewrite Hrun.
  assert (Hmissing1 : files w1 !! path = None).
  { destruct (files w1 !! path) as [m|] eqn:E; [|reflexivity].
    apply Hf in E as [E _]. congruence. }
  cbn [forEach]. rewrite bind_run, sweep_entry_eq, Hmissing1. cbn [fst snd].
  split; [reflexivity|]. split.
  - intros i p mtime Hin Hfile Hold. split.
    + destruct (files w1 !! p) as [m|] eqn:E; [|reflexivity].
      exfalso. apply Hf in E as [E Hnone].
      rewrite Hfile in E. injection E as <-. apply Hnone. now exists i.
    + apply map_get_None. intros Hk.
      apply in_map_iff in Hk as ([i' p'] & [= ->] & Hin').
      apply Hp in Hin' as [_ Hnone]. apply Hnone. now exists p, mtime.
  - intros i p Hin.
    assert (Hi : ~ In i (map fst before)).
    { intros Hi. apply list_elem_of_In in Hi.
      apply (Hids i Hi). apply list_elem_of_In.
      apply in_map_iff. now exists (i, p). }
    assert (Hpp : ~ In p (map snd before)).
    { intros Hpp. apply list_elem_of_In in Hpp.
      apply (Hpaths p Hpp). apply list_elem_of_In.
      apply in_map_iff. now exists (i, p). }
    split.
    + apply Hp. split.
      * rewrite Hsplit. apply in_or_app. now right.
      * intros (p' & m & Hin' & _). apply Hi.
        apply in_map_iff. now exists (i, p').
    + destruct (files w !! p) as [m|] eqn:E.
      * apply Hf. split; [exact E|]. intros (i' & Hin' & _).
        apply Hpp. apply in_map_iff. now exists (i', p).
      * destruct (files w1 !! p) as [m|] eqn:E1; [|reflexivity].
        apply Hf in E1 as [E1 _]. congruence.
Qed.

(** With the file of the first of two previews missing, the sweep fails
    at the first entry and leaves the second as it was. *)
Lemma sweep_fails_on_first_missing_file :
  let stopped := snd (cleanupPreviews first_file_missing) in
  fst (cleanupPreviews first_file_missing)
  = Threw (ENOENT (js "stat") (js "/srv/app/pdf-previews/preview-0.pdf"))
  /\ In (js "preview-1", js "/srv/app/pdf-previews/preview-1.pdf")
        (pdfPreviews stopped).
Proof.
  pose proof (cleanupPreviews_stops_at_missing_file first_file_missing []
           [(js "preview-1", js "/srv/app/pdf-previews/preview-1.pdf")]
           (js "preview-0") (js "/srv/app/pdf-previews/preview-0.pdf"))
    as H.
  cbv zeta in *.
  destruct H as (Hthrown & _ & Hleft).
  - vm_compute. apply NoDup_cons. split; [|apply NoDup_singleton].
    intros Hin. apply list_elem_of_singleton in Hin. discriminate.
  - vm_compute. apply NoDup_cons. split; [|apply NoDup_singleton].
    intros Hin. apply list_elem_of_singleton in Hin. discriminate.
  - reflexivity.
  - intros i p [].
  - vm_compute. reflexivity.
  - split; [exact Hthrown|].
    apply (Hleft (js "preview-1") (js "/srv/app/pdf-previews/preview-1.pdf")).
    right. now left.
Defined.

(** C9, as the specification words it, fails: the missing-file error is
    not swallowed.  The sweep fails with it, and the second preview,
    whose file is two hours old, is neither unregistered nor deleted. *)
Lemma sweep_does_not_swallow_missing_file :
  let stopped := snd (cleanupPreviews first_file_missing) in
  fst (cleanupPreviews first_file_missing)
  = Threw (ENOENT (js "stat") (js "/srv/app/pdf-previews/preview-0.pdf"))
  /\ clock first_file_missing
     - 0 > 3600000
  /\ files stopped !! js "/srv/app/pdf-previews/preview-1.pdf" = Some 0
  /\ JsMap.get (js "preview-1") (pdfPreviews stopped)
     = Some (js "/srv/app/pdf-previews/preview-1.pdf").
Proof. vm_compute. repeat split; reflexivity. Qed.

(** ** Temporary files *)

(** A [finally] block that unlinks a path leaves no file at that path,
    however the guarded block completes. *)
Lemma try_finally_unlinks {A} (m : M A) (p : jsstring) (w : World) :
  files (snd (try_finally m (unlinkSync p) w)) !! p = None.
Proof.
  unfold try_finally. destruct (m w) as [r w1]. unfold unlinkSync.
  destruct (files w1 !! p) eqn:E; cbn [snd].
  - cbn. apply lookup_delete_eq.
  - exact E.
Qed.

(** The three handlers that take an upload delete it on every path. *)
Lemma upload_handlers_delete_the_upload (env : Env) (file : Upload)
  (fields : list (jsstring * JsValue)) (w : World) :
  files (snd (api_describe_image env (Some file) w)) !! path file = None
  /\ files (snd (api_generate_story_from_image env (Some file) (VObj fields) w))
       !! path file = None
  /\ files (snd (api_create_flipbook_from_pdf env (Some file) w))
       !! path file = None.
Proof.
  split; [|split].
  - apply try_finally_unlinks.
  - unfold api_generate_story_from_image.
    rewrite bind_run. cbn [Value.get lift ret].
    rewrite bind_run. cbn [Value.get lift ret].
    apply try_finally_unlinks.
  - apply try_finally_unlinks.
Qed.

Lemma from_url_poll_files (env : Env) (flipbookId : JsValue)
  (attempts : list nat) :
  preserves files (from_url_poll env flipbookId attempts).
Proof.
  induction attempts as [|a later IH]; cbn [from_url_poll]; frame.
Qed.

Lemma flipbook_catch_files (error : JsError) :
  preserves files (flipbook_catch error).
Proof. intros w. apply flipbook_catch_reports. Qed.

Section TempFile.
Variable env : Env.
Variable w : World.
Variables body previewUrl pdfResponse pdf : JsValue.
Variable bytes : list N.

Let download := Axios GET (Value.toString previewUrl).

Hypothesis has_url : Value.get body (js "previewUrl") = inr previewUrl.
Hypothesis url_truthy : Value.truthy previewUrl = true.
Hypothesis downloaded :
  upstream env download (calls_to download w) = Resolved pdfResponse.
Hypothesis has_pdf : Value.get pdfResponse (js "data") = inr pdf.
Hypothesis is_buffer : Buffer_from pdf = inr bytes.

(** C7 fails on [create-flipbook-from-url].  Once the preview has been
    downloaded and written to the temporary file, the handler ends with a
    [ReferenceError] thrown by its [finally] block, and the temporary file
    is still there, whatever the flipbook service answered. *)
Theorem create_flipbook_from_url_leaves_temp_file :
  let result := api_create_flipbook_from_url env body w in
  fst result = Threw (ReferenceError (js "tempFilePath is not defined"))
  /\ files (snd result) !! temp_path env (clock w) = Some (clock w).
Proof.
  cbv zeta. unfold api_create_flipbook_from_url.
  rewrite bind_run, has_url. cbn [lift ret]. rewrite url_truthy. cbn [negb].
  unfold try_finally, try_catch.
  rewrite bind_run. cbn [console_log].
  rewrite bind_run, call_run. fold download.
  change (calls_to download (set_console _ w)) with (calls_to download w).
  rewrite downloaded.
  rewrite bind_run, has_pdf. cbn [lift ret].
  rewrite bind_run, is_buffer. cbn [lift ret].
  rewrite bind_run. cbn [Date_now].
  rewrite bind_run. cbn [writeFile].
  match goal with
  | |- context [bind ?m ?k ?w1] =>
      assert (Hrest : preserves files (bind m k))
        by (frame; apply from_url_poll_files);
      specialize (Hrest w1);
      destruct (bind m k w1) as [[[]|error] w2]
  end; cbn [snd] in Hrest.
  - cbn [throw fst snd]. split; [reflexivity|].
    rewrite Hrest. cbn. apply lookup_insert_eq.
  - pose proof (flipbook_catch_files error w2) as Hcatch.
    destruct (flipbook_catch error w2) as [r w3]. cbn [snd] in Hcatch.
    cbn [throw fst snd]. split; [reflexivity|].
    rewrite Hcatch, Hrest. cbn. apply lookup_insert_eq.
Qed.

End TempFile.

(** Against a service that never gets the job ready, the temporary file
    written at time 1000 outlives the handler. *)
Lemma create_flipbook_from_url_leak :
  let result :=
    api_create_flipbook_from_url never_ready a_preview_request (boot 1000) in
  fst result = Threw (ReferenceError (js "tempFilePath is not defined"))
  /\ files (snd result) !! temp_path never_ready 1000 = Some 1000.
Proof.
  refine (create_flipbook_from_url_leaves_temp_file never_ready (boot 1000)
            a_preview_request
            (VStr (js "http://localhost:4000/api/pdf-preview/preview-0"))
            (http_ok (VBuf [37; 80; 68; 70]%N)) (VBuf [37; 80; 68; 70]%N)
            [37; 80; 68; 70]%N _ _ _ _ _);
    vm_compute; reflexivity.
Defined.

(** ** Document assembler *)

(** A failed download is what [downloadImageToBuffer] throws. *)
Lemma downloadImageToBuffer_rejected (env : Env) (url : JsValue) (w : World)
  (error : JsError) :
  upstream env (Axios GET (Value.toString url))
           (calls_to (Axios GET (Value.toString url)) w) = Rejected error ->
  fst (downloadImageToBuffer env url w) = Threw error
  /\ replies (snd (downloadImageToBuffer env url w)) = replies w
  /\ document (snd (downloadImageToBuffer env url w)) = document w.
Proof.
  intros H. unfold downloadImageToBuffer.
  split; [|split].
  - rewrite fst_log_rethrow, bind_run, call_run, H. reflexivity.
  - assert (Hp : preserves replies (downloadImageToBuffer env url))
      by (unfold downloadImageToBuffer; frame).
    apply Hp.
  - assert (Hp : preserves document (downloadImageToBuffer env url))
      by (unfold downloadImageToBuffer; frame).
    apply Hp.
Qed.

Section ApiPdf.
Variable env : Env.
Variable w : World.
Variable fields : list (jsstring * JsValue).
Variable storyData : JsValue.
Variable chapterKey : jsstring.
Variable later : list jsstring.

Let body := VObj fields.
Let imageUrls := Value.lookup_prop (js "imageUrls") fields.

Hypothesis has_story : Value.lookup_prop (js "storyData") fields = storyData.
Hypothesis story_truthy : Value.truthy storyData = true.
Hypothesis has_chapter :
  List.filter is_chapter_key (Value.keys storyData) = chapterKey :: later.

Ltac enter_api_pdf :=
  unfold api_pdf, body;
  cbn [Value.get]; rewrite has_story; fold imageUrls;
  rewrite !bind_run; cbn [lift ret]; rewrite story_truthy; cbn [negb];
  rewrite has_chapter; cbn [api_pdf_chapters]; run.

(** C10.  A request to [/api/pdf] whose [storyData] is present and has a
    chapter key, and which has no [imageUrls], is not answered with 400:
    the handler indexes the missing [imageUrls] for the first chapter,
    which throws a [TypeError] out of the handler, and no reply at all is
    sent. *)
Theorem api_pdf_without_imageUrls :
  imageUrls = VUndefined ->
  fst (api_pdf env body w)
  = Threw (TypeError (js "Cannot read properties of undefined (reading '0')"))
  /\ replies (snd (api_pdf env body w)) = replies w.
Proof.
  intros Hnone. enter_api_pdf. rewrite Hnone.
  cbn [Value.at_index Value.get lift throw].
  split; reflexivity.
Qed.

Variable imageUrl : JsValue.
Hypothesis has_image : Value.at_index imageUrls 0 = inr imageUrl.
Hypothesis image_truthy : Value.truthy imageUrl = true.

(** C8 fails on [/api/pdf].  When the image of the first chapter cannot
    be fetched, the error is thrown out of the handler: the document is
    never finished and no reply is sent, neither the document nor an
    error. *)
Theorem api_pdf_image_failure_aborts (error : JsError) :
  upstream env (Axios GET (Value.toString imageUrl))
           (calls_to (Axios GET (Value.toString imageUrl)) w)
  = Rejected error ->
  fst (api_pdf env body w) = Threw error
  /\ replies (snd (api_pdf env body w)) = replies w.
Proof.
  intros Hrej. enter_api_pdf. rewrite has_image. cbn [lift ret].
  rewrite image_truthy. rewrite !bind_run.
  match goal with
  | |- context [downloadImageToBuffer env imageUrl ?w1] =>
      destruct (downloadImageToBuffer_rejected env imageUrl w1 error)
        as (Hthrown & Hreplies & _); [exact Hrej|];
      destruct (downloadImageToBuffer env imageUrl w1) as [r w2]
  end.
  cbn [fst snd] in *. subst r. split; [reflexivity|exact Hreplies].
Qed.

End ApiPdf.

(** The one-chapter request without [imageUrls] runs into the
    [TypeError]. *)
Lemma api_pdf_without_imageUrls_example :
  fst (api_pdf images_gone a_pdf_request_without_images (boot 0))
  = Threw (TypeError (js "Cannot read properties of undefined (reading '0')"))
  /\ replies (snd (api_pdf images_gone a_pdf_request_without_images (boot 0)))
     = replies (boot 0).
Proof.
  refine (api_pdf_without_imageUrls images_gone (boot 0)
            [(js "storyData", one_chapter_story);
             (js "storyName", VStr (js "Dawn"))]
            one_chapter_story (js "chapter1") [] _ _ _ _);
    vm_compute; reflexivity.
Defined.

(** With the image server gone, the one-chapter request gets no reply. *)
Lemma api_pdf_image_failure_example :
  fst (api_pdf images_gone a_pdf_request (boot 0)) = Threw (http_error 404)
  /\ replies (snd (api_pdf images_gone a_pdf_request (boot 0)))
     = replies (boot 0).
Proof.
  refine (api_pdf_image_failure_aborts images_gone (boot 0)
            [(js "storyData", one_chapter_story);
             (js "imageUrls",
              VArr [VStr (js "https://images.example.com/1.png")]);
             (js "storyName", VStr (js "Dawn"))]
            one_chapter_story (js "chapter1") []
            _ _ _ (VStr (js "https://images.example.com/1.png")) _ _
            (http_error 404) _);
    vm_compute; reflexivity.
Defined.

(** *** The other two assemblers *)

Lemma downloadImageToBuffer_document (env : Env) (url : JsValue) :
  preserves document (downloadImageToBuffer env url).
Proof. unfold downloadImageToBuffer. frame. Qed.

(** In [/api/generate-pdf] the image of a chapter never ends the
    assembly: either the image is drawn, or the placeholder is. *)
Lemma generate_pdf_image_never_throws (env : Env) (imageUrl : JsValue)
  (w : World) :
  let result := generate_pdf_image env imageUrl w in
  fst result = Returned tt
  /\ ((exists imageBuffer dimensions,
         document (snd result)
         = document w ++ [OpImage imageBuffer (FitScaled 400 dimensions);
                          OpMoveDown 1])
      \/ document (snd result) = document w ++ placeholder).
Proof.
  cbv zeta. unfold generate_pdf_image, try_catch.
  rewrite bind_run.
  pose proof (downloadImageToBuffer_document env imageUrl w) as Hdoc.
  destruct (downloadImageToBuffer env imageUrl w) as [[imageBuffer|e] w1];
    cbn [snd] in Hdoc.
  - rewrite bind_run.
    destruct (length imageBuffer =? 0)%nat; cbn [ret throw].
    + run. cbn [doc fst snd document set_document set_console].
      split; [reflexivity|]. right. rewrite Hdoc.
      unfold placeholder. now rewrite <- !app_assoc.
    + rewrite bind_run. unfold image_size.
      destruct (sizeOf env imageBuffer) as [dimensions|]; cbn [ret throw].
      * rewrite bind_run. unfold doc_image.
        destruct (pdfkit_decodes env imageBuffer); cbn [doc throw].
        -- cbn [fst snd document set_document].
           split; [reflexivity|]. left. exists imageBuffer, dimensions.
           rewrite Hdoc. now rewrite <- !app_assoc.
        -- run. cbn [doc fst snd document set_document set_console].
           split; [reflexivity|]. right. rewrite Hdoc.
           unfold placeholder. now rewrite <- !app_assoc.
      * run. cbn [doc fst snd document set_document set_console].
        split; [reflexivity|]. right. rewrite Hdoc.
        unfold placeholder. now rewrite <- !app_assoc.
  - run. cbn [doc fst snd document set_document set_console].
    split; [reflexivity|]. right. rewrite Hdoc.
    unfold placeholder. now rewrite <- !app_assoc.
Qed.

(** In [/api/generate-pdf-preview] the image of a chapter never ends the
    assembly either, but a failure leaves no trace in the document: the
    [catch] only logs. *)
Lemma preview_image_fails_silently (env : Env) (imageUrl : JsValue)
  (w : World) :
  let result := preview_image env imageUrl w in
  fst result = Returned tt
  /\ ((exists imageBuffer dimensions,
         document (snd result)
         = document w ++ [OpImage imageBuffer (FitScaled 400 dimensions)])
      \/ document (snd result) = document w).
Proof.
  cbv zeta. unfold preview_image, try_catch.
  rewrite bind_run.
  pose proof (downloadImageToBuffer_document env imageUrl w) as Hdoc.
  destruct (downloadImageToBuffer env imageUrl w) as [[imageBuffer|e] w1];
    cbn [snd] in Hdoc.
  - destruct (0 <? length imageBuffer)%nat; cbn [ret].
    + rewrite bind_run. unfold image_size.
      destruct (sizeOf env imageBuffer) as [dimensions|]; cbn [ret throw].
      * unfold doc_image.
        destruct (pdfkit_decodes env imageBuffer); cbn [doc throw].
        -- cbn [fst snd document set_document].
           split; [reflexivity|]. left. exists imageBuffer, dimensions.
           now rewrite Hdoc.
        -- cbn [console_error console_log fst snd document set_console].
           split; [reflexivity|]. right. exact Hdoc.
      * cbn [console_error console_log fst snd document set_console].
        split; [reflexivity|]. right. exact Hdoc.
    + split; [reflexivity|]. right. exact Hdoc.
  - cbn [console_error console_log fst snd document set_console].
    split; [reflexivity|]. right. exact Hdoc.
Qed.

(* ===================================================================== *)
(** * Part VII.  Theorems about the rest of the service *)
(* ===================================================================== *)

(** ** Prompt validation *)

Lemma upper_upper_unit (c : N) : JS.upperUnit (JS.upperUnit c) = JS.upperUnit c.
Proof.
  unfold JS.upperUnit.
  destruct (N.leb_spec 97 c), (N.leb_spec c 122); cbn [andb];
    repeat match goal with
           | |- context [(?a <=? ?b)%N] => destruct (N.leb_spec a b)
           end; cbn [andb]; lia.
Qed.

Lemma upper_lower_unit (c : N) : JS.upperUnit (JS.lowerUnit c) = JS.upperUnit c.
Proof.
  unfold JS.lowerUnit.
  destruct (N.leb_spec 65 c), (N.leb_spec c 90); cbn [andb];
    unfold JS.upperUnit;
    repeat match goal with
           | |- context [(?a <=? ?b)%N] => destruct (N.leb_spec a b)
           end; cbn [andb]; lia.
Qed.

(** Reading a phrase looks at the text through [JS.upperUnit] only. *)
Lemma matches_here_map (f : N -> N) (phrase text : jsstring) :
  (forall c, JS.upperUnit (f c) = JS.upperUnit c) ->
  matches_here phrase (map f text) = matches_here phrase text.
Proof.
  intros Hf. revert text.
  induction phrase as [|a phrase IH]; intros [|b text]; simpl; try reflexivity.
  unfold same_ignoring_case. now rewrite Hf, IH.
Qed.

Lemma matches_somewhere_map (f : N -> N) (phrase text : jsstring) :
  (forall c, JS.upperUnit (f c) = JS.upperUnit c) ->
  matches_somewhere phrase (map f text) = matches_somewhere phrase text.
Proof.
  intros Hf. induction text as [|b text IH].
  - reflexivity.
  - cbn [matches_somewhere map].
    rewrite <- IH. f_equal. apply (matches_here_map f phrase (b :: text) Hf).
Qed.

Lemma matches_here_app (phrase text after : jsstring) :
  matches_here phrase text = true ->
  matches_here phrase (text ++ after) = true.
Proof.
  revert text.
  induction phrase as [|a phrase IH]; intros [|b text]; simpl;
    try reflexivity; try discriminate.
  intros H. apply andb_true_iff in H as [-> H]. now apply IH.
Qed.

Lemma matches_somewhere_nil (text : jsstring) : matches_somewhere [] text = true.
Proof. destruct text; reflexivity. Qed.

Lemma matches_somewhere_after (phrase text after : jsstring) :
  matches_somewhere phrase text = true ->
  matches_somewhere phrase (text ++ after) = true.
Proof.
  induction text as [|b text IH].
  - destruct phrase; [intros _; apply matches_somewhere_nil|discriminate].
  - cbn [matches_somewhere app]. intros H.
    apply orb_true_iff in H as [H|H]; apply orb_true_iff.
    + left. apply (matches_here_app phrase (b :: text) after H).
    + right. now apply IH.
Qed.

Lemma matches_somewhere_before (phrase before text : jsstring) :
  matches_somewhere phrase text = true ->
  matches_somewhere phrase (before ++ text) = true.
Proof.
  intros H. induction before as [|b before IH]; [exact H|].
  cbn [matches_somewhere app]. rewrite IH. apply orb_true_r.
Qed.

Lemma matches_here_short (phrase text : jsstring) :
  (length text < length phrase)%nat -> matches_here phrase text = false.
Proof.
  revert text.
  induction phrase as [|a phrase IH]; intros [|b text]; simpl; intros H;
    try lia; try reflexivity.
  rewrite IH by lia. apply andb_false_r.
Qed.

Lemma matches_somewhere_short (phrase text : jsstring) :
  (length text < length phrase)%nat -> matches_somewhere phrase text = false.
Proof.
  induction text as [|b text IH]; intros H.
  - destruct phrase; [simpl in H; lia|reflexivity].
  - cbn [matches_somewhere]. rewrite matches_here_short by assumption.
    apply IH. simpl in H. lia.
Qed.

Lemma validateStoryPrompt_text (prompt : jsstring) :
  validateStoryPrompt (VStr prompt)
  = matches_somewhere (js "tell me a story") prompt
    || matches_somewhere (js "write a story") prompt
    || matches_somewhere (js "create a story") prompt.
Proof.
  unfold validateStoryPrompt, story_phrases. cbn [existsb Value.toString].
  now rewrite orb_false_r, orb_assoc.
Qed.


(** ** Sanitizing a chat reply *)

(** Sanitizing a text that has been sanitized changes nothing, nor does
    sanitizing a text without control characters; a text can be sanitized
    piece by piece; and no code unit is ever added. *)
Theorem escapeJsonString_is_a_projection (str rest : jsstring) :
  escapeJsonString (escapeJsonString str) = escapeJsonString str
  /\ escapeJsonString (str ++ rest)
     = escapeJsonString str ++ escapeJsonString rest
  /\ (Forall (fun c => isControl c = false) str -> escapeJsonString str = str)
  /\ (length (escapeJsonString str) <= length str)%nat.
Proof.
  assert (Hclean : forall s,
            Forall (fun c => isControl c = false) s -> escapeJsonString s = s).
  { unfold escapeJsonString. induction s as [|c s IH]; [reflexivity|].
    intros H. apply Forall_cons in H as [Hc H].
    simpl. rewrite Hc. simpl. now rewrite IH. }
  split; [apply Hclean, escapeJsonString_clean|].
  split; [apply List.filter_app|].
  split; [apply Hclean|].
  unfold escapeJsonString. apply List.filter_length_le.
Qed.

(** ** Story namer *)

Lemma split_from_word (c : N) (word cur rest : jsstring) :
  ~ In c word ->
  JS.split_from [c] 0 cur (word ++ rest)
  = JS.split_from [c] 0 (rev word ++ cur) rest.
Proof.
  revert cur.
  induction word as [|x word IH]; intros cur Hword; [reflexivity|].
  cbn [app]. destruct rest as [|r rest'] eqn:Hrest.
  - cbn [JS.split_from]. rewrite startsWith_unit.
    destruct (N.eqb_spec c x) as [->|_]; [exfalso; apply Hword; now left|].
    rewrite app_nil_r. rewrite <- (app_nil_r word) at 1. rewrite IH.
    + cbn [rev]. now rewrite <- app_assoc.
    + intros H. apply Hword. now right.
  - cbn [JS.split_from]. rewrite startsWith_unit.
    destruct (N.eqb_spec c x) as [->|_]; [exfalso; apply Hword; now left|].
    rewrite IH.
    + cbn [rev]. now rewrite <- app_assoc.
    + intros H. apply Hword. now right.
Qed.

(** Words without spaces, joined by spaces and split again, are the
    words. *)
Lemma split_join_unit (c : N) (word cur : jsstring) (words : list jsstring) :
  Forall (fun w => ~ In c w) (word :: words) ->
  JS.split_from [c] 0 cur (JS.join [c] (word :: words))
  = (rev cur ++ word) :: words.
Proof.
  revert word cur.
  induction words as [|next words IH]; intros word cur Hall;
    apply Forall_cons in Hall as [Hword Hall].
  - cbn [JS.join]. rewrite <- (app_nil_r word) at 1.
    rewrite split_from_word by assumption.
    cbn [JS.split_from]. now rewrite rev_app_distr, rev_involutive.
  - rewrite join_cons by discriminate.
    rewrite split_from_word by assumption.
    cbn [app JS.split_from]. rewrite startsWith_unit, N.eqb_refl.
    cbn [length Nat.sub]. rewrite (IH next [] Hall).
    now rewrite rev_app_distr, rev_involutive.
Qed.

Lemma firstn_In {A} (x : A) (n : nat) (l : list A) :
  In x (firstn n l) -> In x l.
Proof.
  revert l. induction n as [|n IH]; intros [|y l]; simpl; try tauto.
  intros [H|H]; [now left|right; now apply IH].
Qed.

Lemma filter_firstn_kept {A} (f : A -> bool) (n : nat) (l : list A) :
  List.filter f (firstn n (List.filter f l)) = firstn n (List.filter f l).
Proof.
  assert (H : Forall (fun x => f x = true) (firstn n (List.filter f l))).
  { apply List.Forall_forall. intros x Hx. apply firstn_In in Hx.
    now apply filter_In in Hx. }
  induction (firstn n (List.filter f l)) as [|x l' IH]; [reflexivity|].
  apply Forall_cons in H as [Hx H]. simpl. rewrite Hx. now rewrite IH.
Qed.

Lemma filter_none {A} (f : A -> bool) (l : list A) :
  Forall (fun x => f x = false) l -> List.filter f l = [].
Proof.
  induction l as [|x l IH]; [reflexivity|].
  intros H. apply Forall_cons in H as [Hx H]. simpl. rewrite Hx. now apply IH.
Qed.

Lemma count_join_unit (c : N) (words : list jsstring) :
  Forall (fun w => ~ In c w) words ->
  count_occ N.eq_dec (JS.join [c] words) c = (length words - 1)%nat.
Proof.
  induction words as [|word words IH]; intros Hall; [reflexivity|].
  apply Forall_cons in Hall as [Hword Hall].
  destruct words as [|next words].
  - cbn [JS.join length]. now apply count_occ_not_In.
  - rewrite join_cons by discriminate.
    rewrite !count_occ_app, IH by assumption.
    rewrite (proj1 (count_occ_not_In N.eq_dec word c) Hword).
    cbn [count_occ length]. destruct (N.eq_dec c c); [lia|congruence].
Qed.

(** The name of a name is that name: naming is a projection.  A name
    holds at most two spaces, and a summary made of stopwords only has the
    empty name. *)
Theorem generateStoryName_of_a_name (summary : jsstring) :
  generateStoryName (generateStoryName summary) = generateStoryName summary
  /\ (count_occ N.eq_dec (generateStoryName summary) 32%N <= 2)%nat
  /\ (Forall (fun word => is_stopword word = true)
             (JS.split (js " ") summary) ->
      generateStoryName summary = []).
Proof.
  set (keep := fun word : jsstring =>
                 negb (JS.arrayIncludes stopwords (JS.toLowerCase word))).
  assert (Hname : generateStoryName summary
                  = JS.join [32%N]
                      (firstn 3 (List.filter keep
                                   (JS.split_from [32%N] 0 [] summary)))).
  { unfold generateStoryName. rewrite js_space, firstn_min_length.
    reflexivity. }
  assert (Hwords : Forall (fun w => ~ In 32%N w)
                     (firstn 3 (List.filter keep
                                  (JS.split_from [32%N] 0 [] summary)))).
  { apply List.Forall_forall. intros w Hw. apply firstn_In in Hw.
    apply filter_In in Hw as [Hw _].
    pose proof (split_unit_pieces 32 [] summary (fun H => H)) as Hall.
    rewrite List.Forall_forall in Hall. now apply Hall. }
  split; [|split].
  - rewrite Hname.
    destruct (firstn 3 (List.filter keep (JS.split_from [32%N] 0 [] summary)))
      as [|word words] eqn:Hkept; [reflexivity|].
    unfold generateStoryName at 1. rewrite js_space, firstn_min_length.
    unfold JS.split. rewrite (split_join_unit 32 word [] words Hwords).
    cbn [rev app]. fold keep. rewrite <- Hkept.
    rewrite filter_firstn_kept, firstn_firstn. reflexivity.
  - rewrite Hname, count_join_unit by assumption.
    pose proof (firstn_le_length 3
                  (List.filter keep (JS.split_from [32%N] 0 [] summary))).
    lia.
  - intros Hstop. rewrite Hname.
    rewrite filter_none; [reflexivity|].
    unfold JS.split in Hstop. rewrite js_space in Hstop.
    eapply Forall_impl; [exact Hstop|]. intros word Hword. cbn beta.
    unfold keep. unfold is_stopword in Hword. now rewrite Hword.
Qed.

(** ** Retry schedules *)

Lemma calls_to_after (e : Endpoint) (w w1 : World) :
  requests w1 = requests w ++ [e] -> calls_to e w1 = S (calls_to e w).
Proof.
  intros H. unfold calls_to. rewrite H, List.filter_app, length_app. simpl.
  rewrite bool_decide_true by reflexivity. simpl. lia.
Qed.

Lemma map_seq_S {A} (f : nat -> A) (i n : nat) :
  map f (seq (S i) n) = map (fun k => f (S k)) (seq i n).
Proof. now rewrite <- seq_shift, map_map. Qed.

(** With no attempt allowed, [makeRequestWithRetry] calls nothing and
    returns [undefined].  Otherwise the first answer is returned, after
    as many calls as it took, and the wait after the failed call [k] was
    the delay of its timer: 1, 2, 4, ... seconds up to [k = 21], and one
    millisecond from [k = 22] on, so that the waits do not grow for
    ever. *)
Theorem makeRequestWithRetry_wait_schedule (env : Env) (url : jsstring)
  (maxRetries j : nat) (w : World) (response : JsValue) :
  let post := Axios POST url in
  makeRequestWithRetry env url 0 w = (Returned VUndefined, w)
  /\ ((j < maxRetries)%nat ->
      (forall k, (k < j)%nat ->
         exists error,
           upstream env post (calls_to post w + k) = Rejected error) ->
      upstream env post (calls_to post w + j) = Resolved response ->
      let result := makeRequestWithRetry env url maxRetries w in
      fst result = Returned response
      /\ requests (snd result) = requests w ++ repeat post (S j)
      /\ timers (snd result) = timers w ++ map backoff (seq 0 j))
  /\ ((j <= 22)%nat ->
      map backoff (seq 0 j) = map (fun k => 1000 * 2 ^ Z.of_nat k) (seq 0 j))
  /\ ((22 <= j)%nat -> backoff j = 1 /\ backoff j < backoff 21).
Proof.
  cbv zeta. split; [reflexivity|]. split; [|split].
  - intros Hj Hfail Hok. unfold makeRequestWithRetry.
    now apply (makeRequestWithRetry_for_answered env url maxRetries maxRetries
                 0 j w response).
  - intros Hj. apply map_ext_in. intros k Hk. apply in_seq in Hk.
    apply backoff_doubles. lia.
  - intros Hj. rewrite (backoff_clamped j Hj). split; [reflexivity|].
    rewrite backoff_doubles by lia. reflexivity.
Qed.

(** A server that fails once is asked twice, one second apart. *)
Lemma makeRequestWithRetry_second_attempt :
  let result := makeRequestWithRetry failing_once some_url 3 (boot 0) in
  fst result = Returned (http_ok (VStr (js "done")))
  /\ requests (snd result) = repeat (Axios POST some_url) 2
  /\ timers (snd result) = [1000].
Proof.
  refine (proj1 (proj2 (makeRequestWithRetry_wait_schedule failing_once
                          some_url 3 1 (boot 0) (http_ok (VStr (js "done")))))
                _ _ _).
  - lia.
  - intros k Hk. exists (http_error 500).
    destruct k as [|k]; [reflexivity|lia].
  - reflexivity.
Defined.

Section ChatSchedule.
Variable env : Env.
Variables message numChapters maxWordsPerChapter : JsValue.

Let chat := Axios POST CHAT_COMPLETIONS_URL.

(** After [k] rate limits in a row, the first answer that parses is
    returned; the waits grow by one second each time. *)
Lemma makeChatRequest_answered (k retries : nat) (w : World)
  (response : JsValue) (raw : jsstring) (storyData : JsValue) :
  (retries + k <= MAX_RETRIES)%nat ->
  (forall i, (i < k)%nat ->
     exists error,
       upstream env chat (calls_to chat w + i) = Rejected error
       /\ rate_limited error = true) ->
  upstream env chat (calls_to chat w + k) = Resolved response ->
  first_choice_content response = inr (VStr raw) ->
  JSON_parse env (escapeJsonString raw) = Some storyData ->
  let result :=
    makeChatRequest env message numChapters maxWordsPerChapter retries w in
  fst result = Returned storyData
  /\ requests (snd result) = requests w ++ repeat chat (S k)
  /\ timers (snd result)
     = timers w
       ++ map (fun i => (Z.of_nat (retries + i) + 1) * 1000) (seq 0 k).
Proof.
  cbv zeta. revert retries w.
  induction k as [|k IH]; intros retries w Hk Hlimited Hok Htext Hparse.
  - rewrite Nat.add_0_r in Hok.
    unfold makeChatRequest. rewrite makeChatRequest_fuel_eq.
    unfold try_catch.
    rewrite (chat_attempt_parses env w response raw Hok Htext), Hparse.
    cbn. rewrite app_nil_r. auto.
  - destruct (Hlimited 0%nat) as (error & Herr & Hrl); [lia|].
    rewrite Nat.add_0_r in Herr.
    destruct (makeChatRequest_retries env message numChapters
                maxWordsPerChapter retries w error Herr Hrl)
      as (w1 & Hrun & Hreq & Htim); [lia|].
    rewrite Hrun.
    assert (Hcalls : calls_to chat w1 = S (calls_to chat w))
      by (apply calls_to_after; exact Hreq).
    destruct (IH (retries + 1)%nat w1) as (Hres & Hreq' & Htim');
      [lia| | | | |].
    + intros i Hi. rewrite Hcalls.
      replace (S (calls_to chat w) + i)%nat with (calls_to chat w + S i)%nat
        by lia.
      apply Hlimited. lia.
    + rewrite Hcalls.
      replace (S (calls_to chat w) + k)%nat with (calls_to chat w + S k)%nat
        by lia.
      exact Hok.
    + exact Htext.
    + exact Hparse.
    + split; [exact Hres|]. split.
      * rewrite Hreq', Hreq. cbn. now rewrite <- app_assoc.
      * rewrite Htim', Htim. cbn [seq map]. rewrite map_seq_S.
        rewrite <- app_assoc. cbn [app]. f_equal. f_equal.
        -- f_equal. lia.
        -- apply map_ext. intros i. f_equal. lia.
Qed.

End ChatSchedule.

(** [makeChatRequest] waits out up to [MAX_RETRIES] rate limits: when the
    service answers 429 [k] times and then with a text that parses, the
    parsed story is returned after [k + 1] calls, and the waits were of
    1, 2, ..., [k] seconds (counted on from [retries]). *)
Theorem makeChatRequest_waits_out_rate_limits (env : Env)
  (message numChapters maxWordsPerChapter : JsValue) (k retries : nat)
  (w : World) (response : JsValue) (raw : jsstring) (storyData : JsValue) :
  let chat := Axios POST CHAT_COMPLETIONS_URL in
  (retries + k <= MAX_RETRIES)%nat ->
  (forall i, (i < k)%nat ->
     exists error,
       upstream env chat (calls_to chat w + i) = Rejected error
       /\ rate_limited error = true) ->
  upstream env chat (calls_to chat w + k) = Resolved response ->
  first_choice_content response = inr (VStr raw) ->
  JSON_parse env (escapeJsonString raw) = Some storyData ->
  let result :=
    makeChatRequest env message numChapters maxWordsPerChapter retries w in
  fst result = Returned storyData
  /\ requests (snd result) = requests w ++ repeat chat (S k)
  /\ timers (snd result)
     = timers w
       ++ map (fun i => (Z.of_nat (retries + i) + 1) * 1000) (seq 0 k).
Proof. cbv zeta. apply makeChatRequest_answered. Qed.

(** Two rate limits cost three seconds. *)
Lemma makeChatRequest_after_two_rate_limits :
  let result :=
    makeChatRequest (throttling_twice a_story) (VStr (js "tell me a story"))
                    (VNum 1) (VNum 100) 0 (boot 0) in
  fst result
  = Returned (VObj [(js "chapter1", VStr (js "Once upon a time."))])
  /\ requests (snd result) = repeat (Axios POST CHAT_COMPLETIONS_URL) 3
  /\ timers (snd result) = [1000; 2000].
Proof.
  refine (makeChatRequest_waits_out_rate_limits (throttling_twice a_story)
            (VStr (js "tell me a story")) (VNum 1) (VNum 100) 2 0 (boot 0)
            (http_ok (completion (VStr a_story))) a_story
            (VObj [(js "chapter1", VStr (js "Once upon a time."))])
            _ _ _ _ _).
  - vm_compute. lia.
  - intros i Hi. exists (http_error 429).
    destruct i as [|[|i]]; [split; reflexivity|split; reflexivity|lia].
  - reflexivity.
  - reflexivity.
  - vm_compute. reflexivity.
Defined.

(** ** Downloading a chapter image *)

Lemma downloadImageToBuffer_requests (env : Env) (url : JsValue) (w : World) :
  requests (snd (downloadImageToBuffer env url w))
  = requests w ++ [Axios GET (Value.toString url)].
Proof.
  unfold downloadImageToBuffer, try_catch. rewrite bind_run, call_run.
  destruct (upstream env _ _) as [response|error]; [|reflexivity].
  match goal with
  | |- requests (snd (match ?m ?w1 with _ => _ end)) = _ =>
      assert (H : preserves requests m) by frame;
      specialize (H w1); destruct (m w1) as [[bytes|e] w2]
  end; cbn [snd] in *; rewrite ?bind_run; cbn; exact H.
Qed.

(** [downloadImageToBuffer] makes exactly one call and sends nothing.  An
    answer whose status is not 200 is refused with the status text in the
    message, although the call itself went through; an answer with status
    200 gives the bytes of its body. *)
Theorem downloadImageToBuffer_wants_status_200 (env : Env) (url : JsValue)
  (w : World) (response status : JsValue) :
  let download := Axios GET (Value.toString url) in
  let result := downloadImageToBuffer env url w in
  requests (snd result) = requests w ++ [download]
  /\ replies (snd result) = replies w
  /\ (upstream env download (calls_to download w) = Resolved response ->
      Value.get response (js "status") = inr status ->
      (Value.is_num 200 status = false ->
       forall statusText,
         Value.get response (js "statusText") = inr statusText ->
         fst result
         = Threw (Error (js "Failed to fetch image: "
                         ++ Value.toString statusText)))
      /\ (Value.is_num 200 status = true ->
          forall data,
            Value.get response (js "data") = inr data ->
            fst result = match Buffer_from data with
                         | inr bytes => Returned bytes
                         | inl error => Threw error
                         end)).
Proof.
  cbv zeta. split; [apply downloadImageToBuffer_requests|].
  split.
  { assert (H : preserves replies (downloadImageToBuffer env url))
      by (unfold downloadImageToBuffer; frame).
    apply H. }
  intros Hup Hstatus. unfold downloadImageToBuffer.
  rewrite fst_log_rethrow, bind_run, call_run, Hup.
  rewrite bind_run, Hstatus. cbn [lift ret].
  split.
  - intros Hnot statusText Htext. rewrite Hnot. cbn [negb].
    rewrite bind_run, Htext. reflexivity.
  - intros Hyes data Hdata. rewrite Hyes. cbn [negb].
    rewrite bind_run, Hdata. cbn [lift ret].
    destruct (Buffer_from data); reflexivity.
Qed.

(** An answer 204 is no image. *)
Lemma downloadImageToBuffer_refuses_204 :
  fst (downloadImageToBuffer no_content
         (VStr (js "https://images.example.com/1.png")) (boot 0))
  = Threw (Error (js "Failed to fetch image: No Content")).
Proof.
  refine (proj1 (proj2 (proj2
           (downloadImageToBuffer_wants_status_200 no_content
              (VStr (js "https://images.example.com/1.png")) (boot 0)
              (VObj [(js "status", VNum 204);
                     (js "statusText", VStr (js "No Content"));
                     (js "data", VBuf [])])
              (VNum 204))) _ _) _ (VStr (js "No Content")) _);
    reflexivity.
Defined.

(** ** Flipbook status *)

Section PublicationDetails.
Variable env : Env.
Variable flipbookId : JsValue.

Let status := status_endpoint flipbookId.

Lemma getPublicationDetails_eq (retries : nat) (w : World) :
  getPublicationDetails env flipbookId retries w =
  let w1 := set_requests (fun r => r ++ [status]) w in
  let again (error : JsError) :=
    match retries with
    | S fewer =>
        getPublicationDetails env flipbookId fewer
          (snd (delay (details_wait retries)
                  (snd (console_log
                          [LogVal (VStr (js "Retrying to get publication details. "
                                         ++ js "Attempts left: "
                                         ++ JS.numeral (Z.of_nat retries - 1)))]
                          w1))))
    | O => (Threw error, w1)
    end in
  match upstream env status (calls_to status w) with
  | Resolved response =>
      match Value.get response (js "data") with
      | inr data => (Returned data, w1)
      | inl error => again error
      end
  | Rejected error => again error
  end.
Proof.
  destruct retries; cbn [getPublicationDetails]; unfold try_catch;
    rewrite bind_run, call_run; fold status;
    destruct (upstream env status _) as [response|error]; try reflexivity;
    destruct (Value.get response _); reflexivity.
Qed.

Lemma getPublicationDetails_calls (retries : nat) (w : World) :
  exists n, (1 <= n <= S retries)%nat
    /\ requests (snd (getPublicationDetails env flipbookId retries w))
       = requests w ++ repeat status n.
Proof.
  revert w. induction retries as [|retries IH]; intros w;
    rewrite getPublicationDetails_eq; cbv zeta.
  - exists 1%nat. split; [lia|].
    destruct (upstream env status _) as [response|error];
      [destruct (Value.get response _)|]; reflexivity.
  - match goal with
    | |- context [getPublicationDetails env flipbookId retries ?w2] =>
        destruct (IH w2) as (n & Hn & Hreq)
    end.
    destruct (upstream env status _) as [response|error];
      [destruct (Value.get response _)|].
    + exists (S n). split; [lia|]. rewrite Hreq. cbn.
      now rewrite <- app_assoc.
    + exists 1%nat. split; [lia|reflexivity].
    + exists (S n). split; [lia|]. rewrite Hreq. cbn.
      now rewrite <- app_assoc.
Qed.

Lemma getPublicationDetails_replies (retries : nat) :
  preserves replies (getPublicationDetails env flipbookId retries).
Proof.
  induction retries as [|retries IH]; cbn [getPublicationDetails]; frame.
Qed.

Lemma getPublicationDetails_answered (j retries : nat) (w : World)
  (response data : JsValue) :
  (j <= retries)%nat ->
  (forall k, (k < j)%nat ->
     exists error,
       upstream env status (calls_to status w + k) = Rejected error) ->
  upstream env status (calls_to status w + j) = Resolved response ->
  Value.get response (js "data") = inr data ->
  let result := getPublicationDetails env flipbookId retries w in
  fst result = Returned data
  /\ requests (snd result) = requests w ++ repeat status (S j)
  /\ timers (snd result)
     = timers w ++ map (fun k => details_wait (retries - k)) (seq 0 j).
Proof.
  cbv zeta. revert retries w.
  induction j as [|j IH]; intros retries w Hj Hfail Hok Hdata;
    rewrite getPublicationDetails_eq; cbv zeta.
  - rewrite Nat.add_0_r in Hok. rewrite Hok, Hdata.
    cbn. rewrite app_nil_r. auto.
  - destruct retries as [|retries]; [lia|].
    destruct (Hfail 0%nat) as [error Herr]; [lia|].
    rewrite Nat.add_0_r in Herr. rewrite Herr.
    match goal with
    | |- context [getPublicationDetails env flipbookId retries ?w2] =>
        set (w1 := w2)
    end.
    assert (Hcalls : calls_to status w1 = S (calls_to status w))
      by (apply calls_to_after; reflexivity).
    destruct (IH retries w1) as (Hres & Hreq & Htim); [lia| | | |].
    + intros k Hk. rewrite Hcalls.
      replace (S (calls_to status w) + k)%nat
        with (calls_to status w + S k)%nat by lia.
      apply Hfail. lia.
    + rewrite Hcalls.
      replace (S (calls_to status w) + j)%nat
        with (calls_to status w + S j)%nat by lia.
      exact Hok.
    + exact Hdata.
    + split; [exact Hres|]. split.
      * rewrite Hreq. subst w1. cbn. now rewrite <- app_assoc.
      * rewrite Htim. subst w1. cbn [seq map]. rewrite map_seq_S.
        cbn. rewrite <- app_assoc. reflexivity.
Qed.

Lemma getPublicationDetails_exhausted (retries : nat) (w : World) :
  (forall k, (k <= retries)%nat ->
     exists error,
       upstream env status (calls_to status w + k) = Rejected error) ->
  let result := getPublicationDetails env flipbookId retries w in
  (exists error,
     upstream env status (calls_to status w + retries) = Rejected error
     /\ fst result = Threw error)
  /\ requests (snd result) = requests w ++ repeat status (S retries)
  /\ timers (snd result)
     = timers w ++ map (fun k => details_wait (retries - k)) (seq 0 retries).
Proof.
  cbv zeta. revert w.
  induction retries as [|retries IH]; intros w Hfail;
    rewrite getPublicationDetails_eq; cbv zeta;
    (destruct (Hfail 0%nat) as [first Hfirst]; [lia|]);
    rewrite Nat.add_0_r in Hfirst; rewrite Hfirst.
  - split; [exists first; rewrite Nat.add_0_r; auto|].
    cbn. rewrite app_nil_r. auto.
  - match goal with
    | |- context [getPublicationDetails env flipbookId retries ?w2] =>
        set (w1 := w2)
    end.
    assert (Hcalls : calls_to status w1 = S (calls_to status w))
      by (apply calls_to_after; reflexivity).
    destruct (IH w1) as ((error & Herr & Hthrown) & Hreq & Htim).
    + intros k Hk. rewrite Hcalls.
      replace (S (calls_to status w) + k)%nat
        with (calls_to status w + S k)%nat by lia.
      apply Hfail. lia.
    + split; [|split].
      * exists error. split; [|exact Hthrown].
        rewrite Hcalls in Herr.
        replace (calls_to status w + S retries)%nat
          with (S (calls_to status w) + retries)%nat by lia.
        exact Herr.
      * rewrite Hreq. subst w1. cbn. now rewrite <- app_assoc.
      * rewrite Htim. subst w1. cbn [seq map]. rewrite map_seq_S.
        cbn. rewrite <- app_assoc. reflexivity.
Qed.

End PublicationDetails.

(** The retry of [getPublicationDetails]: at most [retries + 1] calls;
    the first answer is returned, the waits before it being of
    [2000 * (4 - retries)], [2000 * (4 - (retries - 1))], ...
    milliseconds; and when every call fails the last failure is thrown.
    From the default of three retries the waits are of 2, 4 and 6
    seconds. *)
Theorem getPublicationDetails_retry_schedule (env : Env)
  (flipbookId : JsValue) (retries j : nat) (w : World)
  (response data : JsValue) :
  let status := status_endpoint flipbookId in
  let result := getPublicationDetails env flipbookId retries w in
  let waits n := map (fun k => details_wait (retries - k)) (seq 0 n) in
  (exists n, (1 <= n <= S retries)%nat
     /\ requests (snd result) = requests w ++ repeat status n)
  /\ ((j <= retries)%nat ->
      (forall k, (k < j)%nat ->
         exists error,
           upstream env status (calls_to status w + k) = Rejected error) ->
      upstream env status (calls_to status w + j) = Resolved response ->
      Value.get response (js "data") = inr data ->
      fst result = Returned data
      /\ requests (snd result) = requests w ++ repeat status (S j)
      /\ timers (snd result) = timers w ++ waits j)
  /\ ((forall k, (k <= retries)%nat ->
         exists error,
           upstream env status (calls_to status w + k) = Rejected error) ->
      (exists error,
         upstream env status (calls_to status w + retries) = Rejected error
         /\ fst result = Threw error)
      /\ requests (snd result) = requests w ++ repeat status (S retries)
      /\ timers (snd result) = timers w ++ waits retries)
  /\ map (fun k => details_wait (3 - k)) (seq 0 3) = [2000; 4000; 6000].
Proof.
  cbv zeta. split; [apply getPublicationDetails_calls|].
  split; [apply getPublicationDetails_answered|].
  split; [apply getPublicationDetails_exhausted|reflexivity].
Qed.

(** Two failures of the status address cost six seconds. *)
Lemma getPublicationDetails_third_attempt :
  let result := getPublicationDetails status_fails_twice job_17 3 (boot 0) in
  fst result
  = Returned (VObj [(js "publication",
                     VObj [(js "state", VStr (js "Processing"));
                           (js "hashId", VStr (js "h4sh"))])])
  /\ requests (snd result) = repeat (status_endpoint job_17) 3
  /\ timers (snd result) = [2000; 4000].
Proof.
  refine (proj1 (proj2
           (getPublicationDetails_retry_schedule status_fails_twice job_17
              3 2 (boot 0)
              (http_ok (VObj [(js "publication",
                               VObj [(js "state", VStr (js "Processing"));
                                     (js "hashId", VStr (js "h4sh"))])]))
              (VObj [(js "publication",
                      VObj [(js "state", VStr (js "Processing"));
                            (js "hashId", VStr (js "h4sh"))])]))) _ _ _ _).
  - lia.
  - intros k Hk. exists (http_error 502).
    destruct k as [|[|k]]; [reflexivity|reflexivity|lia].
  - reflexivity.
  - reflexivity.
Defined.

(** ** Handlers that answer once *)

Lemma sends_or_throws_bind {A} (good : Reply -> Prop) (m : M A)
  (k : A -> M unit) :
  preserves replies m -> (forall a, sends_or_throws good (k a)) ->
  sends_or_throws good (bind m k).
Proof.
  intros Hm Hk w. rewrite bind_run. specialize (Hm w).
  destruct (m w) as [[a|e] w1]; cbn [fst snd] in *; [|exact Hm].
  specialize (Hk a w1). rewrite Hm in Hk. exact Hk.
Qed.

Lemma sends_or_throws_send (good : Reply -> Prop) (c : Z) (b : Body) :
  good (mkReply c b) -> sends_or_throws good (send c b).
Proof. intros H w. cbn. now exists (mkReply c b). Qed.

Lemma sends_or_throws_throw (good : Reply -> Prop) (e : JsError) :
  sends_or_throws good (throw e).
Proof. intros w. reflexivity. Qed.

Lemma sends_once_send (good : Reply -> Prop) (c : Z) (b : Body) :
  good (mkReply c b) -> sends_once good (send c b).
Proof. intros H w. split; [reflexivity|]. now exists (mkReply c b). Qed.

(** A logging step in front changes nothing. *)
Lemma sends_once_logged (good : Reply -> Prop) (args : list Logged)
  (m : M unit) :
  sends_once good m -> sends_once good (console_error args ;; m).
Proof.
  intros H w. rewrite bind_run. cbn [console_error console_log].
  destruct (H (set_console (fun l => l ++ [args]) w)) as (Hret & reply & Hrep).
  split; [exact Hret|]. exists reply. exact Hrep.
Qed.

Lemma sends_once_weaken (good better : Reply -> Prop) (m : M unit) :
  (forall reply, good reply -> better reply) ->
  sends_once good m -> sends_once better m.
Proof.
  intros Himp H w. destruct (H w) as (Hret & reply & Hrep & Hgood).
  split; [exact Hret|]. exists reply. auto.
Qed.

(** A [try] block that answers once or throws, under a [catch] that
    answers once: together they answer once, whatever happens. *)
Lemma sends_once_catch (good bad : Reply -> Prop) (body : M unit)
  (handler : JsError -> M unit) :
  sends_or_throws good body ->
  (forall error, sends_once bad (handler error)) ->
  sends_once (fun reply => good reply \/ bad reply) (try_catch body handler).
Proof.
  intros Hbody Hhandler w. unfold try_catch. specialize (Hbody w).
  destruct (body w) as [[[]|error] w1]; cbn [fst snd] in *.
  - split; [reflexivity|]. destruct Hbody as (reply & Hrep & Hgood).
    exists reply. auto.
  - destruct (Hhandler error w1) as (Hret & reply & Hrep & Hbad).
    split; [exact Hret|]. exists reply. rewrite Hrep, Hbody. auto.
Qed.

(** What the clients leave alone. *)
Section Quiet.
Context {X : Type} (part : World -> X).
Hypothesis no_call : forall env e, preserves part (call env e).
Hypothesis no_wait : forall ms, preserves part (delay ms).
Hypothesis no_log : forall args, preserves part (console_log args).

Lemma quiet_makeChatRequest (env : Env) (message numChapters
  maxWordsPerChapter : JsValue) (retries : nat) :
  preserves part
    (makeChatRequest env message numChapters maxWordsPerChapter retries).
Proof.
  unfold makeChatRequest. generalize (MAX_RETRIES - retries)%nat as fuel.
  intros fuel. revert retries.
  induction fuel as [|fuel IH]; intros retries;
    cbn [makeChatRequest_fuel]; unfold chat_attempt, console_error;
    frame; try apply no_call; try apply no_wait; try apply no_log;
    try apply IH.
Qed.

Lemma quiet_summarizeStory (env : Env) (story : JsValue) :
  preserves part (summarizeStory env story).
Proof.
  unfold summarizeStory, log_and_rethrow, console_error.
  frame; try apply no_call; try apply no_log.
Qed.

Lemma quiet_generateImage (env : Env) (prompt : JsValue) :
  preserves part (generateImage env prompt).
Proof.
  unfold generateImage, log_and_rethrow, console_error.
  frame; try apply no_call; try apply no_log.
Qed.

Lemma quiet_chapter_images (env : Env) (storyData : JsValue)
  (chapterKeys : list jsstring) :
  preserves part (chapter_images env storyData chapterKeys).
Proof.
  induction chapterKeys as [|chapterKey later IH]; cbn [chapter_images].
  - apply preserves_ret.
  - apply preserves_bind; [apply quiet_summarizeStory|intros ?].
    apply preserves_bind; [apply quiet_generateImage|intros ?].
    apply preserves_bind; [exact IH|intros ?]. apply preserves_ret.
Qed.

Lemma quiet_getPublicationDetails (env : Env) (flipbookId : JsValue)
  (retries : nat) :
  preserves part (getPublicationDetails env flipbookId retries).
Proof.
  induction retries as [|retries IH]; cbn [getPublicationDetails];
    frame; try apply no_call; try apply no_wait; try apply no_log.
Qed.

End Quiet.

(** The clients that send nothing, touch no file, and so on: one hint
    for each, to be used on a component that the primitives leave
    alone. *)
Create HintDb quiet.

#[global] Hint Extern 1 (preserves _ (makeChatRequest _ _ _ _ _)) =>
  (apply quiet_makeChatRequest; intros; untouched) : quiet.
#[global] Hint Extern 1 (preserves _ (summarizeStory _ _)) =>
  (apply quiet_summarizeStory; intros; untouched) : quiet.
#[global] Hint Extern 1 (preserves _ (generateImage _ _)) =>
  (apply quiet_generateImage; intros; untouched) : quiet.
#[global] Hint Extern 1 (preserves _ (chapter_images _ _ _)) =>
  (apply quiet_chapter_images; intros; untouched) : quiet.
#[global] Hint Extern 1 (preserves _ (getPublicationDetails _ _ _)) =>
  (apply quiet_getPublicationDetails; intros; untouched) : quiet.

Lemma sends_once_ret {A} (good : Reply -> Prop) (a : A) (k : A -> M unit) :
  sends_once good (k a) -> sends_once good (bind (ret a) k).
Proof. intros H w. exact (H w). Qed.

Lemma bind_ret {A B} (a : A) (k : A -> M B) : bind (ret a) k = k a.
Proof. reflexivity. Qed.

(** A client or a primitive that sends nothing. *)
Ltac silent :=
  first [ solve [auto with quiet] | unfold object_of; frame ].

(** Walks through a [try] block that ends in a reply. *)
Ltac answer :=
  repeat first
    [ apply sends_or_throws_bind; [solve [silent]|intros ?]
    | apply sends_or_throws_send
    | apply sends_or_throws_throw
    | match goal with
      | |- sends_or_throws _ (if ?b then _ else _) => destruct b
      | |- sends_or_throws _ (match ?x with _ => _ end) => destruct x
      end ].

(** A [catch] that logs and sends one reply. *)
Ltac excuse :=
  let w := fresh "w" in
  intros w; rewrite ?bind_run; cbn [console_error console_log];
  rewrite ?bind_run;
  repeat match goal with
         | |- context [if ?b then _ else _] => destruct b
         end;
  cbn; (split; [reflexivity|]); eexists; (split; [reflexivity|]).

(** ** Story handlers *)




(** ** Flipbook status *)

Lemma state_of_without_publication (details : JsValue) :
  optional details (js "publication") = VUndefined ->
  state_of details = VStr (js "Unknown").
Proof. unfold state_of. now intros ->. Qed.

(** Whatever the flipbook service answers, the status handler returns
    and sends exactly one reply, after one to four calls to the status
    address: status 200 with the state and the details, or status 500
    with a fixed text.  The state is "Unknown" when the details hold no
    publication; unlike the polling of [create-flipbook-from-url], the
    handler does not fail on such details. *)
Theorem api_check_flipbook_status_answers_once (env : Env)
  (flipbookId : jsstring) (w : World) :
  let status := status_endpoint (VStr flipbookId) in
  let result := api_check_flipbook_status env flipbookId w in
  let lookup_failed :=
    mkReply 500 (json_error "Failed to check flipbook status") in
  fst result = Returned tt
  /\ (exists n, (1 <= n <= 4)%nat
        /\ requests (snd result) = requests w ++ repeat status n)
  /\ (exists reply,
        replies (snd result) = replies w ++ [reply]
        /\ ((exists details,
               reply = mkReply 200
                         (BJson (VObj [(js "status", state_of details);
                                       (js "details", details)])))
            \/ reply = lookup_failed))
  /\ (forall response details,
        upstream env status (calls_to status w) = Resolved response ->
        Value.get response (js "data") = inr details ->
        optional details (js "publication") = VUndefined ->
        replies (snd result)
        = replies w
          ++ [mkReply 200 (BJson (VObj [(js "status", VStr (js "Unknown"));
                                        (js "details", details)]))]).
Proof.
  cbv zeta. unfold api_check_flipbook_status, try_catch. rewrite bind_run.
  pose proof (getPublicationDetails_calls env (VStr flipbookId) 3 w)
    as (n & Hn & Hreq).
  assert (Hrep : preserves replies
                   (getPublicationDetails env (VStr flipbookId) 3))
    by (apply quiet_getPublicationDetails; intros; untouched).
  specialize (Hrep w).
  split; [|split; [|split]].
  - destruct (getPublicationDetails env _ 3 w) as [[details|error] w1];
      reflexivity.
  - exists n. split; [lia|].
    destruct (getPublicationDetails env _ 3 w) as [[details|error] w1];
      cbn [fst snd] in *; rewrite ?bind_run; cbn; exact Hreq.
  - destruct (getPublicationDetails env _ 3 w) as [[details|error] w1];
      cbn [fst snd] in *; rewrite ?bind_run; cbn; rewrite Hrep;
      eexists; (split; [reflexivity|]).
    + left. now exists details.
    + now right.
  - intros response details Hup Hdata Hnone.
    pose proof (getPublicationDetails_answered env (VStr flipbookId) 0 3 w
                  response details) as Hfirst.
    cbv zeta in Hfirst. rewrite Nat.add_0_r in Hfirst.
    destruct Hfirst as (Hres & _ & _); [lia|intros k Hk; lia|exact Hup
                                       |exact Hdata|].
    destruct (getPublicationDetails env _ 3 w) as [r w1].
    cbn [fst snd] in *. subst r. cbn.
    now rewrite Hrep, (state_of_without_publication details Hnone).
Qed.

(** One run of [checkFlipbookStatus] never throws.  It schedules the next
    run exactly when the details were fetched and their state is not
    "Ready": a lookup that fails for good ends the checking, with nothing
    but a line on the console. *)
Theorem checkFlipbookStatus_reschedules (env : Env) (flipbookId : JsValue)
  (w : World) :
  let fetched := fst (getPublicationDetails env flipbookId 3 w) in
  fst (checkFlipbookStatus env flipbookId w)
  = Returned
      match fetched with
      | Returned details =>
          negb (Value.is_str (js "Ready") (state_of details))
      | Threw _ => false
      end
  /\ replies (snd (checkFlipbookStatus env flipbookId w)) = replies w
  /\ files (snd (checkFlipbookStatus env flipbookId w)) = files w.
Proof.
  cbv zeta. split; [|split].
  - unfold checkFlipbookStatus, try_catch. rewrite bind_run.
    destruct (getPublicationDetails env flipbookId 3 w)
      as [[details|error] w1]; cbn [fst].
    + rewrite bind_run. cbn [console_log].
      destruct (negb _); reflexivity.
    + reflexivity.
  - assert (H : preserves replies (checkFlipbookStatus env flipbookId)).
    { unfold checkFlipbookStatus.
      apply preserves_try_catch; [|intros ?; frame].
      apply preserves_bind; [|intros ?; frame].
      apply quiet_getPublicationDetails; intros; untouched. }
    apply H.
  - assert (H : preserves files (checkFlipbookStatus env flipbookId)).
    { unfold checkFlipbookStatus.
      apply preserves_try_catch; [|intros ?; frame].
      apply preserves_bind; [|intros ?; frame].
      apply quiet_getPublicationDetails; intros; untouched. }
    apply H.
Qed.

(** The lookup fails for lack of a publication: the state is unknown. *)
Lemma api_check_flipbook_status_unknown :
  replies (snd (api_check_flipbook_status without_publication (js "job-17")
                  (boot 0)))
  = [mkReply 200 (BJson (VObj [(js "status", VStr (js "Unknown"));
                               (js "details", VObj [])]))].
Proof.
  refine (proj2 (proj2 (proj2
           (api_check_flipbook_status_answers_once without_publication
              (js "job-17") (boot 0))))
           (http_ok (VObj [])) (VObj []) _ _ _); reflexivity.
Defined.

(** ** Document assembler *)

(** What the assemblers leave alone. *)
Section QuietAssembler.
Context {X : Type} (part : World -> X).
Hypothesis no_call : forall env e, preserves part (call env e).
Hypothesis no_log : forall args, preserves part (console_log args).
Hypothesis no_doc : forall op, preserves part (doc op).

Lemma quiet_downloadImageToBuffer (env : Env) (url : JsValue) :
  preserves part (downloadImageToBuffer env url).
Proof.
  unfold downloadImageToBuffer, console_error.
  frame; try apply no_call; try apply no_log.
Qed.

Lemma quiet_generate_pdf_image (env : Env) (imageUrl : JsValue) :
  preserves part (generate_pdf_image env imageUrl).
Proof.
  unfold generate_pdf_image, console_error, doc_image, image_size.
  apply preserves_try_catch.
  - apply preserves_bind; [apply quiet_downloadImageToBuffer|intros ?].
    frame; apply no_doc.
  - intros ?. frame; try apply no_log; apply no_doc.
Qed.

Lemma quiet_preview_image (env : Env) (imageUrl : JsValue) :
  preserves part (preview_image env imageUrl).
Proof.
  unfold preview_image, console_error, doc_image, image_size.
  apply preserves_try_catch.
  - apply preserves_bind; [apply quiet_downloadImageToBuffer|intros ?].
    frame; apply no_doc.
  - intros ?. apply no_log.
Qed.

Lemma quiet_generate_pdf_chapters (env : Env) (storyData imageUrls : JsValue)
  (count i : nat) (chapterKeys : list jsstring) :
  preserves part
    (generate_pdf_chapters env storyData imageUrls count i chapterKeys).
Proof.
  revert i.
  induction chapterKeys as [|chapterKey later IH]; intros i;
    cbn [generate_pdf_chapters]; [apply preserves_ret|].
  repeat first
    [ apply IH
    | apply quiet_generate_pdf_image
    | apply no_doc
    | apply preserves_ret
    | apply preserves_lift
    | apply preserves_bind; [|intros ?]
    | apply preserves_forEach; intros ?
    | match goal with
      | |- preserves _ (if ?b then _ else _) => destruct b
      end ].
Qed.

Lemma quiet_preview_chapters (env : Env) (storyData imageUrls : JsValue)
  (count i : nat) (chapterKeys : list jsstring) :
  preserves part
    (preview_chapters env storyData imageUrls count i chapterKeys).
Proof.
  revert i.
  induction chapterKeys as [|chapterKey later IH]; intros i;
    cbn [preview_chapters]; [apply preserves_ret|].
  repeat first
    [ apply IH
    | apply quiet_preview_image
    | apply no_doc
    | apply preserves_ret
    | apply preserves_lift
    | apply preserves_bind; [|intros ?]
    | apply preserves_forEach; intros ?
    | match goal with
      | |- preserves _ (if ?b then _ else _) => destruct b
      end ].
Qed.

End QuietAssembler.

#[global] Hint Extern 1 (preserves _ (downloadImageToBuffer _ _)) =>
  (apply quiet_downloadImageToBuffer; intros; untouched) : quiet.
#[global] Hint Extern 1 (preserves _ (generate_pdf_chapters _ _ _ _ _ _)) =>
  (apply quiet_generate_pdf_chapters; intros; untouched) : quiet.
#[global] Hint Extern 1 (preserves _ (preview_chapters _ _ _ _ _ _)) =>
  (apply quiet_preview_chapters; intros; untouched) : quiet.

(** The image of a chapter never ends the assembly in [generate-pdf] and
    in [generate-pdf-preview]. *)
Lemma generate_pdf_image_returns (env : Env) (imageUrl : JsValue) (w : World) :
  fst (generate_pdf_image env imageUrl w) = Returned tt.
Proof.
  unfold generate_pdf_image, try_catch.
  match goal with
  | |- fst (let (c, w') := ?m w in _) = _ => destruct (m w) as [[[]|e] w1]
  end; [reflexivity|].
  run. reflexivity.
Qed.

Lemma preview_image_returns (env : Env) (imageUrl : JsValue) (w : World) :
  fst (preview_image env imageUrl w) = Returned tt.
Proof.
  unfold preview_image, try_catch.
  match goal with
  | |- fst (let (c, w') := ?m w in _) = _ => destruct (m w) as [[[]|e] w1]
  end; reflexivity.
Qed.

Lemma forEach_returns {A} (xs : list A) (body : A -> M unit) (w : World) :
  (forall x w', fst (body x w') = Returned tt) ->
  fst (forEach xs body w) = Returned tt.
Proof.
  intros Hbody. revert w. induction xs as [|x xs IH]; intros w; [reflexivity|].
  cbn [forEach]. rewrite bind_run. specialize (Hbody x w).
  destruct (body x w) as [[[]|e] w1]; cbn [fst] in Hbody;
    [apply IH|discriminate].
Qed.

Lemma at_index_truthy (v : JsValue) (i : nat) :
  Value.truthy v = true -> exists x, Value.at_index v i = inr x.
Proof. destruct v; try discriminate; intros _; eexists; reflexivity. Qed.

Section Loops.
Variable env : Env.
Variables storyData imageUrls : JsValue.
Variable count : nat.

Hypothesis indexable : Value.truthy imageUrls = true.

Lemma generate_pdf_chapters_returns (i : nat) (chapterKeys : list jsstring)
  (w : World) :
  Forall (fun chapterKey => exists text,
            Value.prop storyData chapterKey = VStr text) chapterKeys ->
  fst (generate_pdf_chapters env storyData imageUrls count i chapterKeys w)
  = Returned tt.
Proof.
  revert i w.
  induction chapterKeys as [|chapterKey later IH]; intros i w Htexts;
    [reflexivity|].
  apply Forall_cons in Htexts as [[text Htext] Htexts].
  cbn [generate_pdf_chapters].
  destruct (at_index_truthy imageUrls i indexable) as [imageUrl ->].
  cbn [lift]. run. rewrite Htext. cbn [split_paragraphs lift ret].
  rewrite bind_run.
  match goal with
  | |- context [forEach ?xs ?body ?w1] =>
      pose proof (forEach_returns xs body w1) as Hloop;
      destruct (forEach xs body w1) as [[[]|e] w2]
  end; cbn [fst] in Hloop.
  2:{ exfalso. assert (H : @Threw unit e = Returned tt); [|discriminate].
      apply Hloop. intros x w'. run. reflexivity. }
  rewrite bind_run. cbn [doc]. rewrite bind_run.
  match goal with
  | |- fst (let (c, w') := ?m ?w1 in _) = _ =>
      assert (Himage : fst (m w1) = Returned tt)
        by (destruct (Value.truthy imageUrl);
            [apply generate_pdf_image_returns|reflexivity]);
      destruct (m w1) as [[[]|e] w3]; cbn [fst] in Himage; [|discriminate]
  end.
  rewrite bind_run.
  destruct (Z.of_nat i <? Z.of_nat count - 1); cbn [doc ret]; now apply IH.
Qed.

Lemma preview_chapters_returns (i : nat) (chapterKeys : list jsstring)
  (w : World) :
  Forall (fun chapterKey => exists text,
            Value.prop storyData chapterKey = VStr text) chapterKeys ->
  fst (preview_chapters env storyData imageUrls count i chapterKeys w)
  = Returned tt.
Proof.
  revert i w.
  induction chapterKeys as [|chapterKey later IH]; intros i w Htexts;
    [reflexivity|].
  apply Forall_cons in Htexts as [[text Htext] Htexts].
  cbn [preview_chapters].
  destruct (at_index_truthy imageUrls i indexable) as [imageUrl ->].
  cbn [lift]. run. rewrite Htext. cbn [split_paragraphs lift ret].
  rewrite bind_run.
  match goal with
  | |- context [forEach ?xs ?body ?w1] =>
      pose proof (forEach_returns xs body w1) as Hloop;
      destruct (forEach xs body w1) as [[[]|e] w2]
  end; cbn [fst] in Hloop.
  2:{ exfalso. assert (H : @Threw unit e = Returned tt); [|discriminate].
      apply Hloop. intros x w'. run. reflexivity. }
  rewrite bind_run.
  match goal with
  | |- fst (let (c, w') := ?m ?w1 in _) = _ =>
      assert (Himage : fst (m w1) = Returned tt)
        by (destruct (Value.truthy imageUrl);
            [apply preview_image_returns|reflexivity]);
      destruct (m w1) as [[[]|e] w3]; cbn [fst] in Himage; [|discriminate]
  end.
  rewrite bind_run.
  destruct (Z.of_nat i <? Z.of_nat count - 1); cbn [doc ret]; now apply IH.
Qed.

End Loops.

(** *** [POST /api/generate-pdf] *)

(** Whatever the request holds and whatever the image servers answer,
    [/api/generate-pdf] returns and sends exactly one reply: 400 when the
    story or the images are missing, the document, or 500. *)
Theorem api_generate_pdf_answers_once (env : Env)
  (fields : list (jsstring * JsValue)) :
  sends_once
    (fun reply =>
       reply = mkReply 400 (json_error "Story content and images are required")
       \/ (exists document, reply = mkReply 200 (BPdf document))
       \/ reply = pdf_failed)
    (api_generate_pdf env (VObj fields)).
Proof.
  unfold api_generate_pdf. cbn [Value.get lift].
  do 3 apply sends_once_ret.
  destruct (negb _ || negb _).
  - apply sends_once_send. now left.
  - eapply sends_once_weaken;
      [|apply (sends_once_catch
                 (fun reply => exists document,
                                 reply = mkReply 200 (BPdf document))
                 (fun reply => reply = pdf_failed))].
    + intros reply [H|H]; auto.
    + answer. now eexists.
    + intros error. excuse; reflexivity.
Qed.

(** An image that cannot be had never costs the document: when the
    chapters of the story are texts, [/api/generate-pdf] answers with the
    document, whatever the image servers do. *)
Theorem api_generate_pdf_survives_its_images (env : Env)
  (fields : list (jsstring * JsValue)) (w : World) :
  let storyData := Value.lookup_prop (js "storyData") fields in
  let imageUrls := Value.lookup_prop (js "imageUrls") fields in
  let result := api_generate_pdf env (VObj fields) w in
  Value.truthy storyData = true ->
  Value.truthy imageUrls = true ->
  chapters_are_texts storyData ->
  fst result = Returned tt
  /\ exists document,
       replies (snd result) = replies w ++ [mkReply 200 (BPdf document)].
Proof.
  cbv zeta. intros Hstory Himages Htexts.
  unfold api_generate_pdf. cbn [Value.get lift].
  repeat (rewrite bind_ret; cbv beta).
  rewrite Hstory, Himages. cbn [negb orb].
  unfold try_catch. run.
  match goal with
  | |- context [generate_pdf_chapters env ?s ?u ?c ?i ?keys ?w1] =>
      pose proof (generate_pdf_chapters_returns env s u c Himages i keys w1
                    Htexts) as Hret;
      assert (Hrep : preserves replies (generate_pdf_chapters env s u c i keys))
        by (apply quiet_generate_pdf_chapters; intros; untouched);
      specialize (Hrep w1);
      destruct (generate_pdf_chapters env s u c i keys w1) as [r w2]
  end.
  cbn [fst snd] in *. subst r. run. cbn [fst snd replies set_replies].
  split; [reflexivity|]. eexists. rewrite Hrep. reflexivity.
Qed.

(** With every image gone, the document is still sent. *)
Lemma api_generate_pdf_without_its_images :
  let result := api_generate_pdf images_gone a_pdf_request (boot 0) in
  fst result = Returned tt
  /\ exists document,
       replies (snd result) = replies (boot 0) ++ [mkReply 200 (BPdf document)].
Proof.
  refine (api_generate_pdf_survives_its_images images_gone
            [(js "storyData", one_chapter_story);
             (js "imageUrls",
              VArr [VStr (js "https://images.example.com/1.png")]);
             (js "storyName", VStr (js "Dawn"))] (boot 0) _ _ _).
  - reflexivity.
  - reflexivity.
  - constructor; [|constructor].
    exists (js "Once upon a time."). reflexivity.
Defined.

(** *** [POST /api/generate-pdf-preview] and [GET /api/pdf-preview/:id] *)

Lemma preview_path_not_empty (env : Env) (previewId : jsstring) :
  exists c p, preview_path env previewId = c :: p.
Proof.
  unfold preview_path. destruct (dirname env) as [|c p].
  - change (js "/pdf-previews/") with (47%N :: js "pdf-previews/").
    eexists _, _. reflexivity.
  - eexists _, _. reflexivity.
Qed.

(** A preview that has been generated can be fetched: for a story whose
    chapters are texts, with a name and a list of images,
    [/api/generate-pdf-preview] answers 200 with a fresh identifier and the
    address of [/api/pdf-preview/] for it, the document is in the file
    registered under the identifier, and a request to that address is
    answered with the file. *)
Theorem preview_generated_can_be_fetched (env : Env)
  (fields : list (jsstring * JsValue)) (urls : list JsValue) (w : World) :
  let storyData := Value.lookup_prop (js "storyData") fields in
  let storyName := Value.lookup_prop (js "storyName") fields in
  let previewId := uuidv4 env (uuids w) in
  let generated := api_generate_pdf_preview env (VObj fields) w in
  Value.truthy storyData = true ->
  Value.truthy storyName = true ->
  Value.lookup_prop (js "imageUrls") fields = VArr urls ->
  chapters_are_texts storyData ->
  fst generated = Returned tt
  /\ replies (snd generated)
     = replies w
       ++ [mkReply 200
             (BJson (VObj [(js "previewId", VStr previewId);
                           (js "previewUrl",
                            VStr (js "http://localhost:4000/api/pdf-preview/"
                                  ++ previewId))]))]
  /\ JsMap.get previewId (pdfPreviews (snd generated))
     = Some (preview_path env previewId)
  /\ files (snd generated) !! preview_path env previewId = Some (clock w)
  /\ replies (snd (api_pdf_preview previewId (snd generated)))
     = replies (snd generated)
       ++ [mkReply 200 (BFile (preview_path env previewId))].
Proof.
  cbv zeta. intros Hstory Hname Himages Htexts.
  assert (Hshape :
            exists w2,
              api_generate_pdf_preview env (VObj fields) w
              = (Returned tt,
                 set_replies
                   (fun l =>
                      l ++ [mkReply 200
                              (BJson (VObj
                                 [(js "previewId", VStr (uuidv4 env (uuids w)));
                                  (js "previewUrl",
                                   VStr (preview_url (uuidv4 env (uuids w))))]))])
                   (set_pdfPreviews
                      (JsMap.set (uuidv4 env (uuids w))
                                 (preview_path env (uuidv4 env (uuids w))))
                      (set_files
                         (<[preview_path env (uuidv4 env (uuids w)) := clock w2]>)
                         w2)))
              /\ replies w2 = replies w /\ clock w2 = clock w).
  { unfold api_generate_pdf_preview. cbn [Value.get lift].
    repeat (rewrite bind_ret; cbv beta).
    rewrite Hstory, Hname, Himages. cbn [negb orb].
    unfold try_catch. run. cbn [fresh_uuid]. run.
    match goal with
    | |- context [preview_chapters env ?s ?u ?c ?i ?keys ?w1] =>
        pose proof (preview_chapters_returns env s u c eq_refl i keys w1
                      Htexts) as Hret;
        assert (Hrep : preserves replies (preview_chapters env s u c i keys))
          by (apply quiet_preview_chapters; intros; untouched);
        assert (Hclock : preserves clock (preview_chapters env s u c i keys))
          by (apply quiet_preview_chapters; intros; untouched);
        specialize (Hrep w1); specialize (Hclock w1);
        destruct (preview_chapters env s u c i keys w1) as [r w2]
    end.
    cbn [fst snd] in *. subst r. run.
    exists w2. split; [reflexivity|]. split; assumption. }
  destruct Hshape as (w2 & -> & Hrep & Hclock).
  cbn [fst snd replies pdfPreviews files set_replies set_pdfPreviews set_files].
  split; [reflexivity|]. split; [now rewrite Hrep|].
  split; [apply map_get_set|].
  split; [rewrite lookup_insert_eq; now rewrite Hclock|].
  rewrite api_pdf_preview_run.
  cbn [snd replies pdfPreviews set_replies set_pdfPreviews set_files].
  rewrite map_get_set.
  destruct (preview_path_not_empty env (uuidv4 env (uuids w))) as (c & p & ->).
  reflexivity.
Qed.

(** The first preview of a service that has just started. *)
Lemma first_preview_can_be_fetched :
  let generated :=
    api_generate_pdf_preview images_gone a_pdf_request (boot 1000) in
  replies (snd generated)
  = [mkReply 200
       (BJson (VObj [(js "previewId", VStr (js "preview-0"));
                     (js "previewUrl",
                      VStr (js "http://localhost:4000/api/pdf-preview/preview-0"))]))]
  /\ files (snd generated) !! js "/srv/app/pdf-previews/preview-0.pdf"
     = Some 1000
  /\ replies (snd (api_pdf_preview (js "preview-0") (snd generated)))
     = replies (snd generated)
       ++ [mkReply 200 (BFile (js "/srv/app/pdf-previews/preview-0.pdf"))].
Proof.
  pose proof (preview_generated_can_be_fetched images_gone
                [(js "storyData", one_chapter_story);
                 (js "imageUrls",
                  VArr [VStr (js "https://images.example.com/1.png")]);
                 (js "storyName", VStr (js "Dawn"))]
                [VStr (js "https://images.example.com/1.png")] (boot 1000))
    as H.
  cbv zeta in H.
  destruct H as (_ & Hreply & _ & Hfile & Hfetch).
  - reflexivity.
  - reflexivity.
  - reflexivity.
  - constructor; [|constructor].
    exists (js "Once upon a time."). reflexivity.
  - split; [exact Hreply|]. split; [exact Hfile|exact Hfetch].
Defined.

(** *** [POST /api/pdf] *)

Section PdfLoop.
Variable env : Env.
Variable storyData : JsValue.
Variable urls : list JsValue.
Variable count : nat.

Hypothesis no_image : Forall (fun url => Value.truthy url = false) urls.

Lemma no_image_at (i : nat) : Value.truthy (nth i urls VUndefined) = false.
Proof.
  destruct (nth_in_or_default i urls VUndefined) as [Hin| ->]; [|reflexivity].
  rewrite List.Forall_forall in no_image. now apply no_image.
Qed.

(** Without images the chapter loop calls nothing and sends nothing. *)
Lemma api_pdf_chapters_without_images (i : nat) (chapterKeys : list jsstring)
  (w : World) :
  Forall (fun chapterKey => exists text,
            Value.prop storyData chapterKey = VStr text) chapterKeys ->
  let result :=
    api_pdf_chapters env storyData (VArr urls) count i chapterKeys w in
  fst result = Returned tt
  /\ requests (snd result) = requests w
  /\ replies (snd result) = replies w.
Proof.
  cbv zeta. revert i w.
  induction chapterKeys as [|chapterKey later IH]; intros i w Htexts;
    [auto|].
  apply Forall_cons in Htexts as [[text Htext] Htexts].
  cbn [api_pdf_chapters Value.at_index lift]. run.
  rewrite no_image_at. cbn [ret]. rewrite bind_run.
  rewrite Htext. cbn [split_paragraphs lift ret]. rewrite bind_run.
  match goal with
  | |- context [forEach ?xs ?body ?w1] =>
      pose proof (forEach_returns xs body w1) as Hloop;
      assert (Hreq : preserves requests (forEach xs body)) by frame;
      assert (Hrep : preserves replies (forEach xs body)) by frame;
      specialize (Hreq w1); specialize (Hrep w1);
      destruct (forEach xs body w1) as [[[]|e] w2]
  end; cbn [fst snd] in *.
  2:{ exfalso. assert (H : @Threw unit e = Returned tt); [|discriminate].
      apply Hloop. intros x w'. run. reflexivity. }
  rewrite bind_run.
  destruct (IH (S i) w2 Htexts) as (Hres & Hreq' & Hrep').
  destruct (IH (S i) (set_document (fun l => l ++ [OpAddPage]) w2) Htexts)
    as (Hres1 & Hreq1 & Hrep1).
  destruct (Z.of_nat i <? Z.of_nat count - 1); cbn [doc ret].
  - rewrite Hres1, Hreq1, Hrep1. cbn. rewrite Hreq, Hrep. auto.
  - rewrite Hres, Hreq', Hrep'. rewrite Hreq, Hrep. auto.
Qed.

End PdfLoop.

(** [/api/pdf] on a request without [storyData] answers 400 and does
    nothing else.  On a story whose chapters are texts, with a list of
    images that holds no address, it sends the document, having called
    nothing. *)
Theorem api_pdf_without_images (env : Env)
  (fields : list (jsstring * JsValue)) (urls : list JsValue) (w : World) :
  let storyData := Value.lookup_prop (js "storyData") fields in
  let result := api_pdf env (VObj fields) w in
  (Value.truthy storyData = false ->
   result
   = (Returned tt,
      set_replies
        (fun l => l ++ [mkReply 400 (json_error "Story content is required")])
        w))
  /\ (Value.truthy storyData = true ->
      Value.lookup_prop (js "imageUrls") fields = VArr urls ->
      Forall (fun url => Value.truthy url = false) urls ->
      chapters_are_texts storyData ->
      fst result = Returned tt
      /\ requests (snd result) = requests w
      /\ exists document,
           replies (snd result) = replies w ++ [mkReply 200 (BPdf document)]).
Proof.
  cbv zeta. unfold api_pdf. cbn [Value.get lift].
  repeat (rewrite bind_ret; cbv beta).
  split.
  - intros ->. reflexivity.
  - intros -> -> Hnone Htexts. cbn [negb]. run.
    match goal with
    | |- context [api_pdf_chapters env ?s _ ?c ?i ?keys ?w1] =>
        destruct (api_pdf_chapters_without_images env s urls c Hnone i keys w1
                    Htexts) as (Hres & Hreq & Hrep);
        destruct (api_pdf_chapters env s (VArr urls) c i keys w1) as [r w2]
    end.
    cbn [fst snd] in *. subst r. run.
    cbn [send fst snd requests replies set_replies set_document] in *.
    split; [reflexivity|]. split; [rewrite Hreq; reflexivity|].
    eexists. rewrite Hrep. reflexivity.
Qed.

(** A story without images is printed without a call. *)
Lemma api_pdf_prints_a_story_without_images :
  let result := api_pdf images_gone a_pdf_request_with_no_images (boot 0) in
  fst result = Returned tt
  /\ requests (snd result) = requests (boot 0)
  /\ exists document,
       replies (snd result) = replies (boot 0) ++ [mkReply 200 (BPdf document)].
Proof.
  refine (proj2 (api_pdf_without_images images_gone
                   [(js "storyData", one_chapter_story);
                    (js "imageUrls", VArr []);
                    (js "storyName", VStr (js "Dawn"))] [] (boot 0))
                _ _ _ _).
  - reflexivity.
  - reflexivity.
  - constructor.
  - constructor; [|constructor].
    exists (js "Once upon a time."). reflexivity.
Defined.

(** ** Handlers that clean up *)

Section QuietPolling.
Context {X : Type} (part : World -> X).
Hypothesis no_call : forall env e, preserves part (call env e).
Hypothesis no_wait : forall ms, preserves part (delay ms).
Hypothesis no_log : forall args, preserves part (console_log args).

Lemma quiet_from_pdf_poll (env : Env) (flipbookId : JsValue)
  (attempts : list nat) :
  preserves part (from_pdf_poll env flipbookId attempts).
Proof.
  induction attempts as [|a later IH]; cbn [from_pdf_poll];
    frame; try apply no_call; try apply no_wait.
Qed.

Lemma quiet_from_url_poll (env : Env) (flipbookId : JsValue)
  (attempts : list nat) :
  preserves part (from_url_poll env flipbookId attempts).
Proof.
  induction attempts as [|a later IH]; cbn [from_url_poll];
    frame; try apply no_call; try apply no_wait; try apply no_log.
Qed.

End QuietPolling.

Lemma quiet_describeImage {X} (part : World -> X) (env : Env)
  (imageFilePath : jsstring) :
  (forall e, preserves part (call env e)) ->
  (forall args, preserves part (console_log args)) ->
  (forall p, preserves part (readFileSync p)) ->
  preserves part (describeImage env imageFilePath).
Proof.
  intros no_call no_log no_read. unfold describeImage, console_error.
  frame; try apply no_call; try apply no_log; try apply no_read.
Qed.

#[global] Hint Extern 1 (preserves _ (from_pdf_poll _ _ _)) =>
  (apply quiet_from_pdf_poll; intros; untouched) : quiet.
#[global] Hint Extern 1 (preserves _ (from_url_poll _ _ _)) =>
  (apply quiet_from_url_poll; intros; untouched) : quiet.
#[global] Hint Extern 1 (preserves _ (describeImage _ _)) =>
  (apply quiet_describeImage; intros; untouched) : quiet.

(** Walks through a computation made of clients and primitives that
    leave a component alone. *)
Ltac still :=
  repeat first
    [ solve [silent]
    | apply preserves_bind; [|intros ?]
    | apply preserves_try_catch; [|intros ?]
    | match goal with
      | |- preserves _ (if ?b then _ else _) => destruct b
      | |- preserves _ (match ?x with _ => _ end) => destruct x
      end ].

(** A handler that answers once and keeps its hands off the files, under
    a [finally] that deletes the upload: it returns, has answered once,
    and the upload is gone. *)
Lemma answers_and_unlinks (good : Reply -> Prop) (m : M unit) (p : jsstring)
  (w : World) :
  sends_once good m -> preserves files m -> is_Some (files w !! p) ->
  let result := try_finally m (unlinkSync p) w in
  fst result = Returned tt
  /\ (exists reply,
        replies (snd result) = replies w ++ [reply] /\ good reply)
  /\ files (snd result) !! p = None.
Proof.
  cbv zeta. intros Honce Hfiles [mtime Hfile].
  unfold try_finally.
  destruct (Honce w) as (Hret & reply & Hrep & Hgood).
  specialize (Hfiles w).
  destruct (m w) as [r w1]. cbn [fst snd] in *. subst r.
  unfold unlinkSync. rewrite Hfiles, Hfile. cbn.
  split; [reflexivity|]. split; [now exists reply|].
  apply lookup_delete_eq.
Qed.

(** The three handlers that take an upload, given that the upload is
    where multer stored it: each returns and has sent exactly one reply,
    the result or status 500, whatever the services answered. *)
Theorem upload_handlers_answer_once (env : Env) (file : Upload)
  (fields : list (jsstring * JsValue)) (w : World) :
  is_Some (files w !! path file) ->
  let answered (result : Completion unit * World) (failure : Reply -> Prop) :=
    fst result = Returned tt
    /\ exists reply,
         replies (snd result) = replies w ++ [reply]
         /\ (ok reply \/ failure reply) in
  answered (api_describe_image env (Some file) w)
           (fun reply => reply = internal_server_error)
  /\ answered (api_generate_story_from_image env (Some file) (VObj fields) w)
              (fun reply => reply = internal_server_error)
  /\ answered (api_create_flipbook_from_pdf env (Some file) w)
              (fun reply =>
                 exists error, reply = mkReply 500 (flipbook_failure error)).
Proof.
  cbv zeta. intros Hfile. split; [|split].
  - unfold api_describe_image.
    match goal with
    | |- context [try_finally ?m (unlinkSync ?p) w] =>
        destruct (answers_and_unlinks
                    (fun reply => ok reply \/ reply = internal_server_error)
                    m p w) as (Hret & Hrep & _)
    end; [| |exact Hfile|split; assumption].
    + apply sends_once_catch; [answer; reflexivity|].
      intros error. excuse; reflexivity.
    + still.
  - unfold api_generate_story_from_image. cbn [Value.get lift].
    repeat (rewrite bind_ret; cbv beta).
    match goal with
    | |- context [try_finally ?m (unlinkSync ?p) w] =>
        destruct (answers_and_unlinks
                    (fun reply => ok reply \/ reply = internal_server_error)
                    m p w) as (Hret & Hrep & _)
    end; [| |exact Hfile|split; assumption].
    + apply sends_once_catch; [answer; reflexivity|].
      intros error. excuse; reflexivity.
    + still.
  - unfold api_create_flipbook_from_pdf.
    match goal with
    | |- context [try_finally ?m (unlinkSync ?p) w] =>
        destruct (answers_and_unlinks
                    (fun reply =>
                       ok reply
                       \/ exists error,
                            reply = mkReply 500 (flipbook_failure error))
                    m p w) as (Hret & Hrep & _)
    end; [| |exact Hfile|split; assumption].
    + apply sends_once_catch; [answer; reflexivity|].
      intros error. unfold flipbook_catch. excuse; now exists error.
    + unfold flipbook_catch. still.
Qed.

(** A description of two paragraphs costs the client a reply 500, and
    the handler returns. *)
Lemma api_describe_image_refuses_politely :
  let result :=
    api_describe_image (describing two_paragraphs)
      (Some (mkUpload (js "uploads/3f9a") (js "fox.jpg")))
      (with_file (js "uploads/3f9a") 0 (boot 1000)) in
  fst result = Returned tt
  /\ exists reply,
       replies (snd result) = [reply]
       /\ (ok reply \/ reply = internal_server_error).
Proof.
  refine (proj1 (upload_handlers_answer_once (describing two_paragraphs)
                   (mkUpload (js "uploads/3f9a") (js "fox.jpg")) []
                   (with_file (js "uploads/3f9a") 0 (boot 1000)) _)).
  exists 0. vm_compute. reflexivity.
Defined.

(** *** [POST /api/create-flipbook-from-url] *)

(** Without an address the handler answers 400 and returns.  With one,
    it always ends in the [ReferenceError] of its [finally] block, after
    it has sent exactly one reply: the client is answered, the promise of
    the handler is rejected all the same. *)
Theorem create_flipbook_from_url_always_rejects (env : Env)
  (fields : list (jsstring * JsValue)) (w : World) :
  let previewUrl := Value.lookup_prop (js "previewUrl") fields in
  let result := api_create_flipbook_from_url env (VObj fields) w in
  (Value.truthy previewUrl = false ->
   result
   = (Returned tt,
      set_replies
        (fun l => l ++ [mkReply 400 (json_error "Preview URL is required")])
        w))
  /\ (Value.truthy previewUrl = true ->
      fst result = Threw (ReferenceError (js "tempFilePath is not defined"))
      /\ exists reply,
           replies (snd result) = replies w ++ [reply]
           /\ (ok reply
               \/ exists error,
                    reply = mkReply 500 (flipbook_failure error))).
Proof.
  cbv zeta. unfold api_create_flipbook_from_url. cbn [Value.get lift].
  rewrite bind_ret. cbv beta.
  split; intros ->; [reflexivity|]. cbn [negb].
  unfold try_finally.
  match goal with
  | |- context [let (r, w') := ?m w in _] =>
      assert (Honce : sends_once
                        (fun reply =>
                           ok reply
                           \/ exists error,
                                reply = mkReply 500 (flipbook_failure error))
                        m);
      [|destruct (Honce w) as (_ & reply & Hrep & Hgood);
        destruct (m w) as [r w1]]
  end.
  - apply sends_once_catch; [answer; reflexivity|].
    intros error. unfold flipbook_catch. excuse; now exists error.
  - cbn [fst snd throw] in *. split; [reflexivity|]. now exists reply.
Qed.

(** The client gets the timeout, the handler the [ReferenceError]. *)
Lemma create_flipbook_from_url_rejects_after_answering :
  let result :=
    api_create_flipbook_from_url never_ready a_preview_request (boot 1000) in
  fst result = Threw (ReferenceError (js "tempFilePath is not defined"))
  /\ exists reply,
       replies (snd result) = replies (boot 1000) ++ [reply]
       /\ (ok reply
           \/ exists error, reply = mkReply 500 (flipbook_failure error)).
Proof.
  refine (proj2 (create_flipbook_from_url_always_rejects never_ready
                   [(js "previewUrl",
                     VStr (js "http://localhost:4000/api/pdf-preview/preview-0"))]
                   (boot 1000)) _).
  reflexivity.
Defined.

(** ** The first version of the service *)

Section FirstVersion.
Variable env : Env.
Variable message : JsValue.

Let ask := OpenAI_chat_completions_create.

Lemma first_chat_attempt_run (w : World) :
  Part_000.chat_attempt env message w =
  (match upstream env ask (calls_to ask w) with
   | Resolved completion =>
       match Part_000.choice_content completion with
       | inr content =>
           if validateStoryPrompt message then Returned content
           else Threw (Error (js "Invalid story prompt."))
       | inl error => Threw error
       end
   | Rejected error => Threw error
   end, set_requests (fun r => r ++ [ask]) w).
Proof.
  unfold Part_000.chat_attempt. rewrite bind_run, call_run. fold ask.
  destruct (upstream env ask _) as [completion|error]; [|reflexivity].
  rewrite bind_run.
  destruct (Part_000.choice_content completion); cbn [lift ret throw];
    [reflexivity|].
  destruct (validateStoryPrompt message); reflexivity.
Qed.

Lemma first_makeChatRequest_fuel_eq (fuel retries : nat) :
  Part_000.makeChatRequest_fuel env fuel message retries =
  try_catch (Part_000.chat_attempt env message)
    (fun error =>
       if rate_limited error && (retries <? MAX_RETRIES)%nat
       then
         headers <- lift (Value.get (error_response error) (js "headers")) ;;
         header <- lift (Value.get headers (js "retry-after")) ;;
         delay (Part_000.retry_delay header) ;;
         match fuel with
         | S fuel' =>
             Part_000.makeChatRequest_fuel env fuel' message (retries + 1)
         | O => throw (Error (js "out of fuel"))
         end
       else
         console_error [LogVal (VStr (js "Error in makeChatRequest:"));
                        message_or_error error] ;;
         throw error).
Proof. destruct fuel; reflexivity. Qed.

(** The fuel given to [Part_000.makeChatRequest] is never used up. *)
Lemma first_makeChatRequest_fuel_enough (fuel1 fuel2 retries : nat)
  (w : World) :
  (MAX_RETRIES - retries <= fuel1)%nat ->
  (MAX_RETRIES - retries <= fuel2)%nat ->
  Part_000.makeChatRequest_fuel env fuel1 message retries w
  = Part_000.makeChatRequest_fuel env fuel2 message retries w.
Proof.
  revert fuel2 retries w.
  induction fuel1 as [|fuel1 IH]; intros fuel2 retries w H1 H2;
    rewrite (first_makeChatRequest_fuel_eq fuel2 retries);
    [rewrite (first_makeChatRequest_fuel_eq 0 retries)
    |rewrite (first_makeChatRequest_fuel_eq (S fuel1) retries)];
    unfold try_catch;
    destruct (Part_000.chat_attempt env message w) as [[v|error] w1];
    try reflexivity;
    destruct (rate_limited error); cbn [andb]; try reflexivity;
    destruct (Nat.ltb_spec retries MAX_RETRIES); try reflexivity.
  - lia.
  - destruct fuel2 as [|fuel2]; [lia|].
    rewrite !bind_run.
    destruct (lift (Value.get (error_response error) (js "headers")) w1)
      as [[headers|e] w2]; [|reflexivity].
    rewrite !bind_run.
    destruct (lift (Value.get headers (js "retry-after")) w2)
      as [[header|e] w3]; [|reflexivity].
    rewrite !bind_run. cbn [delay].
    apply IH; lia.
Qed.

(** Once the model has answered, the prompt decides. *)
Lemma first_makeChatRequest_completed (retries : nat) (w : World)
  (completion content : JsValue) :
  upstream env ask (calls_to ask w) = Resolved completion ->
  Part_000.choice_content completion = inr content ->
  let result := Part_000.makeChatRequest env message retries w in
  requests (snd result) = requests w ++ [ask]
  /\ timers (snd result) = timers w
  /\ fst result = if validateStoryPrompt message
                  then Returned content
                  else Threw (Error (js "Invalid story prompt.")).
Proof.
  cbv zeta. intros Hup Hcontent.
  unfold Part_000.makeChatRequest.
  rewrite first_makeChatRequest_fuel_eq. unfold try_catch.
  rewrite first_chat_attempt_run, Hup, Hcontent.
  destruct (validateStoryPrompt message); cbn; auto.
Qed.

End FirstVersion.

Section QuietFirstVersion.
Context {X : Type} (part : World -> X).
Hypothesis no_call : forall env e, preserves part (call env e).
Hypothesis no_wait : forall ms, preserves part (delay ms).
Hypothesis no_log : forall args, preserves part (console_log args).

Lemma quiet_first_makeChatRequest (env : Env) (message : JsValue)
  (retries : nat) :
  preserves part (Part_000.makeChatRequest env message retries).
Proof.
  unfold Part_000.makeChatRequest.
  generalize (MAX_RETRIES - retries)%nat as fuel.
  intros fuel. revert retries.
  induction fuel as [|fuel IH]; intros retries;
    cbn [Part_000.makeChatRequest_fuel];
    unfold Part_000.chat_attempt, console_error;
    frame; try apply no_call; try apply no_wait; try apply no_log;
    try apply IH.
Qed.

Lemma quiet_first_summarizeStory (env : Env) (story : JsValue) :
  preserves part (Part_000.summarizeStory env story).
Proof.
  unfold Part_000.summarizeStory, console_error.
  frame; try apply no_call; try apply no_log.
Qed.

End QuietFirstVersion.

#[global] Hint Extern 1 (preserves _ (Part_000.makeChatRequest _ _ _)) =>
  (apply quiet_first_makeChatRequest; intros; untouched) : quiet.
#[global] Hint Extern 1 (preserves _ (Part_000.summarizeStory _ _)) =>
  (apply quiet_first_summarizeStory; intros; untouched) : quiet.

(** In the first version the prompt is looked at only when the model has
    answered: a prompt without one of the three phrases costs a
    completion and is refused then, with an error that is thrown on at
    once; a prompt with one of them gets the text of the completion. *)
Theorem first_version_validates_after_the_call (env : Env)
  (message : JsValue) (retries : nat) (w : World)
  (completion content : JsValue) :
  let ask := OpenAI_chat_completions_create in
  let result := Part_000.makeChatRequest env message retries w in
  upstream env ask (calls_to ask w) = Resolved completion ->
  Part_000.choice_content completion = inr content ->
  requests (snd result) = requests w ++ [ask]
  /\ timers (snd result) = timers w
  /\ fst result = if validateStoryPrompt message
                  then Returned content
                  else Threw (Error (js "Invalid story prompt.")).
Proof. cbv zeta. apply first_makeChatRequest_completed. Qed.

(** "Make it scarier" is refused, one completion later. *)
Lemma first_version_refuses_late :
  let result :=
    Part_000.makeChatRequest (completing (js "Once upon a time."))
      (VStr (js "Make it scarier")) 0 (boot 0) in
  requests (snd result) = [OpenAI_chat_completions_create]
  /\ timers (snd result) = []
  /\ fst result = Threw (Error (js "Invalid story prompt.")).
Proof.
  refine (first_version_validates_after_the_call
            (completing (js "Once upon a time."))
            (VStr (js "Make it scarier")) 0 (boot 0)
            (completion (VStr (js "Once upon a time.")))
            (VStr (js "Once upon a time.")) _ _); reflexivity.
Defined.

(** The errors of the OpenAI client carry the status and the headers of
    the answer on themselves, and no [response].  The first version looks
    for a rate limit in [error.response], so it finds none in them: a
    failure of the completion call, an answer 429 included, is logged and
    thrown on after that one call, and the wait for [retry-after] is never
    reached. *)
Theorem first_version_retries_no_client_error (env : Env) (message : JsValue)
  (retries : nat) (w : World) (error : JsError) :
  let ask := OpenAI_chat_completions_create in
  let result := Part_000.makeChatRequest env message retries w in
  upstream env ask (calls_to ask w) = Rejected error ->
  Value.truthy (error_response error) = false ->
  fst result = Threw error
  /\ requests (snd result) = requests w ++ [ask]
  /\ timers (snd result) = timers w
  /\ console (snd result)
     = console w ++ [[LogVal (VStr (js "Error in makeChatRequest:"));
                      message_or_error error]].
Proof.
  cbv zeta. intros Hup Hnone.
  unfold Part_000.makeChatRequest.
  rewrite first_makeChatRequest_fuel_eq. unfold try_catch.
  rewrite first_chat_attempt_run, Hup.
  unfold rate_limited. rewrite Hnone. cbn. auto.
Qed.

(** A rate limit of the model is not waited out. *)
Lemma first_version_gives_up_on_429 :
  let result :=
    Part_000.makeChatRequest client_throttled (VStr (js "Tell me a story"))
                             0 (boot 0) in
  fst result = Threw client_rate_limit
  /\ requests (snd result) = [OpenAI_chat_completions_create]
  /\ timers (snd result) = []
  /\ console (snd result)
     = [[LogVal (VStr (js "Error in makeChatRequest:"));
         LogVal (VStr (js "429 Rate limit reached for requests"))]].
Proof.
  refine (first_version_retries_no_client_error client_throttled
            (VStr (js "Tell me a story")) 0 (boot 0) client_rate_limit _ _);
    reflexivity.
Defined.

(** The two story handlers of the first version return and send exactly
    one reply, the result or "Internal Server Error", whatever the model
    answers.  A prompt without one of the three phrases is answered with
    status 500, after one completion has been paid for and before any
    summary or image is asked for; this holds for the prompt of a
    regeneration as well. *)
Theorem first_version_answers_once (env : Env)
  (fields : list (jsstring * JsValue)) (w : World)
  (completion content : JsValue) :
  let ask := OpenAI_chat_completions_create in
  let refused (prompt : JsValue) (result : Completion unit * World) :=
    upstream env ask (calls_to ask w) = Resolved completion ->
    Part_000.choice_content completion = inr content ->
    validateStoryPrompt prompt = false ->
    fst result = Returned tt
    /\ requests (snd result) = requests w ++ [ask]
    /\ replies (snd result) = replies w ++ [internal_server_error] in
  sends_once (fun reply => ok reply \/ reply = internal_server_error)
             (Part_000.api_chat env (VObj fields))
  /\ sends_once (fun reply => ok reply \/ reply = internal_server_error)
                (Part_000.api_regenerate_story env (VObj fields))
  /\ refused (Value.lookup_prop (js "message") fields)
             (Part_000.api_chat env (VObj fields) w)
  /\ refused (or_else (Value.lookup_prop (js "regeneratePrompt") fields)
                      (Value.lookup_prop (js "story") fields))
             (Part_000.api_regenerate_story env (VObj fields) w).
Proof.
  cbv zeta. split; [|split; [|split]].
  - unfold Part_000.api_chat. cbn [Value.get lift].
    apply sends_once_ret.
    apply sends_once_catch; [answer; reflexivity|].
    intros error. excuse; reflexivity.
  - unfold Part_000.api_regenerate_story. cbn [Value.get lift].
    do 2 apply sends_once_ret.
    apply sends_once_catch; [answer; reflexivity|].
    intros error. excuse; reflexivity.
  - intros Hup Hcontent Hbad.
    unfold Part_000.api_chat. cbn [Value.get lift].
    rewrite bind_ret. cbv beta. unfold try_catch. rewrite bind_run.
    destruct (first_makeChatRequest_completed env
                (Value.lookup_prop (js "message") fields) 0 w completion
                content Hup Hcontent) as (Hreq & _ & Hres).
    rewrite Hbad in Hres.
    assert (Hrep : preserves replies
                     (Part_000.makeChatRequest env
                        (Value.lookup_prop (js "message") fields) 0))
      by (apply quiet_first_makeChatRequest; intros; untouched).
    specialize (Hrep w).
    destruct (Part_000.makeChatRequest env _ 0 w) as [r w1].
    cbn [fst snd] in *. subst r. cbn. rewrite Hreq, Hrep. auto.
  - intros Hup Hcontent Hbad.
    unfold Part_000.api_regenerate_story. cbn [Value.get lift].
    repeat (rewrite bind_ret; cbv beta). unfold try_catch. rewrite bind_run.
    destruct (first_makeChatRequest_completed env
                (or_else (Value.lookup_prop (js "regeneratePrompt") fields)
                         (Value.lookup_prop (js "story") fields))
                0 w completion content Hup Hcontent) as (Hreq & _ & Hres).
    rewrite Hbad in Hres.
    assert (Hrep : preserves replies
                     (Part_000.makeChatRequest env
                        (or_else
                           (Value.lookup_prop (js "regeneratePrompt") fields)
                           (Value.lookup_prop (js "story") fields)) 0))
      by (apply quiet_first_makeChatRequest; intros; untouched).
    specialize (Hrep w).
    destruct (Part_000.makeChatRequest env _ 0 w) as [r w1].
    cbn [fst snd] in *. subst r. cbn. rewrite Hreq, Hrep. auto.
Qed.

(** A regeneration that does not say "story" fails, at the price of a
    completion. *)
Lemma first_version_cannot_regenerate :
  let result :=
    Part_000.api_regenerate_story (completing (js "Once upon a time."))
      (VObj [(js "story", VStr (js "Once upon a time."));
             (js "regeneratePrompt", VStr (js "Make it scarier"))])
      (boot 0) in
  fst result = Returned tt
  /\ requests (snd result) = [OpenAI_chat_completions_create]
  /\ replies (snd result) = [internal_server_error].
Proof.
  refine (proj2 (proj2 (proj2
           (first_version_answers_once (completing (js "Once upon a time."))
              [(js "story", VStr (js "Once upon a time."));
               (js "regeneratePrompt", VStr (js "Make it scarier"))]
              (boot 0) (completion (VStr (js "Once upon a time.")))
              (VStr (js "Once upon a time.")))))
           _ _ _); reflexivity.
Defined.

(** ** The second version of the service *)

(** [/api/create-flipbook] of the second version never reaches the
    flipbook service: a request with all three fields is answered with
    status 500 and the message of the [ReferenceError] for
    [flipbookApiKey], without any call; a request that lacks one of them
    is answered with status 400. *)
Theorem second_version_cannot_create_flipbooks (env : Env)
  (fields : list (jsstring * JsValue)) (w : World) :
  let complete :=
    Value.truthy (Value.lookup_prop (js "storyData") fields)
    && Value.truthy (Value.lookup_prop (js "imageUrls") fields)
    && Value.truthy (Value.lookup_prop (js "storyName") fields) in
  Part_001.api_create_flipbook env (VObj fields) w
  = (Returned tt,
     set_replies
       (fun l =>
          l ++ [if complete
                then mkReply 500
                       (BJson (VObj
                          [(js "error", VStr (js "Failed to create flipbook"));
                           (js "details",
                            VStr (js "flipbookApiKey is not defined"))]))
                else mkReply 400
                       (json_error
                          "Missing required fields: storyData, imageUrls, storyName")])
       (if complete
        then set_console
               (fun l =>
                  l ++ [[LogVal (VStr (js "Error creating flipbook:"));
                         LogErr (ReferenceError
                                   (js "flipbookApiKey is not defined"))]])
               w
        else w))
  /\ requests (snd (Part_001.api_create_flipbook env (VObj fields) w))
     = requests w.
Proof.
  cbv zeta. unfold Part_001.api_create_flipbook. cbn [Value.get lift].
  repeat (rewrite bind_ret; cbv beta).
  destruct (Value.truthy (Value.lookup_prop (js "storyData") fields));
    destruct (Value.truthy (Value.lookup_prop (js "imageUrls") fields));
    destruct (Value.truthy (Value.lookup_prop (js "storyName") fields));
    split; reflexivity.
Qed.

(** ** Preview store: sweeping again *)

(** A sweep over entries that all have a young file changes nothing. *)
Lemma sweep_of_young_entries (now : Z) (todo : list (jsstring * jsstring))
  (w : World) :
  (forall id path, In (id, path) todo ->
     exists mtime, files w !! path = Some mtime /\ now - mtime <= 3600000) ->
  forEach todo (sweep_entry now) w = (Returned tt, w).
Proof.
  induction todo as [|[id path] todo IH]; intros Hyoung; [reflexivity|].
  cbn [forEach]. rewrite bind_run, sweep_entry_eq.
  destruct (Hyoung id path) as (mtime & -> & Hage); [now left|].
  destruct (Z.gtb_spec (now - mtime) 3600000); [lia|].
  apply IH. intros id' path' Hin. apply (Hyoung id' path'). now right.
Qed.

Lemma cleanupPreviews_clock : preserves clock cleanupPreviews.
Proof. unfold cleanupPreviews, sweep_entry. frame. Qed.

(** After a sweep of a consistent store, every preview that is left has
    its file, at most one hour old; nothing has been added to the store;
    and a second sweep at that moment changes nothing. *)
Theorem cleanupPreviews_twice (w : World) :
  consistent w ->
  let swept := snd (cleanupPreviews w) in
  (forall id path, In (id, path) (pdfPreviews swept) ->
     In (id, path) (pdfPreviews w)
     /\ exists mtime,
          files swept !! path = Some mtime /\ clock w - mtime <= 3600000)
  /\ cleanupPreviews swept = (Returned tt, swept).
Proof.
  cbv zeta. intros Hagree.
  destruct (cleanupPreviews_visits w Hagree) as (_ & Hf & Hp & _).
  assert (Hleft : forall id path,
            In (id, path) (pdfPreviews (snd (cleanupPreviews w))) ->
            In (id, path) (pdfPreviews w)
            /\ exists mtime,
                 files (snd (cleanupPreviews w)) !! path = Some mtime
                 /\ clock w - mtime <= 3600000).
  { intros id path Hin. apply Hp in Hin as [Hin Hnone].
    split; [exact Hin|].
    destruct Hagree as (_ & _ & Hfiles).
    destruct (Hfiles id path Hin) as [_ [mtime Hfile]].
    exists mtime.
    assert (Hage : clock w - mtime <= 3600000).
    { destruct (Z.le_gt_cases (clock w - mtime) 3600000) as [H|H];
        [exact H|].
      exfalso. apply Hnone. exists path, mtime. repeat split; auto. lia. }
    split; [|exact Hage].
    apply Hf. split; [exact Hfile|].
    intros (id' & _ & Hold). lia. }
  split; [exact Hleft|].
  rewrite cleanupPreviews_eq. apply sweep_of_young_entries.
  intros id path Hin. rewrite cleanupPreviews_clock.
  destruct (Hleft id path Hin) as (_ & mtime & Hfile & Hage).
  now exists mtime.
Qed.

(** The store swept after an hour is empty and stays as it is. *)
Lemma second_sweep_after_an_hour :
  cleanupPreviews (snd (cleanupPreviews (one_preview 3600001)))
  = (Returned tt, snd (cleanupPreviews (one_preview 3600001))).
Proof.
  refine (proj2 (cleanupPreviews_twice (one_preview 3600001) _)).
  split; [|split].
  - vm_compute. apply NoDup_singleton.
  - vm_compute. apply NoDup_singleton.
  - intros i p [[= <- <-]|[]]. split; [discriminate|].
    exists 0. vm_compute. reflexivity.
Defined.

(** ** Story clients *)

(** [summarizeStory] and [generateImage] make exactly one call each and
    throw its failure on unchanged.  [summarizeStory] returns what the
    first choice holds as its content, whatever that is; [generateImage]
    returns the address of the first image, and fails with a [TypeError]
    when the service returns no image at all. *)
Theorem story_clients_call_once (env : Env) (story prompt : JsValue)
  (w : World) :
  let chat := Axios POST CHAT_COMPLETIONS_URL in
  let draw := OpenAI_images_generate in
  let summarized := summarizeStory env story w in
  let drawn := generateImage env prompt w in
  requests (snd summarized) = requests w ++ [chat]
  /\ requests (snd drawn) = requests w ++ [draw]
  /\ fst summarized
     = match upstream env chat (calls_to chat w) with
       | Resolved response =>
           match first_choice_content response with
           | inr summary => Returned summary
           | inl error => Threw error
           end
       | Rejected error => Threw error
       end
  /\ (forall error,
        upstream env draw (calls_to draw w) = Rejected error ->
        fst drawn = Threw error)
  /\ (forall response images image,
        upstream env draw (calls_to draw w) = Resolved response ->
        Value.get response (js "data") = inr (VArr (image :: images)) ->
        fst drawn = match Value.get image (js "url") with
                    | inr url => Returned url
                    | inl error => Threw error
                    end)
  /\ (forall response,
        upstream env draw (calls_to draw w) = Resolved response ->
        Value.get response (js "data") = inr (VArr []) ->
        fst drawn
        = Threw (TypeError
                   (js "Cannot read properties of undefined (reading 'url')"))).
Proof.
  cbv zeta. unfold summarizeStory, generateImage, log_and_rethrow.
  split; [|split; [|split; [|split; [|split]]]].
  - unfold try_catch. rewrite bind_run, call_run.
    destruct (upstream env _ _) as [response|error]; [|reflexivity].
    rewrite bind_run.
    destruct (first_choice_content response); reflexivity.
  - unfold try_catch. rewrite bind_run, call_run.
    destruct (upstream env _ _) as [response|error]; [|reflexivity].
    rewrite bind_run.
    destruct (Value.get response (js "data")) as [e|data]; [reflexivity|].
    cbn [lift ret]. rewrite bind_run.
    destruct (Value.at_index data 0) as [e|first]; [reflexivity|].
    cbn [lift ret].
    destruct (Value.get first (js "url")); reflexivity.
  - rewrite fst_log_rethrow, bind_run, call_run.
    destruct (upstream env _ _) as [response|error]; [|reflexivity].
    rewrite bind_run.
    destruct (first_choice_content response); reflexivity.
  - intros error Hup. rewrite fst_log_rethrow, bind_run, call_run, Hup.
    reflexivity.
  - intros response images image Hup Hdata.
    rewrite fst_log_rethrow, bind_run, call_run, Hup.
    rewrite bind_run, Hdata. cbn [lift ret Value.at_index nth].
    rewrite bind_run. cbn [ret].
    destruct (Value.get image (js "url")); reflexivity.
  - intros response Hup Hdata.
    rewrite fst_log_rethrow, bind_run, call_run, Hup.
    rewrite bind_run, Hdata. reflexivity.
Qed.
